(** * Projet-de-BI: the transformation stage of the Northwind ELT pipeline

    A shallow embedding of [src/scripts/transformer.py] and the properties
    its specification states about it.

    The Python module is written against pandas.  The embedding keeps the
    program's own shape (one Rocq definition per Python function, written
    statement by statement in an exception monad) and models the pandas
    operations it calls at the level of tables:

    - a cell is a [value]: a null (NaN / None / NaT), an integer, a string
      or a timestamp;
    - a [DataFrame] is an ordered list of column labels together with its
      rows in order, each row holding its cells by label;
    - a Python exception ([KeyError], [ValueError], [TypeError]) is a
      [Raise] in the [result] monad.

    Scope of the model.  Strings are sequences of characters below 256
    (Latin-1); [isspace], [strip] and [lower] are Python's on all of them,
    [upper] on all but the three whose upper case is not one character
    below 256, and a theorem about upper-cased text says that its text
    has none of these.  Column labels of one frame are taken to be
    pairwise distinct, and a theorem about frames whose labels the
    program itself rewrites says so.  Floating-point arithmetic and the
    date parser of pandas are not reimplemented: they are fields of a
    class. *)

From Stdlib Require Import List String Ascii ZArith Lia Bool Arith.
From Stdlib Require Import Permutation Sorted.
Import ListNotations.

Local Open Scope string_scope.
Local Open Scope list_scope.


(** ** Python strings *)

Module Str.

(** [str.isspace] on a character below 256: TAB, LF, VT, FF, CR, the four
    separators FS, GS, RS, US, the space, NEL (133) and the no-break
    space (160).  These are the characters [str.strip] removes. *)
Definition isspace (c : ascii) : bool :=
  let n := nat_of_ascii c in
  ((9 <=? n)%nat && (n <=? 13)%nat) || ((28 <=? n)%nat && (n <=? 32)%nat) ||
  (n =? 133)%nat || (n =? 160)%nat.

(** [str.lower] on a character below 256: the letters A to Z and the
    capital letters of Latin-1, 192 to 222 without the multiplication
    sign (215). *)
Definition lower_char (c : ascii) : ascii :=
  let n := nat_of_ascii c in
  if ((65 <=? n)%nat && (n <=? 90)%nat) ||
     ((192 <=? n)%nat && (n <=? 222)%nat && negb (n =? 215)%nat)
  then ascii_of_nat (n + 32) else c.

(** The characters below 256 whose upper case is one character below
    256: all but the micro sign (181, upper case U+039C), the sharp s
    (223, upper case SS) and the y with diaeresis (255, upper case
    U+0178). *)
Definition has_upper (c : ascii) : bool :=
  let n := nat_of_ascii c in
  negb ((n =? 181)%nat || (n =? 223)%nat || (n =? 255)%nat).

(** [str.upper] on a character of [has_upper]: the letters a to z and the
    small letters of Latin-1, 224 to 254 without the division sign
    (247). *)
Definition upper_char (c : ascii) : ascii :=
  let n := nat_of_ascii c in
  if ((97 <=? n)%nat && (n <=? 122)%nat) ||
     ((224 <=? n)%nat && (n <=? 254)%nat && negb (n =? 247)%nat)
  then ascii_of_nat (n - 32) else c.

Fixpoint smap (f : ascii -> ascii) (s : string) : string :=
  match s with
  | EmptyString => EmptyString
  | String c s' => String (f c) (smap f s')
  end.

(** [s.lower()], and [s.upper()] for a string of [has_upper] characters *)
Definition lower : string -> string := smap lower_char.
Definition upper : string -> string := smap upper_char.

Fixpoint lstrip (s : string) : string :=
  match s with
  | EmptyString => EmptyString
  | String c s' => if isspace c then lstrip s' else s
  end.

Fixpoint rstrip (s : string) : string :=
  match s with
  | EmptyString => EmptyString
  | String c s' =>
      match rstrip s' with
      | EmptyString => if isspace c then EmptyString else String c EmptyString
      | r => String c r
      end
  end.

(** [s.strip()] *)
Definition strip (s : string) : string := rstrip (lstrip s).

(** [s.replace(x, '')] for a one-character [x] *)
Fixpoint remove_char (x : ascii) (s : string) : string :=
  match s with
  | EmptyString => EmptyString
  | String c s' =>
      if Ascii.eqb c x then remove_char x s' else String c (remove_char x s')
  end.

(** [sep.join(l)] *)
Fixpoint join (sep : string) (l : list string) : string :=
  match l with
  | [] => EmptyString
  | [s] => s
  | s :: rest => (s ++ sep ++ join sep rest)%string
  end.

(** Every character of [s] satisfies [p]. *)
Fixpoint sforall (p : ascii -> bool) (s : string) : bool :=
  match s with
  | EmptyString => true
  | String c s' => p c && sforall p s'
  end.

Definition tab : ascii := ascii_of_nat 9.

(** A string that [upper] upper-cases as Python does. *)
Definition upper_exact (s : string) : bool := sforall has_upper s.

Definition isdigit (c : ascii) : bool :=
  let n := nat_of_ascii c in (48 <=? n)%nat && (n <=? 57)%nat.

(** A date written [YYYY-MM-DD]: four digits, two digits and two digits,
    with a hyphen between them. *)
Definition iso_date (s : string) : bool :=
  match list_ascii_of_string s with
  | [y1; y2; y3; y4; h1; m1; m2; h2; d1; d2] =>
      forallb isdigit [y1; y2; y3; y4; m1; m2; d1; d2] &&
      Ascii.eqb h1 "-" && Ascii.eqb h2 "-"
  | _ => false
  end.

End Str.

(** ** standardize_column_names *)

(** The list comprehension of [standardize_column_names]:
    [col.lower().strip().replace(' ', '').replace('_', '')]. *)
Definition standardize_name (col : string) : string :=
  Str.remove_char "_" (Str.remove_char " " (Str.strip (Str.lower col))).

Definition standardize_names (cols : list string) : list string :=
  map standardize_name cols.

(** A label free of spaces and underscores. *)
Definition no_space_underscore (s : string) : bool :=
  Str.sforall (fun c => negb (Ascii.eqb c " ") && negb (Ascii.eqb c "_")) s.

(** A name whose only whitespace, if any, is the space character. *)
Definition only_plain_spaces (s : string) : bool :=
  Str.sforall (fun c => negb (Str.isspace c) || Ascii.eqb c " ") s.

(** ** Python exceptions *)

Inductive exn : Type :=
| KeyError (label : string)
| ValueError (msg : string)
| TypeError (msg : string).

Inductive result (A : Type) : Type :=
| Ok (a : A)
| Raise (e : exn).

Arguments Ok {A} a.
Arguments Raise {A} e.

Definition bind {A B : Type} (m : result A) (k : A -> result B) : result B :=
  match m with
  | Ok a => k a
  | Raise e => Raise e
  end.

Notation "x <- m ;; k" := (bind m (fun x => k))
  (at level 61, m at next level, right associativity).

Fixpoint mapM {A B : Type} (f : A -> result B) (l : list A) : result (list B) :=
  match l with
  | [] => Ok []
  | a :: l' => b <- f a ;; bs <- mapM f l' ;; Ok (b :: bs)
  end.

(** ** Timestamps

    A pandas [Timestamp]: a calendar date and a time of day (nanoseconds
    since midnight).  [datetime64[ns]] holds the years 1677 to 2262. *)

Record Timestamp : Type := mkTimestamp {
  ts_year : Z;
  ts_month : Z;
  ts_day : Z;
  ts_nanos : Z
}.

Definition is_leap (y : Z) : bool :=
  ((y mod 4 =? 0) && negb (y mod 100 =? 0) || (y mod 400 =? 0))%Z.

Definition days_in_month (y m : Z) : Z :=
  (if m =? 2 then (if is_leap y then 29 else 28)
   else if (m =? 4) || (m =? 6) || (m =? 9) || (m =? 11) then 30
   else 31)%Z.

Definition valid_timestamp (t : Timestamp) : Prop :=
  (1677 <= ts_year t <= 2262 /\
   1 <= ts_month t <= 12 /\
   1 <= ts_day t <= days_in_month (ts_year t) (ts_month t) /\
   0 <= ts_nanos t < 86400000000000)%Z.

Definition ts_eqb (a b : Timestamp) : bool :=
  ((ts_year a =? ts_year b) && (ts_month a =? ts_month b) &&
   (ts_day a =? ts_day b) && (ts_nanos a =? ts_nanos b))%Z.

(** The calendar dates of two timestamps, compared: year, then month, then day. *)
Definition date_ltb (a b : Timestamp) : bool :=
  ((ts_year a <? ts_year b) ||
   ((ts_year a =? ts_year b) &&
    ((ts_month a <? ts_month b) ||
     ((ts_month a =? ts_month b) && (ts_day a <? ts_day b)))))%Z.

Definition same_date (a b : Timestamp) : bool :=
  ((ts_year a =? ts_year b) && (ts_month a =? ts_month b) &&
   (ts_day a =? ts_day b))%Z.

(** The order of timestamps: by date, then by time of day. *)
Definition ts_ltb (a b : Timestamp) : bool :=
  date_ltb a b || (same_date a b && (ts_nanos a <? ts_nanos b)%Z).

Definition ts_leb (a b : Timestamp) : bool := negb (ts_ltb b a).

(** *** Digits *)

Definition digit (d : Z) : ascii := ascii_of_nat (48 + Z.to_nat (d mod 10)).

Definition pad2 (n : Z) : string :=
  String (digit (n / 10)) (String (digit n) EmptyString).

Definition pad4 (n : Z) : string :=
  String (digit (n / 1000)) (String (digit (n / 100)) (pad2 n)).

(** [t.strftime('%Y%m%d')] *)
Definition strftime_Ymd (t : Timestamp) : string :=
  (pad4 (ts_year t) ++ pad2 (ts_month t) ++ pad2 (ts_day t))%string.

(** [str(t)] of a timestamp, date part: [YYYY-MM-DD]. *)
Definition isoformat (t : Timestamp) : string :=
  (pad4 (ts_year t) ++ "-" ++ pad2 (ts_month t) ++ "-" ++ pad2 (ts_day t))%string.

Definition digit_value (c : ascii) : option Z :=
  let n := nat_of_ascii c in
  if (48 <=? n)%nat && (n <=? 57)%nat then Some (Z.of_nat (n - 48)) else None.

Fixpoint parse_digits (acc : Z) (s : string) : option Z :=
  match s with
  | EmptyString => Some acc
  | String c s' =>
      match digit_value c with
      | Some d => parse_digits (acc * 10 + d) s'
      | None => None
      end
  end.

(** [int(s)] for a string of decimal digits, the only strings the program
    converts; [None] stands for the [ValueError] of any other string. *)
Definition int_of_string (s : string) : option Z :=
  match s with
  | EmptyString => None
  | _ => parse_digits 0 s
  end.

Fixpoint digits_of_pos (fuel : nat) (n : Z) (acc : string) : string :=
  match fuel with
  | O => acc
  | S fuel' =>
      let acc' := String (digit n) acc in
      if (n <? 10)%Z then acc' else digits_of_pos fuel' (n / 10) acc'
  end.

(** [str(z)] for an integer: a binary numeral has at least as many bits as
    its decimal form has digits, which bounds the loop. *)
Definition string_of_Z (z : Z) : string :=
  let n := Z.abs z in
  let ds := digits_of_pos (S (Z.to_nat (Z.log2 n))) n EmptyString in
  if (z <? 0)%Z then String "-" ds else ds.

(** ** Cells and series *)

Inductive value : Type :=
| NaN                       (* NaN, None, NaT: a missing cell *)
| VInt (z : Z)
| VStr (s : string)
| VTime (t : Timestamp).

Definition value_eqb (a b : value) : bool :=
  match a, b with
  | NaN, NaN => true
  | VInt x, VInt y => (x =? y)%Z
  | VStr x, VStr y => String.eqb x y
  | VTime x, VTime y => ts_eqb x y
  | _, _ => false
  end.

Definition notnull (v : value) : bool :=
  match v with NaN => false | _ => true end.

(** [str(v)], what [astype(str)] puts in a cell. *)
Definition str (v : value) : string :=
  match v with
  | NaN => "nan"
  | VInt z => string_of_Z z
  | VStr s => s
  | VTime t => isoformat t
  end.

Definition astype_str (s : list value) : list value :=
  map (fun v => VStr (str v)) s.

(** [.str.upper()] and [.str.strip()]: a cell that is not a string becomes NaN. *)
Definition str_upper (s : list value) : list value :=
  map (fun v => match v with VStr x => VStr (Str.upper x) | _ => NaN end) s.

Definition str_strip (s : list value) : list value :=
  map (fun v => match v with VStr x => VStr (Str.strip x) | _ => NaN end) s.

(** [s.fillna(v)] *)
Definition fillna (v : value) (s : list value) : list value :=
  map (fun x => match x with NaN => v | _ => x end) s.

(** [astype(int)] on one cell. *)
Definition to_int (v : value) : result value :=
  match v with
  | VInt z => Ok (VInt z)
  | VStr s =>
      match int_of_string s with
      | Some z => Ok (VInt z)
      | None => Raise (ValueError "invalid literal for int()")
      end
  | _ => Raise (ValueError "cannot convert to integer")
  end.

Definition astype_int (s : list value) : result (list value) := mapM to_int s.

(** [range(a, b)] as a column of integers. *)
Definition range (a b : nat) : list value :=
  map (fun n => VInt (Z.of_nat n)) (seq a (b - a)).

(** A total order on cells, for [sort_values] and the group order of
    [groupby]: nulls, then integers, then strings, then timestamps. *)
Fixpoint string_leb (a b : string) : bool :=
  match a, b with
  | EmptyString, _ => true
  | String _ _, EmptyString => false
  | String x a', String y b' =>
      let nx := nat_of_ascii x in
      let ny := nat_of_ascii y in
      (nx <? ny)%nat || ((nx =? ny)%nat && string_leb a' b')
  end.

Definition value_leb (a b : value) : bool :=
  match a, b with
  | NaN, _ => true
  | VInt _, NaN => false
  | VInt x, VInt y => (x <=? y)%Z
  | VInt _, _ => true
  | VStr _, (NaN | VInt _) => false
  | VStr x, VStr y => string_leb x y
  | VStr _, VTime _ => true
  | VTime x, VTime y => ts_leb x y
  | VTime _, _ => false
  end.

Fixpoint insert_sorted {A : Type} (leb : A -> A -> bool) (x : A) (l : list A) : list A :=
  match l with
  | [] => [x]
  | y :: l' => if leb x y then x :: l else y :: insert_sorted leb x l'
  end.

(** A stable ascending sort. *)
Fixpoint sort {A : Type} (leb : A -> A -> bool) (l : list A) : list A :=
  match l with
  | [] => []
  | x :: l' => insert_sorted leb x (sort leb l')
  end.

(** [unique()]: the distinct cells in order of first appearance. *)
Fixpoint unique (l : list value) : list value :=
  match l with
  | [] => []
  | x :: l' => x :: filter (fun y => negb (value_eqb x y)) (unique l')
  end.

(** [dropna()] *)
Definition dropna (l : list value) : list value := filter notnull l.
(** ** DataFrames *)

(** A row holds its cells by column label, in column order. *)
Definition row : Type := list (string * value).

Record DataFrame : Type := mkDataFrame {
  columns : list string;
  rows : list row
}.

(** [pd.DataFrame()] *)
Definition DataFrame_new : DataFrame := mkDataFrame [] [].

(** [pd.DataFrame({label: values})] *)
Definition DataFrame_of (label : string) (values : list value) : DataFrame :=
  mkDataFrame [label] (map (fun v => [(label, v)]) values).

(** [len(df)] *)
Definition len (df : DataFrame) : nat := List.length (rows df).

(** [df.empty]: no rows or no columns. *)
Definition empty (df : DataFrame) : bool :=
  (len df =? 0)%nat || (List.length (columns df) =? 0)%nat.

Definition mem (c : string) (l : list string) : bool := existsb (String.eqb c) l.

(** [c in df.columns] *)
Definition has_column (df : DataFrame) (c : string) : bool := mem c (columns df).

Fixpoint lookup (c : string) (r : row) : option value :=
  match r with
  | [] => None
  | (k, v) :: r' => if String.eqb k c then Some v else lookup c r'
  end.

(** The cell of a row under a label; a label the row lacks reads as NaN,
    which is how pandas pads a row that is reindexed to new columns. *)
Definition cell (r : row) (c : string) : value :=
  match lookup c r with
  | Some v => v
  | None => NaN
  end.

(** [df[c]] *)
Definition getitem (df : DataFrame) (c : string) : result (list value) :=
  if has_column df c then Ok (map (fun r => cell r c) (rows df))
  else Raise (KeyError c).

Fixpoint set_cell (c : string) (v : value) (r : row) : row :=
  match r with
  | [] => [(c, v)]
  | (k, x) :: r' => if String.eqb k c then (c, v) :: r' else (k, x) :: set_cell c v r'
  end.

Definition add_label (c : string) (cols : list string) : list string :=
  if mem c cols then cols else cols ++ [c].

Fixpoint zip_set (c : string) (s : list value) (rs : list row) : list row :=
  match s, rs with
  | v :: s', r :: rs' => set_cell c v r :: zip_set c s' rs'
  | _, _ => []
  end.

(** [df[c] = s] for a series or list [s]: an existing column is replaced
    in place, a new one is appended. *)
Definition setitem (df : DataFrame) (c : string) (s : list value) : result DataFrame :=
  if (List.length s =? len df)%nat
  then Ok (mkDataFrame (add_label c (columns df)) (zip_set c s (rows df)))
  else Raise (ValueError "Length of values does not match length of index").

(** [df[c] = v] for a scalar [v] *)
Definition setitem_scalar (df : DataFrame) (c : string) (v : value) : DataFrame :=
  mkDataFrame (add_label c (columns df)) (map (set_cell c v) (rows df)).

(** [df.copy()]: frames are values here, the copy is the frame. *)
Definition copy (df : DataFrame) : DataFrame := df.

Fixpoint rename_label (mapping : list (string * string)) (c : string) : string :=
  match mapping with
  | [] => c
  | (old, new) :: m' => if String.eqb old c then new else rename_label m' c
  end.

(** [df.rename(columns=mapping)] *)
Definition rename (df : DataFrame) (mapping : list (string * string)) : DataFrame :=
  mkDataFrame (map (rename_label mapping) (columns df))
    (map (map (fun kv => (rename_label mapping (fst kv), snd kv))) (rows df)).

(** A row restricted (or padded with NaN) to the labels [cols]. *)
Definition reindex (cols : list string) (r : row) : row :=
  map (fun c => (c, cell r c)) cols.

(** [df[cols]] for a list of labels *)
Definition select (df : DataFrame) (cols : list string) : result DataFrame :=
  match find (fun c => negb (has_column df c)) cols with
  | Some c => Raise (KeyError c)
  | None => Ok (mkDataFrame cols (map (reindex cols) (rows df)))
  end.

(** [df.drop(columns=cols, errors='ignore')] *)
Definition drop (df : DataFrame) (cols : list string) : DataFrame :=
  mkDataFrame (filter (fun c => negb (mem c cols)) (columns df))
    (map (filter (fun kv => negb (mem (fst kv) cols))) (rows df)).

(** [df.columns = labels]: the labels are replaced position by position. *)
Definition set_columns (df : DataFrame) (labels : list string) : DataFrame :=
  mkDataFrame labels (map (fun r => combine labels (map snd r)) (rows df)).

(** [pd.concat(frames, ignore_index=True)]: the union of the labels in
    order of first appearance, the rows of each frame in turn, padded. *)
Definition union_labels (acc cols : list string) : list string :=
  fold_left (fun a c => add_label c a) cols acc.

Definition concat_columns (frames : list DataFrame) : list string :=
  fold_left union_labels (map columns frames) [].

Definition concat (frames : list DataFrame) : DataFrame :=
  let cols := concat_columns frames in
  mkDataFrame cols (flat_map (fun df => map (reindex cols) (rows df)) frames).

(** The cells of a row under the key labels. *)
Definition key_of (subset : list string) (r : row) : list value :=
  map (cell r) subset.

Fixpoint key_eqb (a b : list value) : bool :=
  match a, b with
  | [], [] => true
  | x :: a', y :: b' => value_eqb x y && key_eqb a' b'
  | _, _ => false
  end.

Fixpoint keep_first (subset : list string) (seen : list (list value)) (rs : list row)
  : list row :=
  match rs with
  | [] => []
  | r :: rs' =>
      let k := key_of subset r in
      if existsb (key_eqb k) seen then keep_first subset seen rs'
      else r :: keep_first subset (k :: seen) rs'
  end.

(** [df.drop_duplicates(subset=subset, keep='first')]; pandas counts two
    missing keys as equal, as [value_eqb] does. *)
Definition drop_duplicates (df : DataFrame) (subset : list string) : DataFrame :=
  mkDataFrame (columns df) (keep_first subset [] (rows df)).

(** *** merge *)

Inductive how : Type := inner | left.

Definition suffixed (overlap : list string) (suffix : string) (c : string) : string :=
  if mem c overlap then (c ++ suffix)%string else c.

(** [pd.merge(l, r, left_on=left_on, right_on=right_on, how=h)], and
    [on=k] when the two labels are the same label (the key column of the
    right frame is then dropped).  Labels the two frames share get the
    suffixes [_x] and [_y].  The rows follow the order of the left frame;
    a left row without a match is kept by a left join, padded with NaN. *)
Section Merge.

Variables (l r : DataFrame) (left_on right_on : string) (h : how).

Definition right_labels : list string :=
  if String.eqb left_on right_on
  then filter (fun c => negb (String.eqb c right_on)) (columns r)
  else columns r.

Definition overlap : list string :=
  filter (fun c => mem c right_labels) (columns l).

Definition left_part (a : row) : row :=
  map (fun c => (suffixed overlap "_x" c, cell a c)) (columns l).

Definition right_part (b : row) : row :=
  map (fun c => (suffixed overlap "_y" c, cell b c)) right_labels.

Definition null_part : row :=
  map (fun c => (suffixed overlap "_y" c, NaN)) right_labels.

Definition matches (a : row) : list row :=
  filter (fun b => value_eqb (cell a left_on) (cell b right_on)) (rows r).

Definition merge_row (a : row) : list row :=
  match matches a with
  | [] => match h with
          | left => [left_part a ++ null_part]
          | inner => []
          end
  | ms => map (fun b => left_part a ++ right_part b) ms
  end.

Definition merge : result DataFrame :=
  if negb (has_column l left_on) then Raise (KeyError left_on)
  else if negb (has_column r right_on) then Raise (KeyError right_on)
  else Ok (mkDataFrame
             (map (suffixed overlap "_x") (columns l) ++
              map (suffixed overlap "_y") right_labels)
             (flat_map merge_row (rows l))).

End Merge.

(** *** groupby *)

(** [df.groupby(key)[col].apply(f).reset_index(name=name)]: one row per
    distinct non-null key, in ascending key order, holding the key and
    [f] of the cells of [col] in the rows of that key, in row order. *)
Definition groupby_apply (df : DataFrame) (key col : string)
    (f : list value -> result value) (name : string) : result DataFrame :=
  if negb (has_column df key) then Raise (KeyError key)
  else if negb (has_column df col) then Raise (KeyError ("Column not found: " ++ col))
  else
    let rs := filter (fun r => notnull (cell r key)) (rows df) in
    let keys := sort value_leb (unique (map (fun r => cell r key) rs)) in
    let group := fun k =>
      map (fun r => cell r col) (filter (fun r => value_eqb (cell r key) k) rs) in
    vs <- mapM (fun k => f (group k)) keys ;;
    Ok (mkDataFrame [key; name]
          (map (fun kv => [(key, fst kv); (name, snd kv)]) (combine keys vs))).

(** The strings of a series, or the [TypeError] of [', '.join] on a cell
    that is not a string. *)
Definition strings_of (s : list value) : result (list string) :=
  mapM (fun v => match v with
                 | VStr x => Ok x
                 | _ => Raise (TypeError "sequence item: expected str instance")
                 end) s.

(** [nodup] on strings: the distinct strings, first occurrences kept. *)
Fixpoint distinct (l : list string) : list string :=
  match l with
  | [] => []
  | x :: l' => x :: filter (fun y => negb (String.eqb x y)) (distinct l')
  end.

(** [df.sort_values(c)]: ascending and stable, missing cells last. *)
Definition sort_values (df : DataFrame) (c : string) : DataFrame :=
  let before := fun a b : row => value_leb (cell a c) (cell b c) in
  mkDataFrame (columns df)
    (sort before (filter (fun a => notnull (cell a c)) (rows df)) ++
     filter (fun a => negb (notnull (cell a c))) (rows df)).

(** The [.dt] accessors used by the builders. *)
Definition dt_strftime_Ymd (s : list value) : list value :=
  map (fun v => match v with VTime t => VStr (strftime_Ymd t) | _ => NaN end) s.

Definition dt_year (s : list value) : list value :=
  map (fun v => match v with VTime t => VInt (ts_year t) | _ => NaN end) s.

Definition dt_month (s : list value) : list value :=
  map (fun v => match v with VTime t => VInt (ts_month t) | _ => NaN end) s.

Definition month_names : list string :=
  ["January"; "February"; "March"; "April"; "May"; "June"; "July";
   "August"; "September"; "October"; "November"; "December"].

Definition dt_month_name (s : list value) : list value :=
  map (fun v => match v with
                | VTime t => VStr (nth (Z.to_nat (ts_month t - 1)) month_names "")
                | _ => NaN
                end) s.

Definition dt_quarter (s : list value) : list value :=
  map (fun v => match v with
                | VTime t => VInt ((ts_month t - 1) / 3 + 1)
                | _ => NaN
                end) s.

Fixpoint map3 {A B C D : Type} (f : A -> B -> C -> D)
    (a : list A) (b : list B) (c : list C) : list D :=
  match a, b, c with
  | x :: a', y :: b', z :: c' => f x y z :: map3 f a' b' c'
  | _, _, _ => []
  end.
(** ** What the model takes from pandas and Python unmodelled

    - [to_datetime s]: the timestamp
      [pd.to_datetime(s, format='mixed', errors='coerce')] reads in the
      string [s], [None] for NaT;
    - [set_iteration l]: the order in which Python iterates over [set(l)];
    - [line_amount price quantity discount]: the float
      [(price * quantity) * (1 - discount)]. *)

Class Pandas : Type := {
  to_datetime : string -> option Timestamp;
  set_iteration : list string -> list string;
  line_amount : value -> value -> value -> value
}.

(** What is known of them: pandas reads the string [nan] as missing, and
    a set holds each of its elements once. *)
Class PandasLaws (P : Pandas) : Prop := {
  to_datetime_nan : to_datetime "nan" = None;
  set_iteration_NoDup : forall l, NoDup (set_iteration l);
  set_iteration_In : forall l x, In x (set_iteration l) <-> In x l
}.

Section Transformer.

Context {P : Pandas}.

(** [pd.to_datetime(s, format='mixed', errors='coerce')] on a series of
    strings.  The [except] branch of the two builders asks for the same
    tolerant parse under its older keyword, so both are this function. *)
Definition to_datetime_series (s : list value) : list value :=
  map (fun v => match v with
                | VStr x => match to_datetime x with
                            | Some t => VTime t
                            | None => NaN
                            end
                | _ => NaN
                end) s.

(** *** load_source_data

    [source_files] holds, in the order of [glob.glob], what
    [pd.read_csv] gave for each file: a frame or an exception. *)
Definition loaded_frames (source_files : list (result DataFrame)) : list DataFrame :=
  flat_map (fun f => match f with
                     | Ok df => [set_columns df (standardize_names (columns df))]
                     | Raise _ => []
                     end) source_files.

Definition standardize_column_names (df : option DataFrame) : option DataFrame :=
  match df with
  | Some d => Some (set_columns d (standardize_names (columns d)))
  | None => None
  end.

Definition load_source_data (source_files : list (result DataFrame))
    (primary_key_cols : list string) : DataFrame :=
  let dataframes := loaded_frames source_files in
  match dataframes with
  | [] => DataFrame_new
  | _ =>
      let combined_df := concat dataframes in
      let clean_primary_keys := map Str.lower primary_key_cols in
      if forallb (has_column combined_df) clean_primary_keys
      then drop_duplicates combined_df clean_primary_keys
      else combined_df
  end.

(** *** create_date_dimension

    The builder assigns to a column of its argument, so it returns the
    caller's [orders_df] as the call leaves it together with its result. *)
Definition create_date_dimension (orders_df : DataFrame)
  : result (DataFrame * DataFrame) :=
  if empty orders_df then Ok (orders_df, DataFrame_new)
  else
    od <- getitem orders_df "orderdate" ;;
    orders_df <- setitem orders_df "orderdate" (astype_str od) ;;
    od <- getitem orders_df "orderdate" ;;
    let dates := unique (dropna (to_datetime_series od)) in
    let date_dim := DataFrame_of "full_date" dates in
    let date_dim := sort_values date_dim "full_date" in
    fd <- getitem date_dim "full_date" ;;
    sk <- astype_int (dt_strftime_Ymd fd) ;;
    date_dim <- setitem date_dim "sk_date" sk ;;
    fd <- getitem date_dim "full_date" ;;
    date_dim <- setitem date_dim "year" (dt_year fd) ;;
    fd <- getitem date_dim "full_date" ;;
    date_dim <- setitem date_dim "month" (dt_month fd) ;;
    fd <- getitem date_dim "full_date" ;;
    date_dim <- setitem date_dim "month_name" (dt_month_name fd) ;;
    fd <- getitem date_dim "full_date" ;;
    date_dim <- setitem date_dim "quarter" (dt_quarter fd) ;;
    Ok (orders_df, date_dim).

(** *** create_client_dimension *)
Definition create_client_dimension (customers_df : DataFrame) : result DataFrame :=
  if empty customers_df then Ok DataFrame_new
  else
    let client_dim := copy customers_df in
    let client_dim := rename client_dim
      [("customerid", "bk_customer_id"); ("companyname", "company_name")] in
    bk <- getitem client_dim "bk_customer_id" ;;
    client_dim <- setitem client_dim "bk_customer_id"
                    (str_strip (str_upper (astype_str bk))) ;;
    let client_dim :=
      fold_left (fun d geo_col =>
                   if negb (has_column d geo_col)
                   then setitem_scalar d geo_col (VStr "Unknown")
                   else d)
        ["city"; "country"; "region"] client_dim in
    client_dim <- setitem client_dim "sk_client" (range 1 (len client_dim + 1)) ;;
    let target_columns :=
      ["sk_client"; "bk_customer_id"; "company_name"; "city"; "country"; "region"] in
    let available_columns := filter (has_column client_dim) target_columns in
    select client_dim available_columns.

(** *** add_territory_info *)

(** [lambda x: ', '.join(x)] *)
Definition join_all (x : list value) : result value :=
  strs <- strings_of x ;; Ok (VStr (Str.join ", " strs)).

(** [lambda x: ', '.join(set(x))] *)
Definition join_set (x : list value) : result value :=
  strs <- strings_of x ;; Ok (VStr (Str.join ", " (set_iteration strs))).

(** Lines 157 to 177: the assignments joined to their territories and
    regions, descriptions stringified and stripped. *)
Definition merged_assignments (emp_terr_df territories_df regions_df : DataFrame)
  : result DataFrame :=
  merged <- merge emp_terr_df territories_df "territoryid" "territoryid" left ;;
  merged <- (if negb (empty regions_df) && has_column merged "regionid"
             then merge merged regions_df "regionid" "regionid" left
             else Ok (setitem_scalar merged "regiondescription" (VStr "Unknown"))) ;;
  let region_col_name := "regiondescription" in
  merged <- (if has_column merged "territorydescription"
             then td <- getitem merged "territorydescription" ;;
                  setitem merged "territorydescription" (str_strip (astype_str td))
             else Ok merged) ;;
  (if has_column merged region_col_name
   then rd <- getitem merged region_col_name ;;
        setitem merged region_col_name (str_strip (astype_str rd))
   else Ok merged).

Definition add_territory_info
    (employee_dim emp_terr_df territories_df regions_df : DataFrame)
  : result DataFrame :=
  if empty emp_terr_df || empty territories_df then
    let employee_dim := setitem_scalar employee_dim "territories" (VStr "Unknown") in
    let employee_dim := setitem_scalar employee_dim "sales_region" (VStr "Unknown") in
    Ok employee_dim
  else
    merged <- merged_assignments emp_terr_df territories_df regions_df ;;
    let region_col_name := "regiondescription" in
    territories_per_employee <-
      groupby_apply merged "employeeid" "territorydescription" join_all "territories" ;;
    regions_per_employee <-
      groupby_apply merged "employeeid" region_col_name join_set "sales_region" ;;
    employee_dim <-
      merge employee_dim territories_per_employee "bk_employee_id" "employeeid" left ;;
    employee_dim <-
      merge employee_dim regions_per_employee "bk_employee_id" "employeeid" left ;;
    t <- getitem employee_dim "territories" ;;
    employee_dim <- setitem employee_dim "territories" (fillna (VStr "No Territory") t) ;;
    s <- getitem employee_dim "sales_region" ;;
    employee_dim <- setitem employee_dim "sales_region" (fillna (VStr "No Region") s) ;;
    Ok (drop employee_dim ["employeeid_x"; "employeeid_y"]).

(** *** create_employee_dimension *)

(** [a.astype(str) + ' ' + b.astype(str)], cell by cell *)
Definition full_name (first_name last_name : value) : value :=
  VStr (str first_name ++ " " ++ str last_name)%string.

Definition create_employee_dimension
    (employees_df emp_terr_df territories_df regions_df : DataFrame)
  : result DataFrame :=
  if empty employees_df then Ok DataFrame_new
  else
    let employee_dim := copy employees_df in
    let employee_dim := rename employee_dim
      [("employeeid", "bk_employee_id"); ("firstname", "first_name");
       ("lastname", "last_name")] in
    fn <- getitem employee_dim "first_name" ;;
    ln <- getitem employee_dim "last_name" ;;
    employee_dim <- setitem employee_dim "Employee_name"
                      (map (fun p => full_name (fst p) (snd p)) (combine fn ln)) ;;
    employee_dim <- setitem employee_dim "sk_employee"
                      (range 1 (len employee_dim + 1)) ;;
    employee_dim <- add_territory_info employee_dim emp_terr_df territories_df regions_df ;;
    let target_columns :=
      ["sk_employee"; "bk_employee_id"; "Employee_name"; "title"; "city";
       "country"; "sales_region"; "territories"] in
    let available_columns := filter (has_column employee_dim) target_columns in
    select employee_dim available_columns.

(** *** create_sales_fact *)

(** ['Delivered' if pd.notnull(x) and str(x).strip() != '' else 'Not Delivered'] *)
Definition delivery_status (x : value) : value :=
  if notnull x && negb (String.eqb (Str.strip (str x)) "")
  then VStr "Delivered" else VStr "Not Delivered".

Definition create_sales_fact (orders_df details_df client_dim employee_dim : DataFrame)
  : result DataFrame :=
  if empty orders_df || empty details_df then Ok DataFrame_new
  else
    sales_fact <- merge details_df orders_df "orderid" "orderid" inner ;;
    match (if has_column sales_fact "unitprice_x" then Some "unitprice_x"
           else if has_column sales_fact "unitprice" then Some "unitprice"
           else None) with
    | None => Ok DataFrame_new
    | Some price_column =>
        price <- getitem sales_fact price_column ;;
        quantity <- getitem sales_fact "quantity" ;;
        discount <- getitem sales_fact "discount" ;;
        sales_fact <- setitem sales_fact "total_amount"
                        (map3 line_amount price quantity discount) ;;
        shipped <- getitem sales_fact "shippeddate" ;;
        sales_fact <- setitem sales_fact "delivery_status" (map delivery_status shipped) ;;
        sales_fact <- (if has_column sales_fact "customerid"
                       then cid <- getitem sales_fact "customerid" ;;
                            setitem sales_fact "customerid"
                              (str_strip (str_upper (astype_str cid)))
                       else Ok sales_fact) ;;
        sales_fact <- (if negb (empty client_dim)
                       then keys <- select client_dim ["bk_customer_id"; "sk_client"] ;;
                            merge sales_fact keys "customerid" "bk_customer_id" left
                       else Ok sales_fact) ;;
        sales_fact <- (if negb (empty employee_dim)
                       then keys <- select employee_dim ["bk_employee_id"; "sk_employee"] ;;
                            merge sales_fact keys "employeeid" "bk_employee_id" left
                       else Ok sales_fact) ;;
        od <- getitem sales_fact "orderdate" ;;
        sales_fact <- setitem sales_fact "orderdate" (astype_str od) ;;
        od <- getitem sales_fact "orderdate" ;;
        sales_fact <- setitem sales_fact "dt" (to_datetime_series od) ;;
        dt <- getitem sales_fact "dt" ;;
        sk <- astype_int (fillna (VInt 19000101) (dt_strftime_Ymd dt)) ;;
        sales_fact <- setitem sales_fact "sk_date" sk ;;
        let sales_fact := rename sales_fact
          [("orderid", "bk_order_id"); (price_column, "unit_price")] in
        sales_fact <- setitem sales_fact "fact_id" (range 1 (len sales_fact + 1)) ;;
        let final_columns :=
          ["fact_id"; "bk_order_id"; "sk_client"; "sk_employee"; "sk_date";
           "quantity"; "unit_price"; "discount"; "total_amount"; "delivery_status"] in
        let available_columns := filter (has_column sales_fact) final_columns in
        select sales_fact available_columns
    end.

End Transformer.
(** ** A concrete environment and sample tables

    An instance of [Pandas] on which the builders run inside Rocq: dates
    are read in the form [YYYY-MM-DD] only, a set is iterated in order of
    first insertion, and amounts are computed on integers. *)

Module Sample.

Definition two_digits (a b : ascii) : option Z :=
  match digit_value a, digit_value b with
  | Some x, Some y => Some (x * 10 + y)%Z
  | _, _ => None
  end.

Definition parse_iso_date (s : string) : option Timestamp :=
  match s with
  | String y1 (String y2 (String y3 (String y4 (String "-"
      (String m1 (String m2 (String "-" (String d1 (String d2 EmptyString))))))))) =>
      match two_digits y1 y2, two_digits y3 y4, two_digits m1 m2, two_digits d1 d2 with
      | Some yh, Some yl, Some m, Some d =>
          let y := (yh * 100 + yl)%Z in
          if ((1677 <=? y) && (y <=? 2262) && (1 <=? m) && (m <=? 12) &&
              (1 <=? d) && (d <=? days_in_month y m))%Z
          then Some (mkTimestamp y m d 0)
          else None
      | _, _, _, _ => None
      end
  | _ => None
  end.

Definition integer_amount (price quantity discount : value) : value :=
  match price, quantity, discount with
  | VInt p, VInt q, VInt d => VInt ((p * q) * (1 - d))
  | _, _, _ => NaN
  end.

#[export] Instance pandas : Pandas := {|
  to_datetime := parse_iso_date;
  set_iteration := distinct;
  line_amount := integer_amount
|}.

(** Two extracts of Customers that overlap on ALFKI. *)
Definition sql_customers : DataFrame :=
  mkDataFrame ["CustomerID"; "Company Name"]
    [ [("CustomerID", VStr "ALFKI"); ("Company Name", VStr "Alfreds Futterkiste")];
      [("CustomerID", VStr "ANATR"); ("Company Name", VStr "Ana Trujillo")] ].

Definition access_customers : DataFrame :=
  mkDataFrame ["customer_id"; "company_name"]
    [ [("customer_id", VStr "ALFKI"); ("company_name", VStr "Alfreds (Access)")];
      [("customer_id", VStr "BOLID"); ("company_name", VStr "Bolido Comidas")] ].

(** Loaded Customers whose keys differ in case only. *)
Definition customers_case : DataFrame :=
  mkDataFrame ["customerid"; "companyname"]
    [ [("customerid", VStr "ALFKI"); ("companyname", VStr "Alfreds Futterkiste")];
      [("customerid", VStr "alfki"); ("companyname", VStr "Alfreds (lower case)")] ].

Definition customers : DataFrame :=
  mkDataFrame ["customerid"; "companyname"; "city"]
    [ [("customerid", VStr "ALFKI"); ("companyname", VStr "Alfreds Futterkiste");
       ("city", VStr "Berlin")];
      [("customerid", VStr "ANATR"); ("companyname", VStr "Ana Trujillo");
       ("city", VStr "Mexico")] ].

(** Orders: one without a date, one with a date that does not parse. *)
Definition orders : DataFrame :=
  mkDataFrame ["orderid"; "customerid"; "employeeid"; "orderdate"; "shippeddate"]
    [ [("orderid", VInt 10248); ("customerid", VStr "ALFKI"); ("employeeid", VInt 1);
       ("orderdate", VStr "2013-07-04"); ("shippeddate", VStr "2013-07-10")];
      [("orderid", VInt 10249); ("customerid", VStr "ZZZZZ"); ("employeeid", VInt 2);
       ("orderdate", NaN); ("shippeddate", NaN)];
      [("orderid", VInt 10250); ("customerid", VStr "anatr "); ("employeeid", VInt 9);
       ("orderdate", VStr "not a date"); ("shippeddate", VStr " ")] ].

(** The same orders with every order date written [YYYY-MM-DD] or missing. *)
Definition clean_orders : DataFrame :=
  mkDataFrame ["orderid"; "customerid"; "employeeid"; "orderdate"; "shippeddate"]
    [ [("orderid", VInt 10248); ("customerid", VStr "ALFKI"); ("employeeid", VInt 1);
       ("orderdate", VStr "2013-07-04"); ("shippeddate", VStr "2013-07-10")];
      [("orderid", VInt 10249); ("customerid", VStr "ZZZZZ"); ("employeeid", VInt 2);
       ("orderdate", NaN); ("shippeddate", NaN)];
      [("orderid", VInt 10250); ("customerid", VStr "anatr "); ("employeeid", VInt 9);
       ("orderdate", VStr "2013-07-08"); ("shippeddate", VStr " ")] ].

(** Orders placed on three days, two of them in one month. *)
Definition dated_orders : DataFrame :=
  mkDataFrame ["orderid"; "orderdate"]
    [ [("orderid", VInt 10251); ("orderdate", VStr "2013-07-08")];
      [("orderid", VInt 10248); ("orderdate", VStr "2013-07-04")];
      [("orderid", VInt 10252); ("orderdate", VStr "2012-12-31")];
      [("orderid", VInt 10253); ("orderdate", VStr "2013-07-04")] ].

Definition details : DataFrame :=
  mkDataFrame ["orderid"; "productid"; "unitprice"; "quantity"; "discount"]
    [ [("orderid", VInt 10248); ("productid", VInt 11); ("unitprice", VInt 14);
       ("quantity", VInt 12); ("discount", VInt 0)];
      [("orderid", VInt 10248); ("productid", VInt 42); ("unitprice", VInt 10);
       ("quantity", VInt 10); ("discount", VInt 0)];
      [("orderid", VInt 10249); ("productid", VInt 14); ("unitprice", VInt 19);
       ("quantity", VInt 9); ("discount", VInt 0)];
      [("orderid", VInt 10250); ("productid", VInt 41); ("unitprice", VInt 8);
       ("quantity", VInt 10); ("discount", VInt 0)] ].

Definition employees : DataFrame :=
  mkDataFrame ["employeeid"; "firstname"; "lastname"; "title"]
    [ [("employeeid", VInt 1); ("firstname", VStr "Nancy"); ("lastname", VStr "Davolio");
       ("title", VStr "Sales Representative")];
      [("employeeid", VInt 2); ("firstname", VStr "Andrew"); ("lastname", VStr "Fuller");
       ("title", VStr "Vice President")];
      [("employeeid", VInt 3); ("firstname", VStr "Janet"); ("lastname", VStr "Leverling");
       ("title", VStr "Sales Representative")] ].

Definition employeeterritories : DataFrame :=
  mkDataFrame ["employeeid"; "territoryid"]
    [ [("employeeid", VInt 2); ("territoryid", VInt 1581)];
      [("employeeid", VInt 1); ("territoryid", VInt 6897)];
      [("employeeid", VInt 2); ("territoryid", VInt 1730)];
      [("employeeid", VInt 2); ("territoryid", VInt 1581)] ].

Definition territories : DataFrame :=
  mkDataFrame ["territoryid"; "territorydescription"; "regionid"]
    [ [("territoryid", VInt 1581); ("territorydescription", VStr "Westboro  ");
       ("regionid", VInt 1)];
      [("territoryid", VInt 1730); ("territorydescription", VStr "Bedford");
       ("regionid", VInt 1)];
      [("territoryid", VInt 6897); ("territorydescription", VStr "Wilton");
       ("regionid", VInt 2)] ].

Definition region : DataFrame :=
  mkDataFrame ["regionid"; "regiondescription"]
    [ [("regionid", VInt 1); ("regiondescription", VStr "Eastern  ")];
      [("regionid", VInt 2); ("regiondescription", VStr "Western")] ].

(** Two dimensions as the builders return them. *)
Definition dim_client : DataFrame :=
  mkDataFrame ["sk_client"; "bk_customer_id"; "company_name"; "city"; "country"; "region"]
    [ [("sk_client", VInt 1); ("bk_customer_id", VStr "ALFKI");
       ("company_name", VStr "Alfreds Futterkiste"); ("city", VStr "Berlin");
       ("country", VStr "Unknown"); ("region", VStr "Unknown")];
      [("sk_client", VInt 2); ("bk_customer_id", VStr "ANATR");
       ("company_name", VStr "Ana Trujillo"); ("city", VStr "Mexico");
       ("country", VStr "Unknown"); ("region", VStr "Unknown")] ].

Definition dim_employee : DataFrame :=
  mkDataFrame ["sk_employee"; "bk_employee_id"; "Employee_name"; "title"]
    [ [("sk_employee", VInt 1); ("bk_employee_id", VInt 1);
       ("Employee_name", VStr "Nancy Davolio"); ("title", VStr "Sales Representative")];
      [("sk_employee", VInt 2); ("bk_employee_id", VInt 2);
       ("Employee_name", VStr "Andrew Fuller"); ("title", VStr "Vice President")];
      [("sk_employee", VInt 3); ("bk_employee_id", VInt 3);
       ("Employee_name", VStr "Janet Leverling"); ("title", VStr "Sales Representative")] ].

End Sample.
(** ** Notions the statements use *)

(** The cells of a column, in row order. *)
Definition column_cells (df : DataFrame) (c : string) : list value :=
  map (fun r => cell r c) (rows df).

(** The column [c] of [df] is the sequence 1, 2, ..., [len df]. *)
Definition dense_keys (df : DataFrame) (c : string) : Prop :=
  column_cells df c = range 1 (len df + 1).

(** Every row holds exactly the columns of its frame, in their order. *)
Definition well_formed (df : DataFrame) : Prop :=
  Forall (fun r => map fst r = columns df) (rows df).

(** [str(v).upper().strip()], the normal form of a customer id. *)
Definition normalized_id (v : value) : value :=
  VStr (Str.strip (Str.upper (str v))).

(** The key the builders give a timestamp: [strftime('%Y%m%d')], then
    [astype(int)]. *)
Definition sk_date (t : Timestamp) : result value :=
  to_int (VStr (strftime_Ymd t)).

(** The integer YYYYMMDD of a timestamp. *)
Definition yyyymmdd (t : Timestamp) : Z :=
  (ts_year t * 10000 + ts_month t * 100 + ts_day t)%Z.


(** The order lines: every row of the details with each order of the same
    [orderid], the details in row order and, for one row of the details,
    the orders in row order. *)
Definition order_lines (orders_df details_df : DataFrame) : list (row * row) :=
  flat_map (fun a =>
              map (pair a)
                (filter (fun b => value_eqb (cell a "orderid") (cell b "orderid"))
                   (rows orders_df)))
    (rows details_df).

(** The surrogate key a dimension gives a natural key: the cell [sk] of
    the first row whose cell [bk] is the key, NaN when there is none. *)
Definition surrogate_of (dim : DataFrame) (bk sk : string) (key : value) : value :=
  match find (fun b => value_eqb key (cell b bk)) (rows dim) with
  | Some b => cell b sk
  | None => NaN
  end.

(** The labels the fact builder creates, or looks for, on its way. *)
Definition fact_labels : list string :=
  ["unitprice_x"; "total_amount"; "delivery_status"; "bk_customer_id"; "sk_client";
   "bk_employee_id"; "sk_employee"; "dt"; "sk_date"; "bk_order_id"; "unit_price";
   "fact_id"].

(** Orders and order details as the fact builder expects them: the
    columns it reads are there, the two tables share the label [orderid]
    only, and neither uses a label of [fact_labels]. *)
Definition fact_sources (orders_df details_df : DataFrame) : bool :=
  forallb (has_column details_df) ["orderid"; "unitprice"; "quantity"; "discount"] &&
  forallb (has_column orders_df)
    ["orderid"; "customerid"; "employeeid"; "orderdate"; "shippeddate"] &&
  forallb (fun c => negb (has_column orders_df c) || String.eqb c "orderid")
    (columns details_df) &&
  forallb (fun c => negb (has_column details_df c) && negb (has_column orders_df c))
    fact_labels.

(** The rows of the joined assignments that belong to an employee: those
    whose [employeeid] is present and is the employee's key. *)
Definition assignments_of (merged : DataFrame) (id : value) : list row :=
  filter (fun r => notnull (cell r "employeeid") && value_eqb (cell r "employeeid") id)
    (rows merged).




(** ** The cells a theorem takes a column to hold

    pandas keeps a column of numbers as numbers and a column of text as
    Python strings; a theorem that depends on how a column is written out,
    compared or parsed says which of the two its cells are. *)

(** A number, or a missing cell. *)
Definition number_cell (v : value) : bool :=
  match v with NaN | VInt _ => true | _ => false end.

(** Text. *)
Definition text_cell (v : value) : bool :=
  match v with VStr _ => true | _ => false end.

(** Text, or a missing cell. *)
Definition text_or_missing (v : value) : bool :=
  match v with NaN | VStr _ => true | _ => false end.

(** A date written [YYYY-MM-DD], or a missing cell. *)
Definition date_cell (v : value) : bool :=
  match v with NaN => true | VStr s => Str.iso_date s | _ => false end.

(** An id that is text [Str.upper] upper-cases as Python does, or a
    missing cell. *)
Definition text_id (v : value) : bool :=
  match v with NaN => true | VStr s => Str.upper_exact s | _ => false end.

(** Every cell of the column [c] satisfies [p]. *)
Definition holds (df : DataFrame) (c : string) (p : value -> bool) : bool :=
  forallb p (column_cells df c).

(** The labels of a list are pairwise distinct. *)
Fixpoint all_distinct (l : list string) : bool :=
  match l with
  | [] => true
  | x :: l' => negb (mem x l') && all_distinct l'
  end.

(** No two labels of a file that was read become the same label when
    they are normalized. *)
Definition distinct_labels (source_files : list (result DataFrame)) : bool :=
  forallb (fun f => match f with
                    | Ok df => all_distinct (standardize_names (columns df))
                    | Raise _ => true
                    end) source_files.

(** The cells of the sources and of the dimensions as the fact builder
    computes with them: numbers in the ids of the orders and of the
    employees and in the price, the quantity and the discount, order
    dates written [YYYY-MM-DD] or missing, and text in the natural keys
    of the clients. *)
Definition fact_cells (orders_df details_df client_dim employee_dim : DataFrame) : bool :=
  forallb (fun c => holds details_df c number_cell)
    ["orderid"; "unitprice"; "quantity"; "discount"] &&
  forallb (fun c => holds orders_df c number_cell) ["orderid"; "employeeid"] &&
  holds orders_df "orderdate" date_cell &&
  holds client_dim "bk_customer_id" text_cell &&
  holds employee_dim "bk_employee_id" number_cell.
(** * Properties *)

(** ** The exception monad *)

Lemma bind_Ok {A B : Type} (m : result A) (k : A -> result B) (b : B) :
  bind m k = Ok b -> exists a, m = Ok a /\ k a = Ok b.
Proof. destruct m as [a|e]; simpl; [eauto | discriminate]. Qed.

(** Splits a hypothesis [x <- m ;; k = Ok b] into its two steps. *)
Ltac inv_bind H :=
  let a := fresh "x" in
  let Ha := fresh "E" in
  apply bind_Ok in H; destruct H as (a & Ha & H).

(** The same, naming the intermediate result and its equation. *)
Tactic Notation "inv_bind_as" hyp(H) ident(a) ident(Ha) :=
  apply bind_Ok in H; destruct H as (a & Ha & H).

Lemma mapM_map {A B : Type} (f : A -> result B) (g : A -> B) (l : list A) :
  (forall a, In a l -> f a = Ok (g a)) -> mapM f l = Ok (map g l).
Proof.
  induction l as [|a l IH]; simpl; intros H; [reflexivity|].
  rewrite (H a (or_introl eq_refl)). simpl.
  rewrite IH by (intros; apply H; now right). reflexivity.
Qed.

Lemma mapM_length {A B : Type} (f : A -> result B) (l : list A) (bs : list B) :
  mapM f l = Ok bs -> List.length bs = List.length l.
Proof.
  revert bs. induction l as [|a l IH]; simpl; intros bs H.
  - now inversion H.
  - inv_bind H. inv_bind H. inversion H; subst. simpl. f_equal. now apply IH.
Qed.

Lemma mapM_Forall2 {A B : Type} (f : A -> result B) (l : list A) (bs : list B) :
  mapM f l = Ok bs -> Forall2 (fun a b => f a = Ok b) l bs.
Proof.
  revert bs. induction l as [|a l IH]; simpl; intros bs H.
  - inversion H. constructor.
  - inv_bind H. inv_bind H. inversion H; subst. constructor; auto.
Qed.

(** ** Equality tests *)

Lemma ts_eqb_eq (a b : Timestamp) : ts_eqb a b = true <-> a = b.
Proof.
  unfold ts_eqb. rewrite !andb_true_iff, !Z.eqb_eq. split.
  - destruct a, b; simpl. intros [[[-> ->] ->] ->]. reflexivity.
  - intros ->. auto.
Qed.

Lemma value_eqb_eq (a b : value) : value_eqb a b = true <-> a = b.
Proof.
  destruct a, b; simpl; split; try discriminate; try reflexivity; intros H.
  - apply Z.eqb_eq in H. now subst.
  - inversion H. apply Z.eqb_refl.
  - apply String.eqb_eq in H. now subst.
  - inversion H. apply String.eqb_refl.
  - apply ts_eqb_eq in H. now subst.
  - inversion H. now apply ts_eqb_eq.
Qed.

Lemma value_eqb_refl (a : value) : value_eqb a a = true.
Proof. now apply value_eqb_eq. Qed.

Lemma value_eqb_neq (a b : value) : value_eqb a b = false <-> a <> b.
Proof.
  rewrite <- value_eqb_eq. destruct (value_eqb a b); split; congruence.
Qed.

Lemma value_eqb_sym (a b : value) : value_eqb a b = value_eqb b a.
Proof.
  destruct (value_eqb a b) eqn:E.
  - apply value_eqb_eq in E. subst. symmetry. apply value_eqb_refl.
  - destruct (value_eqb b a) eqn:E'; [|reflexivity].
    apply value_eqb_eq in E'. subst. now rewrite value_eqb_refl in E.
Qed.

Lemma key_eqb_eq (a b : list value) : key_eqb a b = true <-> a = b.
Proof.
  revert b. induction a as [|x a IH]; destruct b as [|y b]; simpl;
    try (split; [discriminate | discriminate]); [split; reflexivity|].
  rewrite andb_true_iff, value_eqb_eq, IH. split.
  - intros [-> ->]. reflexivity.
  - intros H. inversion H. auto.
Qed.

Lemma mem_In (c : string) (l : list string) : mem c l = true <-> In c l.
Proof.
  unfold mem. rewrite existsb_exists. split.
  - intros (x & Hx & E). apply String.eqb_eq in E. now subst.
  - intros H. exists c. split; [assumption | apply String.eqb_refl].
Qed.

Lemma mem_false (c : string) (l : list string) : mem c l = false <-> ~ In c l.
Proof.
  rewrite <- mem_In. destruct (mem c l); split; congruence.
Qed.

Lemma has_column_In (df : DataFrame) (c : string) :
  has_column df c = true <-> In c (columns df).
Proof. apply mem_In. Qed.

(** ** Cells of a row *)

Lemma lookup_set_cell_eq c v r : lookup c (set_cell c v r) = Some v.
Proof.
  induction r as [|[k x] r IH]; simpl.
  - now rewrite String.eqb_refl.
  - destruct (String.eqb k c) eqn:E; simpl.
    + now rewrite String.eqb_refl.
    + now rewrite E.
Qed.

Lemma lookup_set_cell_ne c c' v r :
  c <> c' -> lookup c' (set_cell c v r) = lookup c' r.
Proof.
  intros Hne. induction r as [|[k x] r IH]; simpl.
  - apply String.eqb_neq in Hne. now rewrite Hne.
  - destruct (String.eqb k c) eqn:E; simpl.
    + apply String.eqb_eq in E. subst k.
      apply String.eqb_neq in Hne. now rewrite Hne.
    + now rewrite IH.
Qed.

Lemma cell_set_cell_eq c v r : cell (set_cell c v r) c = v.
Proof. unfold cell. now rewrite lookup_set_cell_eq. Qed.

Lemma cell_set_cell_ne c c' v r : c <> c' -> cell (set_cell c v r) c' = cell r c'.
Proof. intros H. unfold cell. now rewrite lookup_set_cell_ne. Qed.

Lemma labels_set_cell c v r : map fst (set_cell c v r) = add_label c (map fst r).
Proof.
  unfold add_label. induction r as [|[k x] r IH]; simpl; [reflexivity|].
  rewrite (String.eqb_sym c k).
  destruct (String.eqb k c) eqn:E; simpl.
  - apply String.eqb_eq in E. now subst.
  - rewrite IH. fold (mem c (map fst r)). now destruct (mem c (map fst r)).
Qed.

Lemma lookup_app k (a b : row) :
  lookup k (a ++ b) = match lookup k a with Some v => Some v | None => lookup k b end.
Proof.
  induction a as [|[k' x] a IH]; simpl; [reflexivity|].
  now destruct (String.eqb k' k).
Qed.

Lemma lookup_None k (r : row) : lookup k r = None <-> ~ In k (map fst r).
Proof.
  induction r as [|[k' x] r IH]; simpl; [tauto|].
  destruct (String.eqb k' k) eqn:E.
  - apply String.eqb_eq in E. split; [discriminate | tauto].
  - apply String.eqb_neq in E. rewrite IH. tauto.
Qed.

(** A row built label by label: [g] names the entry of label [c]. *)
Lemma lookup_relabel (g : string -> string) (f : string -> value) cols c :
  In c cols ->
  (forall c0, In c0 cols -> g c0 = g c -> f c0 = f c) ->
  lookup (g c) (map (fun c0 => (g c0, f c0)) cols) = Some (f c).
Proof.
  induction cols as [|c1 cols IH]; simpl; [tauto|].
  intros Hin Hinj. destruct (String.eqb (g c1) (g c)) eqn:E.
  - apply String.eqb_eq in E. f_equal. apply Hinj; auto.
  - destruct Hin as [->|Hin]; [now rewrite String.eqb_refl in E|].
    apply IH; auto.
Qed.

Lemma lookup_relabel_None (g : string -> string) (f : string -> value) cols k :
  (forall c0, In c0 cols -> g c0 <> k) ->
  lookup k (map (fun c0 => (g c0, f c0)) cols) = None.
Proof.
  intros H. apply lookup_None. rewrite map_map. simpl.
  intros Hin. apply in_map_iff in Hin. destruct Hin as (c0 & E & Hc0).
  exact (H c0 Hc0 E).
Qed.

Lemma cell_reindex cols r c : In c cols -> cell (reindex cols r) c = cell r c.
Proof.
  intros H. unfold cell at 1, reindex.
  rewrite (lookup_relabel (fun c0 => c0) (fun c0 => cell r c0) cols c H);
    [reflexivity | now intros c0 _ ->].
Qed.

Lemma cell_reindex_absent cols r c : ~ In c cols -> cell (reindex cols r) c = NaN.
Proof.
  intros H. unfold cell, reindex.
  rewrite (lookup_relabel_None (fun c0 => c0)); [reflexivity|].
  intros c0 H0 ->. contradiction.
Qed.

Lemma labels_reindex cols r : map fst (reindex cols r) = cols.
Proof. unfold reindex. rewrite map_map. simpl. apply map_id. Qed.

(** ** Column assignment, row by row *)

Lemma zip_set_map c (f : row -> value) (rs : list row) :
  zip_set c (map f rs) rs = map (fun r => set_cell c (f r) r) rs.
Proof. induction rs as [|r rs IH]; simpl; [reflexivity|]. now rewrite IH. Qed.

Lemma zip_set_length c s rs :
  List.length s = List.length rs -> List.length (zip_set c s rs) = List.length rs.
Proof.
  revert rs. induction s as [|v s IH]; destruct rs as [|r rs]; simpl; try discriminate;
    [reflexivity|]. intros H. f_equal. apply IH. now inversion H.
Qed.

Lemma zip_set_cells c s rs :
  List.length s = List.length rs -> map (fun r => cell r c) (zip_set c s rs) = s.
Proof.
  revert rs. induction s as [|v s IH]; destruct rs as [|r rs]; simpl; try discriminate;
    [reflexivity|]. intros H. rewrite cell_set_cell_eq. f_equal. apply IH. now inversion H.
Qed.

Lemma zip_set_other c c' s rs :
  c <> c' -> List.length s = List.length rs ->
  map (fun r => cell r c') (zip_set c s rs) = map (fun r => cell r c') rs.
Proof.
  intros Hne. revert rs.
  induction s as [|v s IH]; destruct rs as [|r rs]; simpl; try discriminate;
    [reflexivity|]. intros H. rewrite cell_set_cell_ne by assumption.
  f_equal. apply IH. now inversion H.
Qed.

Lemma mem_add_label c c' cols :
  mem c' (add_label c cols) = mem c' cols || String.eqb c' c.
Proof.
  unfold add_label. destruct (mem c cols) eqn:E.
  - destruct (String.eqb c' c) eqn:E'; [|now rewrite orb_false_r].
    apply String.eqb_eq in E'. subst. now rewrite E.
  - unfold mem. rewrite existsb_app. simpl. now rewrite orb_false_r.
Qed.

Lemma getitem_Ok df c :
  has_column df c = true -> getitem df c = Ok (map (fun r => cell r c) (rows df)).
Proof. intros H. unfold getitem. now rewrite H. Qed.

Lemma getitem_inv df c s :
  getitem df c = Ok s ->
  has_column df c = true /\ s = map (fun r => cell r c) (rows df).
Proof.
  unfold getitem. destruct (has_column df c); [|discriminate].
  intros H. inversion H. auto.
Qed.

Lemma setitem_inv df c s df' :
  setitem df c s = Ok df' ->
  List.length s = len df /\
  df' = mkDataFrame (add_label c (columns df)) (zip_set c s (rows df)).
Proof.
  unfold setitem. destruct (List.length s =? len df)%nat eqn:E; [|discriminate].
  apply Nat.eqb_eq in E. intros H. inversion H. auto.
Qed.

Lemma setitem_Ok df c s :
  List.length s = len df ->
  setitem df c s = Ok (mkDataFrame (add_label c (columns df)) (zip_set c s (rows df))).
Proof. intros H. unfold setitem. apply Nat.eqb_eq in H. now rewrite H. Qed.

Lemma select_available df cols :
  select df (filter (has_column df) cols)
  = Ok (mkDataFrame (filter (has_column df) cols)
          (map (reindex (filter (has_column df) cols)) (rows df))).
Proof.
  unfold select.
  destruct (find _ _) as [c|] eqn:E; [|reflexivity].
  apply find_some in E. destruct E as [Hin Hc].
  apply filter_In in Hin. destruct Hin as [_ Hin]. now rewrite Hin in Hc.
Qed.

Lemma range_length a b : List.length (range a b) = (b - a)%nat.
Proof. unfold range. now rewrite length_map, length_seq. Qed.
(** ** Frames keep their shape *)

Lemma len_zip_set df c s :
  List.length s = len df ->
  len (mkDataFrame (add_label c (columns df)) (zip_set c s (rows df))) = len df.
Proof. intros H. unfold len. simpl. now apply zip_set_length. Qed.

Lemma column_cells_select df cols out c :
  select df cols = Ok out -> In c cols -> column_cells out c = column_cells df c.
Proof.
  unfold select. destruct (find _ _); [discriminate|].
  intros H Hin. inversion H; subst. unfold column_cells. simpl.
  rewrite map_map. apply map_ext. intros r. now apply cell_reindex.
Qed.

Lemma len_select df cols out : select df cols = Ok out -> len out = len df.
Proof.
  unfold select. destruct (find _ _); [discriminate|].
  intros H. inversion H; subst. unfold len. simpl. apply length_map.
Qed.

Lemma columns_select df cols out : select df cols = Ok out -> columns out = cols.
Proof.
  unfold select. destruct (find _ _); [discriminate|].
  intros H. now inversion H.
Qed.

Lemma dense_keys_new c : dense_keys DataFrame_new c.
Proof. reflexivity. Qed.

(** A frame that has just been numbered and is then cut down to the
    columns it has keeps the numbering. *)
Lemma dense_after_numbering df c df' targets out :
  setitem df c (range 1 (len df + 1)) = Ok df' ->
  In c targets ->
  select df' (filter (has_column df') targets) = Ok out ->
  dense_keys out c.
Proof.
  intros Hset Hin Hsel. apply setitem_inv in Hset. destruct Hset as [Hlen ->].
  unfold dense_keys. rewrite (len_select _ _ _ Hsel).
  rewrite (column_cells_select _ _ _ c Hsel).
  - unfold column_cells. simpl. rewrite zip_set_cells by exact Hlen.
    now rewrite len_zip_set.
  - apply filter_In. split; [assumption|].
    unfold has_column. simpl. rewrite mem_add_label, String.eqb_refl.
    apply orb_true_r.
Qed.

Section ClientDimension.

Context {P : Pandas}.

Lemma create_client_dimension_dense customers_df out :
  create_client_dimension customers_df = Ok out -> dense_keys out "sk_client".
Proof.
  unfold create_client_dimension. destruct (empty customers_df).
  - intros H. inversion H. apply dense_keys_new.
  - intros H. inv_bind H. inv_bind H. inv_bind H.
    eapply dense_after_numbering; [exact E1 | | exact H]. simpl. auto.
Qed.

End ClientDimension.

(** ** Renaming *)

Lemma lookup_rename (g : string -> string) (r : row) (c : string) :
  (forall k, In k (map fst r) -> g k = g c -> k = c) ->
  lookup (g c) (map (fun kv => (g (fst kv), snd kv)) r) = lookup c r.
Proof.
  induction r as [|[k v] r IH]; simpl; intros H; [reflexivity|].
  destruct (String.eqb (g k) (g c)) eqn:E.
  - apply String.eqb_eq in E. rewrite (H k (or_introl eq_refl) E).
    now rewrite String.eqb_refl.
  - assert (Hne : String.eqb k c = false).
    { apply String.eqb_neq. intros ->. now rewrite String.eqb_refl in E. }
    rewrite Hne. apply IH. intros k' Hk'. apply H. now right.
Qed.

Lemma column_cells_rename df mapping c :
  well_formed df ->
  (forall k, In k (columns df) ->
             rename_label mapping k = rename_label mapping c -> k = c) ->
  column_cells (rename df mapping) (rename_label mapping c) = column_cells df c.
Proof.
  intros Hwf Hinj. unfold column_cells, rename. simpl. rewrite map_map.
  apply map_ext_in. intros r Hr. unfold cell.
  rewrite lookup_rename; [reflexivity|].
  unfold well_formed in Hwf. rewrite Forall_forall in Hwf.
  rewrite (Hwf r Hr). exact Hinj.
Qed.

Lemma column_cells_setitem_scalar df c v c' :
  c <> c' -> column_cells (setitem_scalar df c v) c' = column_cells df c'.
Proof.
  intros Hne. unfold column_cells. simpl. rewrite map_map.
  apply map_ext. intros r. now apply cell_set_cell_ne.
Qed.

Lemma has_column_setitem_scalar df c v c' :
  has_column (setitem_scalar df c v) c' = has_column df c' || String.eqb c' c.
Proof. unfold has_column. simpl. apply mem_add_label. Qed.

Lemma normalized_series (s : list value) :
  str_strip (str_upper (astype_str s)) = map normalized_id s.
Proof.
  unfold str_strip, str_upper, astype_str. rewrite !map_map. reflexivity.
Qed.

(** The loop that supplies missing geography columns leaves every other
    column as it is. *)
Lemma geography_defaults_frame (geo : list string) (d : DataFrame) (c : string) :
  ~ In c geo ->
  let d' := fold_left (fun d geo_col =>
                         if negb (has_column d geo_col)
                         then setitem_scalar d geo_col (VStr "Unknown")
                         else d) geo d in
  column_cells d' c = column_cells d c /\
  (has_column d c = true -> has_column d' c = true) /\
  len d' = len d.
Proof.
  revert d. induction geo as [|g geo IH]; simpl; intros d Hnin; [auto|].
  assert (Hg : g <> c) by tauto. assert (Hgeo : ~ In c geo) by tauto.
  destruct (IH (if negb (has_column d g)
                then setitem_scalar d g (VStr "Unknown") else d) Hgeo)
    as (Hc & Hh & Hl).
  rewrite Hc, Hl. destruct (negb (has_column d g)).
  - rewrite column_cells_setitem_scalar by assumption. repeat split.
    + intros H. apply Hh. rewrite has_column_setitem_scalar, H. reflexivity.
    + unfold len. simpl. apply length_map.
  - auto.
Qed.

Section ClientKeys.

Context {P : Pandas}.

(** The natural keys of DimClient are the normal forms of the loaded
    customer ids, row by row. *)
Lemma create_client_dimension_keys customers_df out :
  well_formed customers_df ->
  has_column customers_df "bk_customer_id" = false ->
  empty customers_df = false ->
  create_client_dimension customers_df = Ok out ->
  column_cells out "bk_customer_id"
  = map normalized_id (column_cells customers_df "customerid").
Proof.
  intros Hwf Hno Hne. unfold create_client_dimension. rewrite Hne.
  intros H. inv_bind H. inv_bind H. inv_bind H.
  apply getitem_inv in E. destruct E as [Hbk ->].
  apply setitem_inv in E0. destruct E0 as [Hlen0 ->].
  set (d1 := mkDataFrame _ _) in *.
  destruct (geography_defaults_frame ["city"; "country"; "region"] d1 "bk_customer_id")
    as (Hc & Hh & Hl).
  { simpl. intros [H1|[H1|[H1|[]]]]; discriminate. }
  cbv zeta in Hc, Hh, Hl.
  set (d2 := fold_left _ _ d1) in *.
  apply setitem_inv in E1. destruct E1 as [Hlen1 ->].
  rewrite (column_cells_select _ _ _ "bk_customer_id" H).
  - unfold column_cells at 1. cbn [rows].
    rewrite zip_set_other by (discriminate || exact Hlen1).
    fold (column_cells d2 "bk_customer_id"). rewrite Hc.
    unfold d1, column_cells at 1. cbn [rows].
    rewrite zip_set_cells by exact Hlen0.
    rewrite normalized_series. f_equal.
    change "bk_customer_id"
      with (rename_label [("customerid", "bk_customer_id");
                          ("companyname", "company_name")] "customerid").
    apply column_cells_rename; [exact Hwf|].
    intros k Hk. cbn [rename_label].
    rewrite String.eqb_refl.
    destruct (String.eqb "customerid" k) eqn:E1;
      [apply String.eqb_eq in E1; now subst|].
    destruct (String.eqb "companyname" k) eqn:E2; [discriminate|].
    intros ->. apply has_column_In in Hk. congruence.
  - apply filter_In. split; [simpl; auto|].
    unfold has_column. simpl. rewrite mem_add_label.
    apply orb_true_iff. left. apply Hh.
    unfold d1, has_column. simpl. rewrite mem_add_label, String.eqb_refl.
    apply orb_true_r.
Qed.

End ClientKeys.
(** ** The date key *)

Lemma digit_value_digit (d : Z) : digit_value (digit d) = Some (d mod 10)%Z.
Proof.
  unfold digit. assert (H : (0 <= d mod 10 < 10)%Z) by (apply Z.mod_pos_bound; lia).
  destruct (d mod 10)%Z as [|p|p] eqn:E; [reflexivity| |lia].
  assert (Hp : (p = 1 \/ p = 2 \/ p = 3 \/ p = 4 \/ p = 5 \/ p = 6 \/ p = 7 \/
                p = 8 \/ p = 9)%positive) by lia.
  destruct Hp as [->|[->|[->|[->|[->|[->|[->|[->| ->]]]]]]]]; reflexivity.
Qed.

Lemma int_of_strftime (t : Timestamp) :
  int_of_string (strftime_Ymd t)
  = Some ((ts_year t mod 10000) * 10000 + (ts_month t mod 100) * 100
          + ts_day t mod 100)%Z.
Proof.
  unfold strftime_Ymd, pad4, pad2, int_of_string.
  cbn [String.append parse_digits].
  repeat (rewrite digit_value_digit; cbn [parse_digits]).
  f_equal. generalize (ts_year t) (ts_month t) (ts_day t). intros y m d.
  Z.to_euclidean_division_equations. lia.
Qed.

Lemma sk_date_total (t : Timestamp) :
  sk_date t = Ok (VInt ((ts_year t mod 10000) * 10000 + (ts_month t mod 100) * 100
                        + ts_day t mod 100)%Z).
Proof. unfold sk_date, to_int. now rewrite int_of_strftime. Qed.

Lemma days_in_month_le_31 y m : (days_in_month y m <= 31)%Z.
Proof.
  unfold days_in_month.
  destruct (m =? 2)%Z; [destruct (is_leap y); lia|].
  destruct ((m =? 4) || (m =? 6) || (m =? 9) || (m =? 11))%Z; lia.
Qed.

Lemma sk_date_valid (t : Timestamp) :
  valid_timestamp t -> sk_date t = Ok (VInt (yyyymmdd t)).
Proof.
  intros (Hy & Hm & Hd & _). rewrite sk_date_total. unfold yyyymmdd.
  pose proof (days_in_month_le_31 (ts_year t) (ts_month t)).
  rewrite !Z.mod_small by lia. reflexivity.
Qed.

Lemma yyyymmdd_strict (a b : Timestamp) :
  valid_timestamp a -> valid_timestamp b ->
  date_ltb a b = true -> (yyyymmdd a < yyyymmdd b)%Z.
Proof.
  intros (Hya & Hma & Hda & _) (Hyb & Hmb & Hdb & _).
  pose proof (days_in_month_le_31 (ts_year a) (ts_month a)).
  pose proof (days_in_month_le_31 (ts_year b) (ts_month b)).
  unfold date_ltb, yyyymmdd.
  rewrite !orb_true_iff, !andb_true_iff, !orb_true_iff, !andb_true_iff.
  rewrite !Z.ltb_lt, !Z.eqb_eq. lia.
Qed.

Lemma yyyymmdd_monotone (a b : Timestamp) :
  valid_timestamp a -> valid_timestamp b ->
  ts_ltb a b = true -> (yyyymmdd a <= yyyymmdd b)%Z.
Proof.
  intros Ha Hb. unfold ts_ltb. rewrite orb_true_iff, andb_true_iff.
  intros [H|[H _]].
  - apply Z.lt_le_incl. now apply yyyymmdd_strict.
  - unfold same_date in H. rewrite !andb_true_iff, !Z.eqb_eq in H.
    unfold yyyymmdd. lia.
Qed.

(** ** Assignments leave the other columns alone *)

Lemma column_cells_setitem_same df c s df' :
  setitem df c s = Ok df' -> column_cells df' c = s.
Proof.
  intros H. apply setitem_inv in H. destruct H as [Hlen ->].
  unfold column_cells. simpl. now apply zip_set_cells.
Qed.

Lemma column_cells_setitem_other df c s df' c' :
  setitem df c s = Ok df' -> c <> c' -> column_cells df' c' = column_cells df c'.
Proof.
  intros H Hne. apply setitem_inv in H. destruct H as [Hlen ->].
  unfold column_cells. simpl. now apply zip_set_other.
Qed.

Lemma len_setitem df c s df' : setitem df c s = Ok df' -> len df' = len df.
Proof.
  intros H. apply setitem_inv in H. destruct H as [Hlen ->]. now apply len_zip_set.
Qed.

Lemma has_column_setitem df c s df' c' :
  setitem df c s = Ok df' -> has_column df' c' = has_column df c' || String.eqb c' c.
Proof.
  intros H. apply setitem_inv in H. destruct H as [_ ->].
  unfold has_column. simpl. apply mem_add_label.
Qed.

Lemma getitem_cells df c s : getitem df c = Ok s -> s = column_cells df c.
Proof. intros H. apply getitem_inv in H. tauto. Qed.

Lemma Forall2_map_same {A B C : Type} (R : B -> C -> Prop) (f : A -> B) (g : A -> C)
    (l : list A) :
  Forall2 R (map f l) (map g l) -> forall x, In x l -> R (f x) (g x).
Proof.
  induction l as [|a l IH]; simpl; intros H x Hx; [contradiction|].
  inversion H; subst. destruct Hx as [->|Hx]; auto.
Qed.

Section DateDimension.

Context {P : Pandas}.

(** Every row of DimDate holds a timestamp and the key computed from it. *)
Lemma create_date_dimension_rows orders_df orders_df' date_dim :
  create_date_dimension orders_df = Ok (orders_df', date_dim) ->
  forall r, In r (rows date_dim) ->
  exists t, cell r "full_date" = VTime t /\ sk_date t = Ok (cell r "sk_date").
Proof.
  unfold create_date_dimension. destruct (empty orders_df).
  - intros H. inversion H; subst. simpl. contradiction.
  - intros H. do 3 inv_bind H. clear E E0 E1.
    inv_bind H. inv_bind H. inv_bind H.
    do 8 inv_bind H. inversion H; subst. clear H.
    assert (Hfd : column_cells date_dim "full_date" = x2).
    { rewrite (column_cells_setitem_other _ _ _ _ _ E9) by discriminate.
      rewrite (column_cells_setitem_other _ _ _ _ _ E7) by discriminate.
      rewrite (column_cells_setitem_other _ _ _ _ _ E5) by discriminate.
      rewrite (column_cells_setitem_other _ _ _ _ _ E3) by discriminate.
      rewrite (column_cells_setitem_other _ _ _ _ _ E1) by discriminate.
      symmetry. now apply getitem_cells. }
    assert (Hsk : column_cells date_dim "sk_date" = x3).
    { rewrite (column_cells_setitem_other _ _ _ _ _ E9) by discriminate.
      rewrite (column_cells_setitem_other _ _ _ _ _ E7) by discriminate.
      rewrite (column_cells_setitem_other _ _ _ _ _ E5) by discriminate.
      rewrite (column_cells_setitem_other _ _ _ _ _ E3) by discriminate.
      now apply column_cells_setitem_same in E1. }
    apply mapM_Forall2 in E0. rewrite <- Hfd, <- Hsk in E0.
    unfold dt_strftime_Ymd, column_cells in E0. rewrite map_map in E0.
    intros r Hr.
    pose proof (Forall2_map_same _ _ _ _ E0 r Hr) as Hrow. simpl in Hrow.
    destruct (cell r "full_date") as [|z|s|t]; try discriminate.
    exists t. split; [reflexivity | exact Hrow].
Qed.

End DateDimension.
(** ** Properties of the string functions *)

Module StrFacts.
Import Str.

Lemma sforall_impl (p q : ascii -> bool) s :
  (forall c, p c = true -> q c = true) ->
  sforall p s = true -> sforall q s = true.
Proof.
  intros Hpq. induction s as [|c s IH]; simpl; [easy|].
  rewrite !andb_true_iff. intros [Hc Hs]. split; auto.
Qed.

Lemma sforall_smap p f s :
  sforall p (smap f s) = sforall (fun c => p (f c)) s.
Proof. induction s as [|c s IH]; simpl; [easy|]. now rewrite IH. Qed.

Lemma sforall_lstrip p s : sforall p s = true -> sforall p (lstrip s) = true.
Proof.
  induction s as [|c s IH]; simpl; [easy|].
  destruct (isspace c); simpl; [|easy].
  rewrite andb_true_iff. intros [_ Hs]. auto.
Qed.

Lemma sforall_rstrip p s : sforall p s = true -> sforall p (rstrip s) = true.
Proof.
  induction s as [|c s IH]; simpl; [easy|].
  rewrite andb_true_iff. intros [Hc Hs]. specialize (IH Hs).
  destruct (rstrip s) as [|d r].
  - destruct (isspace c); simpl; [easy|]. now rewrite Hc.
  - change (sforall p (String c (String d r))) with (p c && sforall p (String d r)).
    now rewrite Hc, IH.
Qed.

Lemma sforall_strip p s : sforall p s = true -> sforall p (strip s) = true.
Proof. intros H. apply sforall_rstrip, sforall_lstrip, H. Qed.

Lemma sforall_remove_char p x s :
  sforall p s = true -> sforall p (remove_char x s) = true.
Proof.
  induction s as [|c s IH]; simpl; [easy|].
  rewrite andb_true_iff. intros [Hc Hs].
  destruct (Ascii.eqb c x); simpl; auto. now rewrite Hc, IH.
Qed.

Lemma remove_char_absent x s :
  sforall (fun c => negb (Ascii.eqb c x)) (remove_char x s) = true.
Proof.
  induction s as [|c s IH]; simpl; [easy|].
  destruct (Ascii.eqb c x) eqn:E; simpl; [easy|]. now rewrite E, IH.
Qed.

Lemma remove_char_id x s :
  sforall (fun c => negb (Ascii.eqb c x)) s = true -> remove_char x s = s.
Proof.
  induction s as [|c s IH]; simpl; [easy|].
  rewrite andb_true_iff. intros [Hc Hs].
  apply negb_true_iff in Hc. rewrite Hc. f_equal. auto.
Qed.

Lemma smap_id f s :
  sforall (fun c => Ascii.eqb (f c) c) s = true -> smap f s = s.
Proof.
  induction s as [|c s IH]; simpl; [easy|].
  rewrite andb_true_iff. intros [Hc Hs].
  apply Ascii.eqb_eq in Hc. rewrite Hc. f_equal. auto.
Qed.

Lemma lstrip_id s :
  sforall (fun c => negb (isspace c)) s = true -> lstrip s = s.
Proof.
  destruct s as [|c s]; simpl; [easy|].
  rewrite andb_true_iff. intros [Hc _].
  apply negb_true_iff in Hc. now rewrite Hc.
Qed.

Lemma rstrip_id s :
  sforall (fun c => negb (isspace c)) s = true -> rstrip s = s.
Proof.
  induction s as [|c s IH]; simpl; [easy|].
  rewrite andb_true_iff. intros [Hc Hs].
  apply negb_true_iff in Hc. rewrite (IH Hs), Hc. now destruct s.
Qed.

Lemma strip_id s :
  sforall (fun c => negb (isspace c)) s = true -> strip s = s.
Proof. intros H. unfold strip. rewrite (lstrip_id _ H). now apply rstrip_id. Qed.

(** Facts about single characters, by enumeration of the 256 of them. *)
Ltac each_char c := destruct c as [[] [] [] [] [] [] [] []]; vm_compute; try reflexivity; try discriminate.

Lemma lower_char_idem c : Ascii.eqb (lower_char (lower_char c)) (lower_char c) = true.
Proof. each_char c. Qed.

Lemma lower_char_space c :
  negb (isspace c) || Ascii.eqb c " " = true ->
  negb (isspace (lower_char c)) || Ascii.eqb (lower_char c) " " = true.
Proof. each_char c. Qed.

Lemma not_space_char_not_isspace c :
  (negb (isspace c) || Ascii.eqb c " ") && negb (Ascii.eqb c " ") = true ->
  negb (isspace c) = true.
Proof. each_char c. Qed.

End StrFacts.

(** ** Column-name normalisation (claim C10) *)

Lemma standardize_name_clean (col : string) :
  no_space_underscore (standardize_name col) = true.
Proof.
  unfold no_space_underscore, standardize_name.
  set (t := Str.remove_char " " _).
  assert (Hsp : Str.sforall (fun c => negb (Ascii.eqb c " ")) (Str.remove_char "_" t) = true)
    by (apply StrFacts.sforall_remove_char, StrFacts.remove_char_absent).
  assert (Hus := StrFacts.remove_char_absent "_" t).
  revert Hsp Hus. generalize (Str.remove_char "_" t). intros s.
  induction s as [|c s IH]; simpl; [easy|].
  rewrite !andb_true_iff. intros [H1 H2] [H3 H4]. auto.
Qed.

Lemma standardize_name_fixed (t : string) :
  Str.sforall (fun c => Ascii.eqb (Str.lower_char c) c) t = true ->
  Str.sforall (fun c => negb (Str.isspace c)) t = true ->
  Str.sforall (fun c => negb (Ascii.eqb c "_")) t = true ->
  standardize_name t = t.
Proof.
  intros Hlow Hsp Hus. unfold standardize_name, Str.lower.
  rewrite (StrFacts.smap_id _ _ Hlow), (StrFacts.strip_id _ Hsp).
  assert (Hnb : Str.sforall (fun c => negb (Ascii.eqb c " ")) t = true).
  { revert Hsp. apply StrFacts.sforall_impl. intros c.
    destruct c as [[] [] [] [] [] [] [] []]; vm_compute; intros; first [reflexivity | discriminate]. }
  rewrite (StrFacts.remove_char_id _ _ Hnb). now apply StrFacts.remove_char_id.
Qed.

Lemma standardize_name_idem (col : string) :
  only_plain_spaces col = true ->
  standardize_name (standardize_name col) = standardize_name col.
Proof.
  intros Hcol. apply standardize_name_fixed.
  - unfold standardize_name.
    do 2 apply StrFacts.sforall_remove_char. apply StrFacts.sforall_strip.
    unfold Str.lower. rewrite StrFacts.sforall_smap.
    clear Hcol. induction col as [|c s IH]; simpl; [easy|].
    now rewrite StrFacts.lower_char_idem.
  - unfold standardize_name. apply StrFacts.sforall_remove_char.
    set (u := Str.strip (Str.lower col)).
    assert (Hu : only_plain_spaces u = true).
    { unfold u, only_plain_spaces. apply StrFacts.sforall_strip.
      unfold Str.lower. rewrite StrFacts.sforall_smap.
      revert Hcol. apply StrFacts.sforall_impl. exact StrFacts.lower_char_space. }
    assert (Hv := StrFacts.remove_char_absent " " u).
    assert (Hw : only_plain_spaces (Str.remove_char " " u) = true)
      by (apply StrFacts.sforall_remove_char, Hu).
    revert Hv Hw. unfold only_plain_spaces. generalize (Str.remove_char " " u).
    intros s. induction s as [|c s IH]; simpl; [easy|].
    rewrite !andb_true_iff. intros [H1 H2] [H3 H4]. split; auto.
    apply StrFacts.not_space_char_not_isspace. now rewrite H3, H1.
  - unfold standardize_name. apply StrFacts.remove_char_absent.
Qed.

(** C10 (as the code has it): every normalised label is free of spaces and
    underscores, and normalising twice is normalising once for every label
    whose only whitespace is the space character. *)
Theorem standardize_names_clean_and_idempotent (cols : list string) :
  Forall (fun n => no_space_underscore n = true) (standardize_names cols) /\
  (Forall (fun c => only_plain_spaces c = true) cols ->
   standardize_names (standardize_names cols) = standardize_names cols).
Proof.
  split.
  - unfold standardize_names. apply Forall_map, Forall_forall.
    intros c _. apply standardize_name_clean.
  - unfold standardize_names. induction 1 as [|c l Hc Hl IH]; simpl; [easy|].
    now rewrite standardize_name_idem, IH.
Qed.

(** C10, the stated idempotence fails: an underscore shields a TAB from
    [strip], the first pass removes the underscore, the second pass strips
    the TAB. *)
Lemma standardize_names_not_idempotent :
  let cols := [String "_" (String Str.tab "a")] in
  standardize_names cols = [String Str.tab "a"] /\
  standardize_names (standardize_names cols) = ["a"] /\
  standardize_names (standardize_names cols) <> standardize_names cols.
Proof. vm_compute. repeat split. discriminate. Qed.

Lemma standardize_names_clean_and_idempotent_witness :
  Forall (fun c => only_plain_spaces c = true) ["Order ID"; "unit_price"] /\
  standardize_names (standardize_names ["Order ID"; "unit_price"])
  = standardize_names ["Order ID"; "unit_price"].
Proof.
  assert (H : Forall (fun c => only_plain_spaces c = true) ["Order ID"; "unit_price"])
    by (repeat constructor).
  split; [exact H|].
  exact (proj2 (standardize_names_clean_and_idempotent ["Order ID"; "unit_price"]) H).
Defined.
(** ** The date key (claim C3) *)

(** C3: the key of DimDate is the integer YYYYMMDD of the date, so of two
    rows of DimDate the one with the earlier calendar date has the
    strictly smaller [sk_date]; the key of 2013-07-04 is 20130704. *)
Theorem date_key_strictly_monotone {P : Pandas}
    (orders_df orders_df' date_dim : DataFrame) (r1 r2 : row) (d1 d2 : Timestamp) :
  create_date_dimension orders_df = Ok (orders_df', date_dim) ->
  In r1 (rows date_dim) -> In r2 (rows date_dim) ->
  cell r1 "full_date" = VTime d1 -> cell r2 "full_date" = VTime d2 ->
  valid_timestamp d1 -> valid_timestamp d2 ->
  date_ltb d1 d2 = true ->
  cell r1 "sk_date" = VInt (yyyymmdd d1) /\
  cell r2 "sk_date" = VInt (yyyymmdd d2) /\
  (yyyymmdd d1 < yyyymmdd d2)%Z /\
  sk_date (mkTimestamp 2013 7 4 0) = Ok (VInt 20130704).
Proof.
  intros Hdim Hr1 Hr2 Hc1 Hc2 Hv1 Hv2 Hlt.
  destruct (create_date_dimension_rows _ _ _ Hdim r1 Hr1) as (t1 & Ht1 & Hk1).
  destruct (create_date_dimension_rows _ _ _ Hdim r2 Hr2) as (t2 & Ht2 & Hk2).
  rewrite Hc1 in Ht1. rewrite Hc2 in Ht2. inversion Ht1; inversion Ht2; subst t1 t2.
  rewrite (sk_date_valid _ Hv1) in Hk1. rewrite (sk_date_valid _ Hv2) in Hk2.
  inversion Hk1. inversion Hk2. repeat split.
  - now apply yyyymmdd_strict.
Qed.

Lemma date_key_strictly_monotone_witness :
  exists date_dim r1 r2,
    In r1 (rows date_dim) /\ In r2 (rows date_dim) /\
    cell r1 "sk_date" = VInt 20121231 /\ cell r2 "sk_date" = VInt 20130704 /\
    sk_date (mkTimestamp 2013 7 4 0) = Ok (VInt 20130704).
Proof.
  destruct (create_date_dimension (P := Sample.pandas) Sample.dated_orders)
    as [[o dim]|e] eqn:E; [|vm_compute in E; discriminate].
  pose proof E as E'. vm_compute in E'. inversion E'; subst o dim. clear E'.
  pose (d1 := mkTimestamp 2012 12 31 0). pose (d2 := mkTimestamp 2013 7 4 0).
  match type of E with _ = Ok (_, ?dim) =>
    pose (r1 := nth 0 (rows dim) []); pose (r2 := nth 1 (rows dim) [])
  end.
  match type of E with _ = Ok (_, ?dim) =>
    assert (H1 : In r1 (rows dim)) by (vm_compute; auto);
    assert (H2 : In r2 (rows dim)) by (vm_compute; auto)
  end.
  assert (C1 : cell r1 "full_date" = VTime d1) by reflexivity.
  assert (C2 : cell r2 "full_date" = VTime d2) by reflexivity.
  assert (V1 : valid_timestamp d1) by (unfold valid_timestamp, d1; cbn; lia).
  assert (V2 : valid_timestamp d2) by (unfold valid_timestamp, d2; cbn; lia).
  destruct (date_key_strictly_monotone (P := Sample.pandas)
              _ _ _ r1 r2 d1 d2 E H1 H2 C1 C2 V1 V2 eq_refl)
    as (K1 & K2 & _ & K4).
  exact (ex_intro _ _ (ex_intro _ r1 (ex_intro _ r2
           (conj H1 (conj H2 (conj K1 (conj K2 K4))))))).
Defined.

(** ** Distinct natural keys in DimClient (claim C8) *)

(** C8 (as the code has it), for customer ids that are text or missing:
    DimClient has one row per row of the loaded Customers table, its
    natural key being the uppercased, trimmed text of that row's customer
    id; the keys of DimClient are pairwise distinct whenever the loaded
    customer ids are still pairwise distinct once they are uppercased and
    trimmed. *)
Theorem client_keys_distinct (customers_df out : DataFrame) :
  well_formed customers_df ->
  has_column customers_df "bk_customer_id" = false ->
  empty customers_df = false ->
  holds customers_df "customerid" text_id = true ->
  create_client_dimension customers_df = Ok out ->
  NoDup (map normalized_id (column_cells customers_df "customerid")) ->
  len out = len customers_df /\
  column_cells out "bk_customer_id"
  = map normalized_id (column_cells customers_df "customerid") /\
  NoDup (column_cells out "bk_customer_id").
Proof.
  intros Hwf Hno Hne _ Hout Hnd.
  pose proof (create_client_dimension_keys _ _ Hwf Hno Hne Hout) as Hk.
  split; [|split; [exact Hk | now rewrite Hk]].
  apply (f_equal (@List.length value)) in Hk.
  unfold column_cells in Hk. rewrite !length_map in Hk. exact Hk.
Qed.

Lemma client_keys_distinct_witness :
  exists out,
    create_client_dimension Sample.customers = Ok out /\
    len out = 2%nat /\
    column_cells out "bk_customer_id" = [VStr "ALFKI"; VStr "ANATR"] /\
    NoDup (column_cells out "bk_customer_id").
Proof.
  destruct (create_client_dimension Sample.customers)
    as [out|e] eqn:E; [|vm_compute in E; discriminate].
  assert (Hwf : well_formed Sample.customers) by (repeat constructor).
  assert (Hnd : NoDup (map normalized_id (column_cells Sample.customers "customerid"))).
  { vm_compute. repeat constructor; simpl; intuition discriminate. }
  destruct (client_keys_distinct Sample.customers out
              Hwf eq_refl eq_refl eq_refl E Hnd) as (Hlen & Hk & Hd).
  exists out. repeat split; assumption.
Defined.

(** C8, as stated, fails: the loader compares the customer ids as they
    are in the files, the builder uppercases and trims them afterwards
    and removes no row.  ALFKI and alfki both survive the loader and both
    become ALFKI. *)
Lemma client_keys_not_distinct :
  load_source_data [Ok Sample.customers_case] ["customerid"] = Sample.customers_case /\
  NoDup (column_cells Sample.customers_case "customerid") /\
  exists out,
    create_client_dimension
      (load_source_data [Ok Sample.customers_case] ["customerid"]) = Ok out /\
    column_cells out "bk_customer_id" = [VStr "ALFKI"; VStr "ALFKI"] /\
    ~ NoDup (column_cells out "bk_customer_id").
Proof.
  split; [reflexivity|]. split.
  - vm_compute. repeat constructor; simpl; intuition discriminate.
  - eexists. split; [vm_compute; reflexivity|]. split; [reflexivity|].
    intros H. vm_compute in H. inversion H as [|x l Hin _]; subst.
    apply Hin. now left.
Qed.

(** ** The date builder and its argument (claim C9) *)

(** C9 does not hold of the code: [create_date_dimension] assigns the
    stringified dates to the [orderdate] column of the frame it is given.
    An order without a date holds NaN before the call and the string
    [nan] after it. *)
Lemma create_date_dimension_changes_its_input :
  exists orders_after date_dim,
    create_date_dimension (P := Sample.pandas) Sample.orders
    = Ok (orders_after, date_dim) /\
    column_cells Sample.orders "orderdate"
    = [VStr "2013-07-04"; NaN; VStr "not a date"] /\
    column_cells orders_after "orderdate"
    = [VStr "2013-07-04"; VStr "nan"; VStr "not a date"] /\
    orders_after <> Sample.orders.
Proof.
  do 2 eexists. split; [vm_compute; reflexivity|].
  split; [reflexivity|]. split; [reflexivity|]. discriminate.
Qed.
(** ** Removing duplicates, first occurrence kept *)

Lemma existsb_key_In (k : list value) (seen : list (list value)) :
  existsb (key_eqb k) seen = true <-> In k seen.
Proof.
  rewrite existsb_exists. split.
  - intros (x & Hx & E). apply key_eqb_eq in E. now subst.
  - intros H. exists k. split; [assumption | now apply key_eqb_eq].
Qed.

Lemma keep_first_In subset seen rs r :
  In r (keep_first subset seen rs) -> In r rs /\ ~ In (key_of subset r) seen.
Proof.
  revert seen. induction rs as [|a rs IH]; simpl; intros seen H; [contradiction|].
  destruct (existsb (key_eqb (key_of subset a)) seen) eqn:E.
  - destruct (IH _ H). auto.
  - destruct H as [->|H].
    + split; [now left|]. intros Hin. apply existsb_key_In in Hin. congruence.
    + destruct (IH _ H) as [Hr Hk]. split; [now right|].
      intros Hin. apply Hk. now right.
Qed.

Lemma keep_first_NoDup subset seen rs :
  NoDup (map (key_of subset) (keep_first subset seen rs)).
Proof.
  revert seen. induction rs as [|a rs IH]; simpl; intros seen; [constructor|].
  destruct (existsb (key_eqb (key_of subset a)) seen); [apply IH|].
  simpl. constructor; [|apply IH].
  intros Hin. apply in_map_iff in Hin. destruct Hin as (r & Hk & Hr).
  apply keep_first_In in Hr. destruct Hr as [_ Hr]. apply Hr. rewrite Hk. now left.
Qed.

(** The row kept for a key is the first row of the input with that key. *)
Lemma keep_first_find subset seen rs k :
  ~ In k seen ->
  find (fun r => key_eqb (key_of subset r) k) (keep_first subset seen rs)
  = find (fun r => key_eqb (key_of subset r) k) rs.
Proof.
  revert seen. induction rs as [|a rs IH]; simpl; intros seen Hk; [reflexivity|].
  destruct (existsb (key_eqb (key_of subset a)) seen) eqn:E.
  - destruct (key_eqb (key_of subset a) k) eqn:Ea.
    + apply key_eqb_eq in Ea. subst k. apply existsb_key_In in E. contradiction.
    + now apply IH.
  - simpl. destruct (key_eqb (key_of subset a) k) eqn:Ea; [reflexivity|].
    apply IH. intros [Hin|Hin]; [|contradiction].
    subst k. rewrite (proj2 (key_eqb_eq _ _) eq_refl) in Ea. discriminate.
Qed.

(** No row is invented and the order of the rows is kept. *)
Lemma keep_first_filter subset seen rs :
  exists keep : row -> nat -> bool,
    keep_first subset seen rs
    = map fst (filter (fun p => keep (fst p) (snd p))
                 (combine rs (seq 0 (List.length rs)))).
Proof.
  assert (G : forall n seen, exists keep : row -> nat -> bool,
    keep_first subset seen rs
    = map fst (filter (fun p => keep (fst p) (snd p))
                 (combine rs (seq n (List.length rs))))).
  { induction rs as [|a rs IH]; simpl; intros n sn.
    - now exists (fun _ _ => true).
    - destruct (existsb (key_eqb (key_of subset a)) sn) eqn:E.
      + destruct (IH (S n) sn) as (keep & Hk).
        exists (fun r i => negb (i =? n)%nat && keep r i). simpl.
        rewrite Nat.eqb_refl. simpl. rewrite Hk. f_equal.
        apply filter_ext_in. intros [r i] Hin. simpl.
        apply in_combine_r in Hin. apply in_seq in Hin.
        assert (Hne : (i =? n)%nat = false) by (apply Nat.eqb_neq; lia).
        now rewrite Hne.
      + destruct (IH (S n) (key_of subset a :: sn)) as (keep & Hk).
        exists (fun r i => (i =? n)%nat || keep r i). simpl.
        rewrite Nat.eqb_refl. simpl. rewrite Hk. f_equal. f_equal.
        apply filter_ext_in. intros [r i] Hin. simpl.
        apply in_combine_r in Hin. apply in_seq in Hin.
        assert (Hne : (i =? n)%nat = false) by (apply Nat.eqb_neq; lia).
        now rewrite Hne. }
  apply G.
Qed.

(** ** Concatenation *)

Lemma In_add_label c x cols : In x (add_label c cols) <-> In x cols \/ x = c.
Proof.
  rewrite <- !mem_In, mem_add_label, orb_true_iff, String.eqb_eq. tauto.
Qed.

Lemma In_union_labels acc cols x :
  In x (union_labels acc cols) <-> In x acc \/ In x cols.
Proof.
  unfold union_labels. revert acc.
  induction cols as [|c cols IH]; simpl; intros acc; [tauto|].
  rewrite IH, In_add_label. intuition congruence.
Qed.

Lemma In_concat_columns frames x :
  In x (concat_columns frames) <-> exists df, In df frames /\ In x (columns df).
Proof.
  unfold concat_columns.
  assert (G : forall acc, In x (fold_left union_labels (map columns frames) acc)
                          <-> In x acc \/ exists df, In df frames /\ In x (columns df)).
  { induction frames as [|f frames IH]; simpl; intros acc.
    - split; [tauto|]. intros [H|(df & [] & _)]. exact H.
    - rewrite IH, In_union_labels. split.
      + intros [[H|H]|(df & Hdf & H)]; eauto 6.
      + intros [H|(df & [->|Hdf] & H)]; eauto 6. }
  rewrite G. simpl. split; [intros [[]|H]; exact H | auto].
Qed.

Lemma len_concat frames : len (concat frames) = list_sum (map len frames).
Proof.
  unfold len, concat. simpl. generalize (concat_columns frames). intros cols.
  induction frames as [|f frames IH]; simpl; [reflexivity|].
  now rewrite length_app, length_map, IH.
Qed.

(** ** What the loader reads *)

Lemma loaded_frames_columns source_files df c :
  In df (loaded_frames source_files) -> In c (columns df) ->
  no_space_underscore c = true.
Proof.
  unfold loaded_frames. rewrite in_flat_map. intros (f & _ & Hdf) Hc.
  destruct f as [d|e]; [|contradiction]. destruct Hdf as [<-|[]].
  simpl in Hc. unfold standardize_names in Hc. apply in_map_iff in Hc.
  destruct Hc as (col & <- & _). apply standardize_name_clean.
Qed.
(** ** Sorting and distinct cells *)

Lemma insert_sorted_perm {A : Type} (leb : A -> A -> bool) (x : A) (l : list A) :
  Permutation (insert_sorted leb x l) (x :: l).
Proof.
  induction l as [|y l IH]; simpl; [reflexivity|].
  destruct (leb x y); [reflexivity|].
  rewrite IH. apply perm_swap.
Qed.

Lemma sort_perm {A : Type} (leb : A -> A -> bool) (l : list A) :
  Permutation (sort leb l) l.
Proof.
  induction l as [|x l IH]; simpl; [reflexivity|].
  rewrite insert_sorted_perm. now constructor.
Qed.

Lemma sort_In {A : Type} (leb : A -> A -> bool) (l : list A) (x : A) :
  In x (sort leb l) <-> In x l.
Proof.
  split; apply Permutation_in; [apply sort_perm | symmetry; apply sort_perm].
Qed.

Lemma sort_length {A : Type} (leb : A -> A -> bool) (l : list A) :
  List.length (sort leb l) = List.length l.
Proof. apply Permutation_length, sort_perm. Qed.

Lemma insert_sorted_Sorted {A : Type} (leb : A -> A -> bool) (x : A) (l : list A) :
  (forall y, In y l -> leb x y = false -> leb y x = true) ->
  Sorted (fun a b => leb a b = true) l ->
  Sorted (fun a b => leb a b = true) (insert_sorted leb x l).
Proof.
  intros Htot Hs. induction Hs as [|y l Hs IH Hd]; simpl.
  - repeat constructor.
  - destruct (leb x y) eqn:E.
    + constructor; [now constructor | now constructor].
    + constructor.
      * apply IH. intros z Hz. apply Htot. now right.
      * destruct l as [|z l]; simpl.
        -- constructor. apply Htot; [now left | exact E].
        -- destruct (leb x z) eqn:Ez.
           ++ constructor. apply Htot; [now left | exact E].
           ++ constructor. now inversion Hd.
Qed.

Lemma sort_Sorted {A : Type} (leb : A -> A -> bool) (l : list A) :
  (forall x y, In x l -> In y l -> leb x y = false -> leb y x = true) ->
  Sorted (fun a b => leb a b = true) (sort leb l).
Proof.
  induction l as [|x l IH]; simpl; intros Htot; [constructor|].
  apply insert_sorted_Sorted.
  - intros y Hy. apply sort_In in Hy. apply Htot; [now left | now right].
  - apply IH. intros a b Ha Hb. apply Htot; now right.
Qed.

Lemma unique_In (x : value) (l : list value) : In x (unique l) <-> In x l.
Proof.
  induction l as [|a l IH]; simpl; [tauto|].
  rewrite filter_In, IH, negb_true_iff, value_eqb_neq.
  destruct (value_eqb a x) eqn:E.
  - apply value_eqb_eq in E. tauto.
  - apply value_eqb_neq in E. tauto.
Qed.

Lemma unique_NoDup (l : list value) : NoDup (unique l).
Proof.
  induction l as [|a l IH]; simpl; constructor.
  - rewrite filter_In, negb_true_iff, value_eqb_neq. tauto.
  - now apply NoDup_filter.
Qed.

Lemma unique_length (l : list value) : (List.length (unique l) <= List.length l)%nat.
Proof.
  induction l as [|a l IH]; simpl; [lia|].
  pose proof (filter_length_le (fun y => negb (value_eqb a y)) (unique l)). lia.
Qed.

(** ** Timestamps in order *)

Lemma ts_leb_total (a b : Timestamp) : ts_leb a b = false -> ts_leb b a = true.
Proof.
  unfold ts_leb, ts_ltb, date_ltb, same_date.
  rewrite negb_false_iff, negb_true_iff.
  rewrite !orb_true_iff, !andb_true_iff, !orb_true_iff, !andb_true_iff.
  rewrite !Z.ltb_lt, !Z.eqb_eq. intros H.
  apply not_true_is_false. intros H'.
  rewrite !orb_true_iff, !andb_true_iff, !orb_true_iff, !andb_true_iff in H'.
  rewrite !Z.ltb_lt, !Z.eqb_eq in H'. lia.
Qed.

(** Two valid timestamps at midnight with the same YYYYMMDD are the same. *)
Lemma yyyymmdd_inj (a b : Timestamp) :
  valid_timestamp a -> valid_timestamp b ->
  ts_nanos a = ts_nanos b -> yyyymmdd a = yyyymmdd b -> a = b.
Proof.
  intros (Hya & Hma & Hda & _) (Hyb & Hmb & Hdb & _) Hn.
  pose proof (days_in_month_le_31 (ts_year a) (ts_month a)).
  pose proof (days_in_month_le_31 (ts_year b) (ts_month b)).
  unfold yyyymmdd. intros E.
  destruct a as [ya ma da na], b as [yb mb db nb]. simpl in *.
  assert (ya = yb) by lia. assert (ma = mb) by lia. assert (da = db) by lia.
  now subst.
Qed.

(** ** Reading dates *)

Section Reading.

Context {P : Pandas}.

Lemma to_datetime_series_In (s : list value) (v : value) :
  In v (to_datetime_series s) ->
  v = NaN \/ exists x t, In (VStr x) s /\ to_datetime x = Some t /\ v = VTime t.
Proof.
  unfold to_datetime_series. rewrite in_map_iff. intros (u & <- & Hu).
  destruct u as [|z|x|t]; auto.
  destruct (to_datetime x) as [t|] eqn:E; [|auto].
  right. exists x, t. auto.
Qed.

Lemma to_datetime_series_length (s : list value) :
  List.length (to_datetime_series s) = List.length s.
Proof. apply length_map. Qed.

End Reading.
(** ** The shape of DimDate *)

Lemma insert_sorted_map {A B : Type} (leb : B -> B -> bool) (f : A -> B) x l :
  map f (insert_sorted (fun a b => leb (f a) (f b)) x l)
  = insert_sorted leb (f x) (map f l).
Proof.
  induction l as [|y l IH]; simpl; [reflexivity|].
  destruct (leb (f x) (f y)); simpl; [reflexivity|]. now rewrite IH.
Qed.

Lemma sort_map {A B : Type} (leb : B -> B -> bool) (f : A -> B) l :
  map f (sort (fun a b => leb (f a) (f b)) l) = sort leb (map f l).
Proof.
  induction l as [|x l IH]; simpl; [reflexivity|].
  now rewrite insert_sorted_map, IH.
Qed.

Lemma filter_all {A : Type} (p : A -> bool) (l : list A) :
  Forall (fun x => p x = true) l -> filter p l = l.
Proof.
  induction 1 as [|x l Hx _ IH]; simpl; [reflexivity|]. now rewrite Hx, IH.
Qed.

Lemma filter_none {A : Type} (p : A -> bool) (l : list A) :
  Forall (fun x => p x = true) l -> filter (fun x => negb (p x)) l = [].
Proof.
  induction 1 as [|x l Hx _ IH]; simpl; [reflexivity|]. now rewrite Hx.
Qed.

(** A one-column frame of cells that are all present, sorted. *)
Lemma sorted_column_cells (c : string) (vs : list value) :
  Forall (fun v => notnull v = true) vs ->
  column_cells (sort_values (DataFrame_of c vs) c) c = sort value_leb vs.
Proof.
  intros Hvs. unfold column_cells, sort_values, DataFrame_of. cbn [rows columns].
  assert (Hrows : Forall (fun a : row => notnull (cell a c) = true)
                    (map (fun v => [(c, v)]) vs)).
  { apply Forall_map. eapply Forall_impl; [|exact Hvs].
    intros v Hv. unfold cell. simpl. now rewrite String.eqb_refl. }
  rewrite (filter_all _ _ Hrows), (filter_none _ _ Hrows), app_nil_r.
  rewrite (sort_map value_leb (fun a : row => cell a c)).
  f_equal. rewrite map_map. rewrite <- (map_id vs) at 2.
  apply map_ext. intros v. unfold cell. simpl. now rewrite String.eqb_refl.
Qed.

Lemma dropna_notnull (l : list value) : Forall (fun v => notnull v = true) (dropna l).
Proof. apply Forall_forall. intros v Hv. apply filter_In in Hv. tauto. Qed.

Lemma unique_Forall (Q : value -> Prop) (l : list value) :
  Forall Q l -> Forall Q (unique l).
Proof.
  rewrite !Forall_forall. intros H x Hx. apply H. now apply unique_In.
Qed.

Section DateStructure.

Context {P : Pandas}.

(** The columns of DimDate, each as the builder computes it. *)
Lemma create_date_dimension_inv orders_df orders_df' date_dim :
  empty orders_df = false ->
  create_date_dimension orders_df = Ok (orders_df', date_dim) ->
  has_column orders_df "orderdate" = true /\
  column_cells date_dim "full_date"
  = sort value_leb
      (unique (dropna (to_datetime_series
                         (astype_str (column_cells orders_df "orderdate"))))) /\
  astype_int (dt_strftime_Ymd (column_cells date_dim "full_date"))
  = Ok (column_cells date_dim "sk_date") /\
  column_cells date_dim "year" = dt_year (column_cells date_dim "full_date") /\
  column_cells date_dim "month" = dt_month (column_cells date_dim "full_date") /\
  column_cells date_dim "month_name"
  = dt_month_name (column_cells date_dim "full_date") /\
  column_cells date_dim "quarter" = dt_quarter (column_cells date_dim "full_date").
Proof.
  intros Hne. unfold create_date_dimension. rewrite Hne. intros H.
  inv_bind H. inv_bind H. inv_bind H.
  apply getitem_inv in E. destruct E as [Hcol ->].
  pose proof (column_cells_setitem_same _ _ _ _ E0) as Hod.
  apply getitem_cells in E1. rewrite Hod in E1. subst x1. clear E0 Hod.
  fold (column_cells orders_df "orderdate") in H.
  set (dates := unique _) in H.
  assert (Hdates : Forall (fun v => notnull v = true) dates)
    by apply unique_Forall, dropna_notnull.
  inv_bind_as H fd Efd. apply getitem_cells in Efd.
  rewrite (sorted_column_cells _ _ Hdates) in Efd. subst fd.
  inv_bind_as H sk Esk. inv_bind_as H d1 E1.
  inv_bind_as H fd1 G1. inv_bind_as H d2 E2.
  inv_bind_as H fd2 G2. inv_bind_as H d3 E3.
  inv_bind_as H fd3 G3. inv_bind_as H d4 E4.
  inv_bind_as H fd4 G4. inv_bind_as H d5 E5.
  inversion H; subst x0 d5. clear H.
  apply getitem_cells in G1, G2, G3, G4.
  pose proof (column_cells_setitem_same _ _ _ _ E1) as Hsk.
  pose proof (column_cells_setitem_same _ _ _ _ E2) as Hyear.
  pose proof (column_cells_setitem_same _ _ _ _ E3) as Hmonth.
  pose proof (column_cells_setitem_same _ _ _ _ E4) as Hname.
  pose proof (column_cells_setitem_same _ _ _ _ E5) as Hquarter.
  assert (F1 : column_cells d1 "full_date" = sort value_leb dates).
  { rewrite (column_cells_setitem_other _ _ _ _ "full_date" E1) by discriminate.
    now apply sorted_column_cells. }
  assert (F2 : column_cells d2 "full_date" = sort value_leb dates)
    by (rewrite (column_cells_setitem_other _ _ _ _ "full_date" E2) by discriminate;
        exact F1).
  assert (F3 : column_cells d3 "full_date" = sort value_leb dates)
    by (rewrite (column_cells_setitem_other _ _ _ _ "full_date" E3) by discriminate;
        exact F2).
  assert (F4 : column_cells d4 "full_date" = sort value_leb dates)
    by (rewrite (column_cells_setitem_other _ _ _ _ "full_date" E4) by discriminate;
        exact F3).
  assert (F5 : column_cells date_dim "full_date" = sort value_leb dates)
    by (rewrite (column_cells_setitem_other _ _ _ _ "full_date" E5) by discriminate;
        exact F4).
  rewrite F5. repeat split.
  - exact Hcol.
  - rewrite (column_cells_setitem_other _ _ _ _ "sk_date" E5) by discriminate.
    rewrite (column_cells_setitem_other _ _ _ _ "sk_date" E4) by discriminate.
    rewrite (column_cells_setitem_other _ _ _ _ "sk_date" E3) by discriminate.
    rewrite (column_cells_setitem_other _ _ _ _ "sk_date" E2) by discriminate.
    now rewrite Hsk.
  - rewrite (column_cells_setitem_other _ _ _ _ "year" E5) by discriminate.
    rewrite (column_cells_setitem_other _ _ _ _ "year" E4) by discriminate.
    rewrite (column_cells_setitem_other _ _ _ _ "year" E3) by discriminate.
    rewrite Hyear, G1. now rewrite F1.
  - rewrite (column_cells_setitem_other _ _ _ _ "month" E5) by discriminate.
    rewrite (column_cells_setitem_other _ _ _ _ "month" E4) by discriminate.
    rewrite Hmonth, G2. now rewrite F2.
  - rewrite (column_cells_setitem_other _ _ _ _ "month_name" E5) by discriminate.
    rewrite Hname, G3. now rewrite F3.
  - rewrite Hquarter, G4. now rewrite F4.
Qed.

End DateStructure.
(** ** The geography defaults of DimClient *)

Lemma column_cells_setitem_scalar_same df c v :
  column_cells (setitem_scalar df c v) c = map (fun _ => v) (rows df).
Proof.
  unfold column_cells. simpl. rewrite map_map.
  apply map_ext. intros r. apply cell_set_cell_eq.
Qed.

Lemma len_setitem_scalar df c v : len (setitem_scalar df c v) = len df.
Proof. unfold len. simpl. apply length_map. Qed.

(** After the loop a column is there if it was there or is one of the
    geography columns. *)
Lemma geography_defaults_has (geo : list string) (d : DataFrame) (c : string) :
  has_column (fold_left (fun d geo_col =>
                           if negb (has_column d geo_col)
                           then setitem_scalar d geo_col (VStr "Unknown")
                           else d) geo d) c
  = has_column d c || mem c geo.
Proof.
  revert d. induction geo as [|g geo IH]; simpl; intros d; [now rewrite orb_false_r|].
  rewrite IH. destruct (has_column d g) eqn:Hg; simpl.
  - destruct (String.eqb c g) eqn:E; [|reflexivity].
    apply String.eqb_eq in E. subst. now rewrite Hg.
  - rewrite has_column_setitem_scalar. now rewrite orb_assoc.
Qed.

(** A geography column that was there keeps its cells; one that was not
    holds [Unknown] in every row. *)
Lemma geography_defaults_column (geo : list string) (d : DataFrame) (g : string) :
  In g geo ->
  column_cells (fold_left (fun d geo_col =>
                             if negb (has_column d geo_col)
                             then setitem_scalar d geo_col (VStr "Unknown")
                             else d) geo d) g
  = if has_column d g then column_cells d g
    else map (fun _ => VStr "Unknown") (rows d).
Proof.
  revert d. induction geo as [|g0 geo IH]; simpl; intros d Hin; [contradiction|].
  set (d1 := if negb (has_column d g0)
             then setitem_scalar d g0 (VStr "Unknown") else d).
  destruct (string_dec g0 g) as [->|Hne].
  - assert (H1 : has_column d1 g = true).
    { unfold d1. destruct (has_column d g) eqn:Hg; simpl; [exact Hg|].
      rewrite has_column_setitem_scalar, String.eqb_refl. apply orb_true_r. }
    assert (C1 : column_cells d1 g
                 = if has_column d g then column_cells d g
                   else map (fun _ => VStr "Unknown") (rows d)).
    { unfold d1. destruct (has_column d g); simpl; [reflexivity|].
      apply column_cells_setitem_scalar_same. }
    destruct (in_dec string_dec g geo) as [Hg|Hg].
    + rewrite (IH d1 Hg), H1. exact C1.
    + destruct (geography_defaults_frame geo d1 g Hg) as (Hc & _ & _).
      cbv zeta in Hc. rewrite Hc. exact C1.
  - destruct Hin as [Hin|Hin]; [contradiction|].
    rewrite (IH d1 Hin). unfold d1.
    destruct (has_column d g0); simpl; [reflexivity|].
    rewrite has_column_setitem_scalar.
    assert (E : String.eqb g g0 = false)
      by (apply String.eqb_neq; congruence).
    rewrite E, orb_false_r, column_cells_setitem_scalar by assumption.
    now rewrite map_map.
Qed.

(** ** Renamed labels *)

Lemma has_column_rename df mapping c :
  has_column (rename df mapping) c
  = existsb (fun k => String.eqb (rename_label mapping k) c) (columns df).
Proof.
  unfold has_column, mem, rename. cbn [columns].
  induction (columns df) as [|k cols IH]; simpl; [reflexivity|].
  now rewrite IH, String.eqb_sym.
Qed.

Lemma existsb_eqb_mem (c : string) (cols : list string) :
  existsb (fun k => String.eqb k c) cols = mem c cols.
Proof.
  unfold mem. induction cols as [|k cols IH]; simpl; [reflexivity|].
  now rewrite IH, String.eqb_sym.
Qed.

Lemma len_rename df mapping : len (rename df mapping) = len df.
Proof. unfold len. simpl. apply length_map. Qed.

(** A label the mapping neither renames nor produces stays as it is. *)
Lemma has_column_rename_other df mapping c :
  rename_label mapping c = c ->
  (forall k, rename_label mapping k = c -> k = c) ->
  has_column (rename df mapping) c = has_column df c.
Proof.
  intros Hc Hk. rewrite has_column_rename. unfold has_column. rewrite <- existsb_eqb_mem.
  induction (columns df) as [|k cols IH]; simpl; [reflexivity|]. f_equal; [|exact IH].
  destruct (String.eqb k c) eqn:E.
  - apply String.eqb_eq in E. subst. rewrite Hc. apply String.eqb_refl.
  - apply String.eqb_neq. intros H. apply Hk in H. subst.
    now rewrite String.eqb_refl in E.
Qed.
(** ** Joins of frames that share no label *)

Lemma suffixed_nil suffix c : suffixed [] suffix c = c.
Proof. reflexivity. Qed.

Lemma cell_app_left (a b : row) c : In c (map fst a) -> cell (a ++ b) c = cell a c.
Proof.
  intros H. unfold cell. rewrite lookup_app.
  destruct (lookup c a) eqn:E; [reflexivity|].
  apply lookup_None in E. contradiction.
Qed.

Lemma cell_app_right (a b : row) c : ~ In c (map fst a) -> cell (a ++ b) c = cell b c.
Proof.
  intros H. unfold cell. rewrite lookup_app.
  apply lookup_None in H. now rewrite H.
Qed.

Lemma cell_nulls cols c : cell (map (fun c0 => (c0, NaN)) cols) c = NaN.
Proof.
  unfold cell. induction cols as [|c0 cols IH]; simpl; [reflexivity|].
  now destruct (String.eqb c0 c).
Qed.

Section MergeFacts.

Variables (l r : DataFrame) (left_on right_on : string) (h : how).

Hypothesis disjoint : overlap l r left_on right_on = [].

Lemma left_part_reindex a : left_part l r left_on right_on a = reindex (columns l) a.
Proof. unfold left_part. rewrite disjoint. reflexivity. Qed.

Lemma right_part_reindex b :
  right_part l r left_on right_on b = reindex (right_labels r left_on right_on) b.
Proof. unfold right_part. rewrite disjoint. reflexivity. Qed.

Lemma null_part_nulls :
  null_part l r left_on right_on
  = map (fun c => (c, NaN)) (right_labels r left_on right_on).
Proof. unfold null_part. rewrite disjoint. reflexivity. Qed.

Lemma merge_inv m :
  merge l r left_on right_on h = Ok m ->
  has_column l left_on = true /\ has_column r right_on = true /\
  columns m = columns l ++ right_labels r left_on right_on /\
  rows m = flat_map (merge_row l r left_on right_on h) (rows l).
Proof.
  unfold merge. destruct (has_column l left_on); [|discriminate].
  destruct (has_column r right_on); [|discriminate]. simpl.
  intros H. inversion H. simpl. rewrite disjoint.
  repeat split. f_equal; apply map_id.
Qed.

(** A label of the left frame reads the left row, any other label of the
    result reads the matched right row. *)
Lemma merge_row_cells a x :
  In x (merge_row l r left_on right_on h a) ->
  (forall c, In c (columns l) -> cell x c = cell a c) /\
  ((exists b, In b (matches r left_on right_on a) /\
              forall c, ~ In c (columns l) -> In c (right_labels r left_on right_on) ->
                        cell x c = cell b c) \/
   (matches r left_on right_on a = [] /\ h = left /\
    forall c, ~ In c (columns l) -> cell x c = NaN)).
Proof.
  unfold merge_row. intros Hx.
  assert (Hl : forall t c, In c (columns l) ->
               cell (left_part l r left_on right_on a ++ t) c = cell a c).
  { intros t c Hc. rewrite left_part_reindex, cell_app_left.
    - now apply cell_reindex.
    - now rewrite labels_reindex. }
  assert (Hr : forall t c, ~ In c (columns l) ->
               cell (left_part l r left_on right_on a ++ t) c = cell t c).
  { intros t c Hc. rewrite left_part_reindex, cell_app_right; [reflexivity|].
    now rewrite labels_reindex. }
  destruct (matches r left_on right_on a) as [|b0 ms] eqn:E.
  - destruct h; [destruct Hx|]. destruct Hx as [<-|[]].
    split; [intros c Hc; apply Hl, Hc|]. right. repeat split.
    intros c Hc. rewrite Hr by assumption. rewrite null_part_nulls. apply cell_nulls.
  - apply in_map_iff in Hx. destruct Hx as (b & <- & Hb).
    split; [intros c Hc; apply Hl, Hc|]. left. exists b. split; [exact Hb|].
    intros c Hc Hc'. rewrite Hr by assumption.
    rewrite right_part_reindex. now apply cell_reindex.
Qed.

End MergeFacts.

Lemma map_flat_map {A B C : Type} (f : B -> C) (g : A -> list B) (l : list A) :
  map f (flat_map g l) = flat_map (fun a => map f (g a)) l.
Proof.
  induction l as [|a l IH]; simpl; [reflexivity|]. now rewrite map_app, IH.
Qed.

Lemma flat_map_singleton {A B : Type} (f : A -> B) (l : list A) :
  flat_map (fun a => [f a]) l = map f l.
Proof. induction l as [|a l IH]; simpl; [reflexivity|]. now rewrite IH. Qed.

(** With distinct keys on the right, the matches of a key are the row
    [find] gives, if any. *)
Lemma filter_find_unique {A : Type} (f : A -> value) (k : value) (l : list A) :
  NoDup (map f l) ->
  filter (fun b => value_eqb k (f b)) l
  = match find (fun b => value_eqb k (f b)) l with
    | Some b => [b]
    | None => []
    end.
Proof.
  induction l as [|b l IH]; simpl; intros Hnd; [reflexivity|].
  inversion Hnd as [|x xs Hnotin Hnd']; subst.
  destruct (value_eqb k (f b)) eqn:E.
  - f_equal. apply value_eqb_eq in E. subst k.
    rewrite IH by assumption.
    destruct (find _ l) as [b'|] eqn:Ef; [|reflexivity].
    apply find_some in Ef. destruct Ef as [Hin Hb'].
    apply value_eqb_eq in Hb'. exfalso. apply Hnotin. rewrite Hb'.
    now apply in_map.
  - now apply IH.
Qed.

Lemma find_pointwise {A : Type} (p q : A -> bool) (l : list A) :
  (forall a, p a = q a) -> find p l = find q l.
Proof.
  intros H. induction l as [|a l IH]; simpl; [reflexivity|]. now rewrite H, IH.
Qed.

Lemma find_map {A B : Type} (p : B -> bool) (g : A -> B) (l : list A) :
  find p (map g l) = option_map g (find (fun a => p (g a)) l).
Proof.
  induction l as [|a l IH]; simpl; [reflexivity|].
  now destruct (p (g a)).
Qed.

Section JoinColumns.

Variables (l r : DataFrame) (left_on right_on : string).

Hypothesis disjoint : overlap l r left_on right_on = [].

(** An inner join, column by column: one row per pair of a left row and a
    right row with the same key. *)
Lemma merge_inner_cells m :
  merge l r left_on right_on inner = Ok m ->
  (forall c, In c (columns l) ->
     column_cells m c
     = map (fun p => cell (fst p) c)
         (flat_map (fun a => map (pair a) (matches r left_on right_on a)) (rows l))) /\
  (forall c, ~ In c (columns l) -> In c (right_labels r left_on right_on) ->
     column_cells m c
     = map (fun p => cell (snd p) c)
         (flat_map (fun a => map (pair a) (matches r left_on right_on a)) (rows l))).
Proof.
  intros H. destruct (merge_inv l r left_on right_on inner disjoint m H)
    as (_ & _ & _ & Hrows).
  unfold column_cells. rewrite Hrows.
  split; intros c Hc.
  - rewrite !map_flat_map. apply flat_map_ext. intros a. rewrite map_map. simpl.
    assert (G : forall x, In x (merge_row l r left_on right_on inner a) ->
                          cell x c = cell a c).
    { intros x Hx.
      destruct (merge_row_cells l r left_on right_on inner disjoint a x Hx) as [Hl _].
      now apply Hl. }
    revert G. unfold merge_row.
    destruct (matches r left_on right_on a) as [|b0 ms]; [reflexivity|].
    intros G. rewrite map_map. apply map_ext_in. intros b Hb.
    apply G. apply in_map_iff. now exists b.
  - intros Hc'. rewrite !map_flat_map. apply flat_map_ext. intros a.
    rewrite map_map. simpl. unfold merge_row.
    destruct (matches r left_on right_on a) as [|b0 ms]; [reflexivity|].
    rewrite map_map. apply map_ext. intros b.
    rewrite (left_part_reindex l r left_on right_on disjoint),
      (right_part_reindex l r left_on right_on disjoint).
    rewrite cell_app_right by now rewrite labels_reindex.
    now apply cell_reindex.
Qed.

(** A left join against distinct keys: every left row once, in order,
    with the cells of the right row of its key, or NaN. *)
Lemma merge_left_cells m :
  NoDup (column_cells r right_on) ->
  merge l r left_on right_on left = Ok m ->
  len m = len l /\
  (forall c, In c (columns l) -> column_cells m c = column_cells l c) /\
  (forall c, ~ In c (columns l) -> In c (right_labels r left_on right_on) ->
     column_cells m c
     = map (fun a => match find (fun b => value_eqb (cell a left_on) (cell b right_on))
                             (rows r) with
                     | Some b => cell b c
                     | None => NaN
                     end) (rows l)).
Proof.
  intros Hnd H. destruct (merge_inv l r left_on right_on left disjoint m H)
    as (_ & _ & _ & Hrows).
  assert (Hrow : forall a,
            merge_row l r left_on right_on left a
            = [left_part l r left_on right_on a ++
               match find (fun b => value_eqb (cell a left_on) (cell b right_on))
                       (rows r) with
               | Some b => right_part l r left_on right_on b
               | None => null_part l r left_on right_on
               end]).
  { intros a. unfold merge_row, matches.
    rewrite (filter_find_unique (fun b => cell b right_on) (cell a left_on) (rows r) Hnd).
    now destruct (find _ (rows r)). }
  assert (Hrows' : rows m
            = map (fun a => left_part l r left_on right_on a ++
                     match find (fun b => value_eqb (cell a left_on) (cell b right_on))
                             (rows r) with
                     | Some b => right_part l r left_on right_on b
                     | None => null_part l r left_on right_on
                     end) (rows l)).
  { rewrite Hrows, <- flat_map_singleton. apply flat_map_ext. exact Hrow. }
  unfold len, column_cells. rewrite Hrows'. split; [apply length_map|].
  split; intros c Hc.
  - rewrite map_map. apply map_ext. intros a.
    rewrite (left_part_reindex l r left_on right_on disjoint), cell_app_left.
    + now apply cell_reindex.
    + now rewrite labels_reindex.
  - intros Hc'. rewrite map_map. apply map_ext. intros a.
    rewrite (left_part_reindex l r left_on right_on disjoint).
    rewrite cell_app_right by now rewrite labels_reindex.
    destruct (find _ (rows r)) as [b|].
    + rewrite (right_part_reindex l r left_on right_on disjoint).
      now apply cell_reindex.
    + rewrite (null_part_nulls l r left_on right_on disjoint). apply cell_nulls.
Qed.

End JoinColumns.

(** ** Frames whose rows hold exactly their columns *)

Lemma well_formed_merge l r left_on right_on h m :
  merge l r left_on right_on h = Ok m -> well_formed m.
Proof.
  unfold merge. destruct (has_column l left_on); [|discriminate].
  destruct (has_column r right_on); [|discriminate]. simpl.
  intros H. inversion H. unfold well_formed. simpl.
  apply Forall_forall. intros x Hx. apply in_flat_map in Hx.
  destruct Hx as (a & _ & Hx). unfold merge_row in Hx.
  assert (Hl : map fst (left_part l r left_on right_on a)
               = map (suffixed (overlap l r left_on right_on) "_x") (columns l))
    by (unfold left_part; rewrite map_map; reflexivity).
  assert (Hr : forall b, map fst (right_part l r left_on right_on b)
               = map (suffixed (overlap l r left_on right_on) "_y")
                   (right_labels r left_on right_on))
    by (intros b; unfold right_part; rewrite map_map; reflexivity).
  assert (Hn : map fst (null_part l r left_on right_on)
               = map (suffixed (overlap l r left_on right_on) "_y")
                   (right_labels r left_on right_on))
    by (unfold null_part; rewrite map_map; reflexivity).
  destruct (matches r left_on right_on a) as [|b0 ms].
  - destruct h; [destruct Hx|]. destruct Hx as [<-|[]].
    now rewrite map_app, Hl, Hn.
  - apply in_map_iff in Hx. destruct Hx as (b & <- & _).
    now rewrite map_app, Hl, Hr.
Qed.

Lemma well_formed_setitem df c s df' :
  well_formed df -> setitem df c s = Ok df' -> well_formed df'.
Proof.
  intros Hwf H. apply setitem_inv in H. destruct H as [Hlen ->].
  unfold well_formed in *. simpl. unfold len in Hlen.
  revert s Hlen. induction Hwf as [|x rs Hx _ IH]; intros s Hlen.
  - destruct s; constructor.
  - destruct s as [|v s]; [discriminate|]. simpl. constructor.
    + now rewrite labels_set_cell, Hx.
    + apply IH. now inversion Hlen.
Qed.

Lemma well_formed_select df cols out : select df cols = Ok out -> well_formed out.
Proof.
  unfold select. destruct (find _ _); [discriminate|]. intros H. inversion H.
  unfold well_formed. simpl. apply Forall_forall. intros x Hx.
  apply in_map_iff in Hx. destruct Hx as (a & <- & _). apply labels_reindex.
Qed.

Lemma columns_setitem df c s df' :
  setitem df c s = Ok df' -> columns df' = add_label c (columns df).
Proof. intros H. apply setitem_inv in H. destruct H as [_ ->]. reflexivity. Qed.

Lemma In_columns_setitem df c s df' x :
  setitem df c s = Ok df' -> (In x (columns df') <-> In x (columns df) \/ x = c).
Proof. intros H. rewrite (columns_setitem _ _ _ _ H). apply In_add_label. Qed.

Lemma select_inv df cols out :
  select df cols = Ok out ->
  out = mkDataFrame cols (map (reindex cols) (rows df)) /\
  forall c, In c cols -> has_column df c = true.
Proof.
  unfold select. destruct (find _ cols) eqn:E; [discriminate|].
  intros H. inversion H. split; [reflexivity|]. intros c Hc.
  pose proof (find_none _ _ E c Hc) as Hn. simpl in Hn.
  now apply negb_false_iff in Hn.
Qed.

Lemma select_Ok df cols :
  (forall c, In c cols -> has_column df c = true) ->
  select df cols = Ok (mkDataFrame cols (map (reindex cols) (rows df))).
Proof.
  intros H. unfold select. destruct (find _ cols) as [c|] eqn:E; [|reflexivity].
  apply find_some in E. destruct E as [Hc Hn]. now rewrite (H c Hc) in Hn.
Qed.

Lemma filter_nil_iff {A : Type} (p : A -> bool) (l : list A) :
  (forall x, In x l -> p x = false) -> filter p l = [].
Proof.
  induction l as [|x l IH]; simpl; intros H; [reflexivity|].
  rewrite (H x (or_introl eq_refl)). apply IH. intros y Hy. apply H. now right.
Qed.

(** Linking a frame to a dimension: the step is skipped for an empty
    dimension; otherwise every row gets the surrogate key the dimension
    holds for its natural key, or NaN, and no row is added or lost. *)
Lemma link_dimension (sf dim sf' : DataFrame) (lo bk sk : string) :
  (if negb (empty dim)
   then keys <- select dim [bk; sk] ;; merge sf keys lo bk left
   else Ok sf) = Ok sf' ->
  lo <> bk -> bk <> sk ->
  ~ In bk (columns sf) -> ~ In sk (columns sf) ->
  (empty dim = false -> NoDup (column_cells dim bk)) ->
  len sf' = len sf /\
  (forall c, In c (columns sf) -> column_cells sf' c = column_cells sf c) /\
  columns sf' = columns sf ++ (if empty dim then [] else [bk; sk]) /\
  (empty dim = false ->
   column_cells sf' sk = map (fun a => surrogate_of dim bk sk (cell a lo)) (rows sf)) /\
  (well_formed sf -> well_formed sf').
Proof.
  intros H Hlo Hbs Hbk Hsk Hnd. destruct (empty dim) eqn:He; simpl in H.
  - inversion H; subst sf'. rewrite app_nil_r. repeat split; auto. discriminate.
  - specialize (Hnd eq_refl). inv_bind_as H keys Ekeys.
    destruct (select_inv _ _ _ Ekeys) as [Hkeys _].
    assert (Hrl : right_labels keys lo bk = [bk; sk]).
    { unfold right_labels. apply String.eqb_neq in Hlo. rewrite Hlo.
      now rewrite Hkeys. }
    assert (Hov : overlap sf keys lo bk = []).
    { unfold overlap. rewrite Hrl. apply filter_nil_iff. intros c Hc.
      apply mem_false. simpl. intros [<-|[<-|[]]]; contradiction. }
    assert (Hnd' : NoDup (column_cells keys bk)).
    { rewrite (column_cells_select _ _ _ bk Ekeys); [exact Hnd | simpl; auto]. }
    destruct (merge_left_cells sf keys lo bk Hov sf' Hnd' H) as (Hlen & Hleft & Hright).
    destruct (merge_inv sf keys lo bk left Hov sf' H) as (_ & _ & Hcols & _).
    rewrite Hrl in Hcols, Hright.
    repeat split; try assumption.
    + intros _. rewrite (Hright sk Hsk (or_intror (or_introl eq_refl))).
      apply map_ext. intros a. unfold surrogate_of.
      rewrite Hkeys. cbn [rows]. rewrite find_map.
      assert (E : forall b, cell (reindex [bk; sk] b) bk = cell b bk)
        by (intros b; apply cell_reindex; simpl; auto).
      rewrite (find_pointwise _ (fun b => value_eqb (cell a lo) (cell b bk)))
        by (intros b; now rewrite E).
      destruct (find _ (rows dim)) as [b|]; cbn [option_map]; [|reflexivity].
      apply cell_reindex. simpl. auto.
    + intros _. exact (well_formed_merge _ _ _ _ _ _ H).
Qed.
(** * Further properties of the transformation module *)

(** ** load_source_data *)

(** For files none of which has two labels that normalize to the same
    label, and at least one key column: when every key column is present
    in the combined extract, the loader returns the columns of the combined extract, no two of its rows
    have the same key, and the row it holds for a key is the first row of
    the combined extract with that key (files in loading order, rows in
    file order). *)
Theorem load_source_data_first_row_per_key
    (source_files : list (result DataFrame)) (primary_key_cols : list string) :
  distinct_labels source_files = true ->
  primary_key_cols <> [] ->
  loaded_frames source_files <> [] ->
  forallb (has_column (concat (loaded_frames source_files)))
    (map Str.lower primary_key_cols) = true ->
  columns (load_source_data source_files primary_key_cols)
  = columns (concat (loaded_frames source_files)) /\
  NoDup (map (key_of (map Str.lower primary_key_cols))
           (rows (load_source_data source_files primary_key_cols))) /\
  forall k,
    find (fun r => key_eqb (key_of (map Str.lower primary_key_cols) r) k)
      (rows (load_source_data source_files primary_key_cols))
    = find (fun r => key_eqb (key_of (map Str.lower primary_key_cols) r) k)
        (rows (concat (loaded_frames source_files))).
Proof.
  intros _ _ Hne Hkeys. unfold load_source_data.
  destruct (loaded_frames source_files) as [|f frames] eqn:E; [congruence|].
  rewrite Hkeys. unfold drop_duplicates. simpl columns. simpl rows.
  split; [reflexivity|]. split.
  - apply keep_first_NoDup.
  - intros k. apply keep_first_find. intros [].
Qed.

Lemma load_source_data_first_row_per_key_witness :
  NoDup (map (key_of ["customerid"])
           (rows (load_source_data [Ok Sample.sql_customers; Ok Sample.access_customers]
                    ["CustomerID"]))) /\
  find (fun r => key_eqb (key_of ["customerid"] r) [VStr "ALFKI"])
    (rows (load_source_data [Ok Sample.sql_customers; Ok Sample.access_customers]
             ["CustomerID"]))
  = Some [("customerid", VStr "ALFKI"); ("companyname", VStr "Alfreds Futterkiste")].
Proof.
  destruct (load_source_data_first_row_per_key
              [Ok Sample.sql_customers; Ok Sample.access_customers] ["CustomerID"])
    as (_ & Hnd & Hfind); [reflexivity | discriminate | discriminate | reflexivity |].
  split; [exact Hnd|]. rewrite Hfind. reflexivity.
Defined.

(** When no file of the table can be read (or there is none), the loader
    returns the empty frame. *)
Theorem load_source_data_nothing_read
    (source_files : list (result DataFrame)) (primary_key_cols : list string) :
  Forall (fun f => exists e, f = Raise e) source_files ->
  load_source_data source_files primary_key_cols = DataFrame_new.
Proof.
  intros H. unfold load_source_data.
  assert (E : loaded_frames source_files = []).
  { unfold loaded_frames. induction H as [|f fs (e & ->) _ IH]; [reflexivity|].
    simpl. exact IH. }
  now rewrite E.
Qed.

Lemma load_source_data_nothing_read_witness :
  load_source_data [Raise (ValueError "No columns to parse from file")] ["orderid"]
  = DataFrame_new /\
  empty (load_source_data [] ["orderid"]) = true.
Proof.
  split.
  - apply load_source_data_nothing_read. constructor; [eauto | constructor].
  - now rewrite (load_source_data_nothing_read [] ["orderid"] (Forall_nil _)).
Defined.

(** The key names are lowercased but not normalized as the column labels
    are: a key name holding a space or an underscore names no column of
    the loaded files, so nothing is deduplicated and, for files none of
    which has two labels that normalize to the same label, every row of
    every file is returned. *)
Theorem load_source_data_key_spelling
    (source_files : list (result DataFrame)) (primary_key_cols : list string)
    (key : string) :
  distinct_labels source_files = true ->
  In key primary_key_cols ->
  no_space_underscore (Str.lower key) = false ->
  load_source_data source_files primary_key_cols = concat (loaded_frames source_files) /\
  len (load_source_data source_files primary_key_cols)
  = list_sum (map len (loaded_frames source_files)).
Proof.
  intros _ Hin Hkey.
  assert (E : load_source_data source_files primary_key_cols
              = concat (loaded_frames source_files)).
  { unfold load_source_data.
    destruct (loaded_frames source_files) as [|f frames] eqn:Ef; [reflexivity|].
    destruct (forallb _ _) eqn:Hall; [|reflexivity]. exfalso.
    rewrite forallb_forall in Hall.
    specialize (Hall (Str.lower key) (in_map _ _ _ Hin)).
    apply has_column_In in Hall. simpl in Hall.
    apply In_concat_columns in Hall. destruct Hall as (df & Hdf & Hc).
    rewrite <- Ef in Hdf.
    rewrite (loaded_frames_columns _ _ _ Hdf Hc) in Hkey. discriminate. }
  split; [exact E|]. rewrite E. apply len_concat.
Qed.

Lemma load_source_data_key_spelling_witness :
  len (load_source_data [Ok Sample.sql_customers; Ok Sample.access_customers]
         ["Customer_ID"]) = 4%nat.
Proof.
  rewrite (proj2 (load_source_data_key_spelling
                    [Ok Sample.sql_customers; Ok Sample.access_customers]
                    ["Customer_ID"] "Customer_ID" eq_refl (or_introl eq_refl) eq_refl)).
  reflexivity.
Defined.

(** Every column label of a loaded table is free of spaces and
    underscores, whatever the labels of the files were. *)
Theorem load_source_data_labels
    (source_files : list (result DataFrame)) (primary_key_cols : list string)
    (c : string) :
  In c (columns (load_source_data source_files primary_key_cols)) ->
  no_space_underscore c = true.
Proof.
  unfold load_source_data.
  destruct (loaded_frames source_files) as [|f frames] eqn:Ef; [intros []|].
  assert (H : In c (concat_columns (f :: frames)) -> no_space_underscore c = true).
  { intros Hc. apply In_concat_columns in Hc. destruct Hc as (df & Hdf & Hc).
    rewrite <- Ef in Hdf. exact (loaded_frames_columns _ _ _ Hdf Hc). }
  destruct (forallb _ _); exact H.
Qed.

Lemma load_source_data_labels_witness :
  columns (load_source_data [Ok Sample.sql_customers; Ok Sample.access_customers]
             ["CustomerID"]) = ["customerid"; "companyname"] /\
  no_space_underscore "companyname" = true.
Proof.
  split; [reflexivity|].
  apply (load_source_data_labels
           [Ok Sample.sql_customers; Ok Sample.access_customers] ["CustomerID"]).
  vm_compute. auto.
Defined.
(** ** create_date_dimension *)

Lemma setitem_series_Ok df c s :
  List.length s = len df ->
  exists df', setitem df c s = Ok df' /\
              columns df' = add_label c (columns df) /\
              len df' = len df.
Proof.
  intros H. eexists. split; [now apply setitem_Ok|].
  split; [reflexivity | now apply len_zip_set].
Qed.

Lemma getitem_column df c :
  In c (columns df) -> getitem df c = Ok (column_cells df c).
Proof. intros H. apply getitem_Ok. now apply has_column_In. Qed.

Lemma column_cells_length df c : List.length (column_cells df c) = len df.
Proof. apply length_map. Qed.

(** The key of every timestamp is an integer: [astype(int)] does not fail
    on the text [strftime('%Y%m%d')] gives. *)
Lemma astype_int_strftime (fd : list value) :
  Forall (fun v => exists t, v = VTime t) fd ->
  exists sk, astype_int (dt_strftime_Ymd fd) = Ok sk /\
             List.length sk = List.length fd.
Proof.
  induction 1 as [|v fd (t & ->) _ (sk & IH & Hlen)]; simpl.
  - now exists [].
  - unfold astype_int in *. cbn [dt_strftime_Ymd map mapM to_int].
    rewrite int_of_strftime. cbn [bind]. fold (dt_strftime_Ymd fd).
    rewrite IH. cbn [bind].
    eexists. split; [reflexivity|]. simpl. now rewrite Hlen.
Qed.

Section DateBuilder.

Context {P : Pandas}.

Lemma read_dates_are_timestamps (s : list value) :
  Forall (fun v => exists t, v = VTime t)
    (sort value_leb (unique (dropna (to_datetime_series s)))).
Proof.
  apply Forall_forall. intros v Hv.
  apply (proj1 (sort_In _ _ _)) in Hv. apply (proj1 (unique_In _ _)) in Hv.
  apply filter_In in Hv. destruct Hv as [Hv Hn].
  apply to_datetime_series_In in Hv.
  destruct Hv as [->|(x & t & _ & _ & ->)]; [discriminate | eauto].
Qed.

(** On a table of orders that is not empty, the date builder fails with
    [KeyError] when the table has no [orderdate] column; with the column,
    and order dates that are written [YYYY-MM-DD] or missing, it returns
    DimDate, and DimDate has the six columns below and at most one row
    per order. *)
Theorem create_date_dimension_total (orders_df : DataFrame) :
  empty orders_df = false ->
  (has_column orders_df "orderdate" = false ->
   create_date_dimension orders_df = Raise (KeyError "orderdate")) /\
  (has_column orders_df "orderdate" = true ->
   holds orders_df "orderdate" date_cell = true ->
   exists orders_df' date_dim,
     create_date_dimension orders_df = Ok (orders_df', date_dim) /\
     columns date_dim
     = ["full_date"; "sk_date"; "year"; "month"; "month_name"; "quarter"] /\
     (len date_dim <= len orders_df)%nat).
Proof.
  intros Hne. unfold create_date_dimension. rewrite Hne. split; intros Hcol.
  - unfold getitem. now rewrite Hcol.
  - intros _. rewrite (getitem_Ok _ _ Hcol). cbn [bind].
    destruct (setitem_series_Ok orders_df "orderdate"
                (astype_str (map (fun r => cell r "orderdate") (rows orders_df))))
      as (o & -> & Hco & Hlo).
    { unfold astype_str. now rewrite !length_map. }
    cbn [bind].
    rewrite getitem_column
      by (rewrite Hco; apply In_add_label; left; now apply has_column_In).
    cbn [bind].
    set (dates := unique (dropna (to_datetime_series (column_cells o "orderdate")))).
    set (d0 := sort_values (DataFrame_of "full_date" dates) "full_date").
    assert (Hdates : Forall (fun v => notnull v = true) dates)
      by apply unique_Forall, dropna_notnull.
    assert (Hfd : column_cells d0 "full_date" = sort value_leb dates)
      by now apply sorted_column_cells.
    assert (Hlen : (len d0 <= len orders_df)%nat).
    { rewrite <- (column_cells_length d0 "full_date"), Hfd, sort_length.
      unfold dates. rewrite unique_length. unfold dropna.
      rewrite filter_length_le, to_datetime_series_length, column_cells_length.
      now rewrite Hlo. }
    rewrite (getitem_column d0 "full_date") by (simpl; auto). cbn [bind].
    destruct (astype_int_strftime (column_cells d0 "full_date")) as (sk & -> & Hsk).
    { rewrite Hfd. apply read_dates_are_timestamps. }
    cbn [bind]. rewrite column_cells_length in Hsk.
    destruct (setitem_series_Ok d0 "sk_date" sk Hsk) as (d1 & -> & Hc1 & Hl1).
    cbn [bind].
    rewrite (getitem_column d1 "full_date") by (rewrite Hc1; simpl; auto). cbn [bind].
    destruct (setitem_series_Ok d1 "year" (dt_year (column_cells d1 "full_date")))
      as (d2 & -> & Hc2 & Hl2);
      [unfold dt_year; now rewrite length_map, column_cells_length|]. cbn [bind].
    rewrite (getitem_column d2 "full_date") by (rewrite Hc2, Hc1; simpl; auto).
    cbn [bind].
    destruct (setitem_series_Ok d2 "month" (dt_month (column_cells d2 "full_date")))
      as (d3 & -> & Hc3 & Hl3);
      [unfold dt_month; now rewrite length_map, column_cells_length|]. cbn [bind].
    rewrite (getitem_column d3 "full_date") by (rewrite Hc3, Hc2, Hc1; simpl; auto).
    cbn [bind].
    destruct (setitem_series_Ok d3 "month_name"
                (dt_month_name (column_cells d3 "full_date")))
      as (d4 & -> & Hc4 & Hl4);
      [unfold dt_month_name; now rewrite length_map, column_cells_length|]. cbn [bind].
    rewrite (getitem_column d4 "full_date")
      by (rewrite Hc4, Hc3, Hc2, Hc1; simpl; auto).
    cbn [bind].
    destruct (setitem_series_Ok d4 "quarter" (dt_quarter (column_cells d4 "full_date")))
      as (d5 & -> & Hc5 & Hl5);
      [unfold dt_quarter; now rewrite length_map, column_cells_length|]. cbn [bind].
    exists o, d5. split; [reflexivity|]. split.
    + rewrite Hc5, Hc4, Hc3, Hc2, Hc1. reflexivity.
    + rewrite Hl5, Hl4, Hl3, Hl2, Hl1. exact Hlen.
Qed.

End DateBuilder.

Lemma create_date_dimension_total_witness :
  create_date_dimension (P := Sample.pandas) Sample.customers
  = Raise (KeyError "orderdate") /\
  exists orders_df' date_dim,
    create_date_dimension (P := Sample.pandas) Sample.dated_orders
    = Ok (orders_df', date_dim) /\
    columns date_dim
    = ["full_date"; "sk_date"; "year"; "month"; "month_name"; "quarter"] /\
    (len date_dim <= 4)%nat.
Proof.
  split.
  - exact (proj1 (create_date_dimension_total (P := Sample.pandas)
                    Sample.customers eq_refl) eq_refl).
  - exact (proj2 (create_date_dimension_total (P := Sample.pandas)
                    Sample.dated_orders eq_refl) eq_refl eq_refl).
Defined.

Section DateRows.

Context {P : Pandas}.

Lemma create_date_dimension_empty orders_df orders_df' date_dim :
  empty orders_df = true ->
  create_date_dimension orders_df = Ok (orders_df', date_dim) ->
  date_dim = DataFrame_new.
Proof.
  intros He. unfold create_date_dimension. rewrite He. intros H. now inversion H.
Qed.

Lemma column_pointwise df c c' (f : value -> value) r :
  column_cells df c' = map f (column_cells df c) ->
  In r (rows df) -> cell r c' = f (cell r c).
Proof.
  unfold column_cells. rewrite map_map. intros H Hr.
  exact (proj1 (map_ext_in_iff (f := fun a => cell a c') (g := fun a => f (cell a c)))
           H r Hr).
Qed.

(** Every row of DimDate holds a timestamp read in the [orderdate] text
    of some order, and the year, month, month name and quarter of that
    timestamp. *)
Theorem date_dimension_attributes (orders_df orders_df' date_dim : DataFrame) (r : row) :
  create_date_dimension orders_df = Ok (orders_df', date_dim) ->
  In r (rows date_dim) ->
  exists t v,
    In v (column_cells orders_df "orderdate") /\
    to_datetime (str v) = Some t /\
    cell r "full_date" = VTime t /\
    cell r "year" = VInt (ts_year t) /\
    cell r "month" = VInt (ts_month t) /\
    cell r "month_name" = VStr (nth (Z.to_nat (ts_month t - 1)) month_names "") /\
    cell r "quarter" = VInt ((ts_month t - 1) / 3 + 1).
Proof.
  intros H Hr. destruct (empty orders_df) eqn:He.
  - rewrite (create_date_dimension_empty _ _ _ He H) in Hr. destruct Hr.
  - destruct (create_date_dimension_inv _ _ _ He H)
      as (_ & Hfd & _ & Hy & Hm & Hn & Hq).
    assert (Hin : In (cell r "full_date") (column_cells date_dim "full_date"))
      by exact (in_map (fun a => cell a "full_date") _ _ Hr).
    rewrite Hfd in Hin.
    apply (proj1 (sort_In _ _ _)) in Hin. apply (proj1 (unique_In _ _)) in Hin.
    apply filter_In in Hin. destruct Hin as [Hin Hnn].
    apply to_datetime_series_In in Hin.
    destruct Hin as [E|(x & t & Hx & Ht & E)]; [rewrite E in Hnn; discriminate|].
    unfold astype_str in Hx. apply in_map_iff in Hx. destruct Hx as (v & Ev & Hv).
    inversion Ev; subst x. exists t, v.
    unfold dt_year in Hy. unfold dt_month in Hm. unfold dt_month_name in Hn.
    unfold dt_quarter in Hq.
    rewrite (column_pointwise _ _ _ _ r Hy Hr), (column_pointwise _ _ _ _ r Hm Hr),
      (column_pointwise _ _ _ _ r Hn Hr), (column_pointwise _ _ _ _ r Hq Hr), E.
    repeat split; assumption.
Qed.

End DateRows.

Lemma date_dimension_attributes_witness :
  exists date_dim r,
    In r (rows date_dim) /\
    cell r "full_date" = VTime (mkTimestamp 2012 12 31 0) /\
    cell r "year" = VInt 2012 /\ cell r "month" = VInt 12 /\
    cell r "month_name" = VStr "December" /\ cell r "quarter" = VInt 4.
Proof.
  destruct (create_date_dimension (P := Sample.pandas) Sample.dated_orders)
    as [[o dim]|e] eqn:E; [|vm_compute in E; discriminate].
  pose proof E as E'. vm_compute in E'. inversion E'; subst o dim. clear E'.
  match type of E with _ = Ok (_, ?dim) =>
    pose (r := nth 0 (rows dim) []);
    assert (Hr : In r (rows dim)) by (vm_compute; auto)
  end.
  destruct (date_dimension_attributes (P := Sample.pandas) _ _ _ r E Hr)
    as (t & v & _ & _ & Hfd & Hy & Hm & Hn & Hq).
  assert (Ht : t = mkTimestamp 2012 12 31 0)
    by (unfold r in Hfd; vm_compute in Hfd; now inversion Hfd).
  subst t.
  exact (ex_intro _ _ (ex_intro _ r (conj Hr (conj Hfd (conj Hy (conj Hm
           (conj Hn Hq))))))).
Defined.

Section DateOrder.

Context {P : Pandas}.

(** DimDate holds each timestamp once, and its rows are in ascending order
    of their timestamps. *)
Theorem date_dimension_sorted_distinct (orders_df orders_df' date_dim : DataFrame) :
  create_date_dimension orders_df = Ok (orders_df', date_dim) ->
  NoDup (column_cells date_dim "full_date") /\
  Sorted (fun a b => value_leb a b = true) (column_cells date_dim "full_date").
Proof.
  intros H. destruct (empty orders_df) eqn:He.
  - rewrite (create_date_dimension_empty _ _ _ He H). split; constructor.
  - destruct (create_date_dimension_inv _ _ _ He H) as (_ & Hfd & _).
    rewrite Hfd. split.
    + eapply Permutation_NoDup; [symmetry; apply sort_perm | apply unique_NoDup].
    + apply sort_Sorted. intros a b Ha Hb.
      pose proof (read_dates_are_timestamps
                    (astype_str (column_cells orders_df "orderdate"))) as Hts.
      rewrite Forall_forall in Hts.
      destruct (Hts a (proj2 (sort_In _ _ _) Ha)) as (ta & ->).
      destruct (Hts b (proj2 (sort_In _ _ _) Hb)) as (tb & ->).
      simpl. apply ts_leb_total.
Qed.

(** When the dates of the orders are read as valid timestamps at midnight,
    no two rows of DimDate have the same [sk_date]. *)
Theorem date_dimension_keys_distinct (orders_df orders_df' date_dim : DataFrame) :
  (forall v t, In v (column_cells orders_df "orderdate") ->
               to_datetime (str v) = Some t ->
               valid_timestamp t /\ ts_nanos t = 0%Z) ->
  create_date_dimension orders_df = Ok (orders_df', date_dim) ->
  NoDup (column_cells date_dim "sk_date").
Proof.
  intros Hmid H. destruct (empty orders_df) eqn:He.
  - rewrite (create_date_dimension_empty _ _ _ He H). constructor.
  - destruct (date_dimension_sorted_distinct _ _ _ H) as [Hnd _].
    destruct (create_date_dimension_inv _ _ _ He H) as (_ & Hfd & Hsk & _).
    assert (Hts : forall a, In a (column_cells date_dim "full_date") ->
                  exists t, a = VTime t /\ valid_timestamp t /\ ts_nanos t = 0%Z).
    { intros a Ha. rewrite Hfd in Ha.
      apply (proj1 (sort_In _ _ _)) in Ha. apply (proj1 (unique_In _ _)) in Ha.
      apply filter_In in Ha. destruct Ha as [Ha Hnn].
      apply to_datetime_series_In in Ha.
      destruct Ha as [E|(x & t & Hx & Ht & E)]; [rewrite E in Hnn; discriminate|].
      unfold astype_str in Hx. apply in_map_iff in Hx. destruct Hx as (v & Ev & Hv).
      inversion Ev; subst x. exists t. split; [exact E|]. exact (Hmid v t Hv Ht). }
    set (key := fun a => match a with VTime t => VInt (yyyymmdd t) | _ => NaN end).
    assert (Hmap : astype_int (dt_strftime_Ymd (column_cells date_dim "full_date"))
                   = Ok (map key (column_cells date_dim "full_date"))).
    { unfold astype_int, dt_strftime_Ymd.
      assert (G : forall l, (forall a, In a l -> exists t, a = VTime t /\
                                        valid_timestamp t /\ ts_nanos t = 0%Z) ->
                  mapM to_int
                    (map (fun v => match v with
                                   | VTime t => VStr (strftime_Ymd t)
                                   | _ => NaN
                                   end) l) = Ok (map key l)).
      { induction l as [|a l IH]; simpl; intros Hl; [reflexivity|].
        destruct (Hl a (or_introl eq_refl)) as (t & -> & Hv & _).
        pose proof (sk_date_valid t Hv) as Hk. unfold sk_date in Hk. rewrite Hk.
        simpl. rewrite IH by (intros; apply Hl; now right). reflexivity. }
      apply G. exact Hts. }
    rewrite Hmap in Hsk. inversion Hsk as [Hcells].
    apply NoDup_map_NoDup_ForallPairs; [|exact Hnd].
    intros a b Ha Hb Hab.
    destruct (Hts a Ha) as (ta & -> & Hva & Hna).
    destruct (Hts b Hb) as (tb & -> & Hvb & Hnb).
    simpl in Hab. inversion Hab as [Hk]. f_equal.
    apply yyyymmdd_inj; [assumption | assumption | congruence | exact Hk].
Qed.

End DateOrder.

Lemma date_dimension_sorted_distinct_witness :
  exists date_dim,
    column_cells date_dim "full_date"
    = [VTime (mkTimestamp 2012 12 31 0); VTime (mkTimestamp 2013 7 4 0);
       VTime (mkTimestamp 2013 7 8 0)] /\
    NoDup (column_cells date_dim "full_date") /\
    Sorted (fun a b => value_leb a b = true) (column_cells date_dim "full_date").
Proof.
  destruct (create_date_dimension (P := Sample.pandas) Sample.dated_orders)
    as [[o dim]|e] eqn:E; [|vm_compute in E; discriminate].
  pose proof E as E'. vm_compute in E'. inversion E'; subst o dim. clear E'.
  pose proof (date_dimension_sorted_distinct (P := Sample.pandas) _ _ _ E) as Hthm.
  eexists. split; [|exact Hthm]. reflexivity.
Defined.

Lemma date_dimension_keys_distinct_witness :
  exists date_dim,
    column_cells date_dim "sk_date" = [VInt 20121231; VInt 20130704; VInt 20130708] /\
    NoDup (column_cells date_dim "sk_date").
Proof.
  destruct (create_date_dimension (P := Sample.pandas) Sample.dated_orders)
    as [[o dim]|e] eqn:E; [|vm_compute in E; discriminate].
  pose proof E as E'. vm_compute in E'. inversion E'; subst o dim. clear E'.
  assert (Hmid : forall v t, In v (column_cells Sample.dated_orders "orderdate") ->
                 to_datetime (Pandas := Sample.pandas) (str v) = Some t ->
                 valid_timestamp t /\ ts_nanos t = 0%Z).
  { intros v t Hv Ht. vm_compute in Hv.
    destruct Hv as [<-|[<-|[<-|[<-|[]]]]]; vm_compute in Ht; inversion Ht;
      (split; [unfold valid_timestamp; cbn; lia | reflexivity]). }
  pose proof (date_dimension_keys_distinct (P := Sample.pandas) _ _ _ Hmid E) as Hthm.
  eexists. split; [|exact Hthm]. reflexivity.
Defined.
(** ** create_client_dimension *)

Lemma has_column_series df c s df' c' :
  setitem df c s = Ok df' -> has_column df c' = true -> has_column df' c' = true.
Proof. intros H Hc. rewrite (has_column_setitem _ _ _ _ c' H), Hc. reflexivity. Qed.

Lemma has_column_assigned df c s df' :
  setitem df c s = Ok df' -> has_column df' c = true.
Proof.
  intros H. rewrite (has_column_setitem _ _ _ _ c H), String.eqb_refl.
  apply orb_true_r.
Qed.

(** On a table of customers that is not empty and has no column named
    [bk_customer_id] of its own, the client builder fails exactly when the
    table has no [customerid] column, with [KeyError]; with the column it
    returns DimClient, one row per customer, numbered 1, 2, ... in
    [sk_client], with the natural key and the three geography columns. *)
Theorem create_client_dimension_total (customers_df : DataFrame) :
  empty customers_df = false ->
  has_column customers_df "bk_customer_id" = false ->
  (has_column customers_df "customerid" = false ->
   create_client_dimension customers_df = Raise (KeyError "bk_customer_id")) /\
  (has_column customers_df "customerid" = true ->
   exists out,
     create_client_dimension customers_df = Ok out /\
     len out = len customers_df /\
     dense_keys out "sk_client" /\
     forall c, In c ["sk_client"; "bk_customer_id"; "city"; "country"; "region"] ->
               In c (columns out)).
Proof.
  intros Hne Hbk. unfold create_client_dimension. rewrite Hne. unfold copy.
  set (mapping := [("customerid", "bk_customer_id"); ("companyname", "company_name")]).
  split; intros Hid.
  - assert (Hno : has_column (rename customers_df mapping) "bk_customer_id" = false).
    { rewrite has_column_rename. apply not_true_is_false. intros H.
      apply existsb_exists in H. destruct H as (k & Hk & E).
      apply String.eqb_eq in E. unfold mapping in E. cbn [rename_label] in E.
      destruct (String.eqb "customerid" k) eqn:E1.
      - apply String.eqb_eq in E1. subst k.
        apply has_column_In in Hk. congruence.
      - destruct (String.eqb "companyname" k); [discriminate|].
        subst k. apply has_column_In in Hk. congruence. }
    unfold getitem. now rewrite Hno.
  - assert (Hyes : has_column (rename customers_df mapping) "bk_customer_id" = true).
    { rewrite has_column_rename. apply existsb_exists. exists "customerid".
      split; [now apply has_column_In | reflexivity]. }
    rewrite (getitem_Ok _ _ Hyes). cbn [bind].
    destruct (setitem_series_Ok (rename customers_df mapping) "bk_customer_id"
                (str_strip (str_upper (astype_str
                   (map (fun r => cell r "bk_customer_id")
                      (rows (rename customers_df mapping)))))))
      as (d1 & E1 & Hc1 & Hl1).
    { unfold str_strip, str_upper, astype_str. now rewrite !length_map. }
    rewrite E1. cbn [bind].
    set (d2 := fold_left _ _ d1).
    assert (Hl2 : len d2 = len customers_df).
    { destruct (geography_defaults_frame ["city"; "country"; "region"] d1 "sk_client")
        as (_ & _ & Hl); [simpl; intuition discriminate|].
      cbv zeta in Hl. fold d2 in Hl. now rewrite Hl, Hl1, len_rename. }
    destruct (setitem_series_Ok d2 "sk_client" (range 1 (len d2 + 1)))
      as (d3 & E3 & Hc3 & Hl3); [rewrite range_length; lia|].
    rewrite E3. cbn [bind]. rewrite select_available.
    eexists. split; [reflexivity|]. split; [|split].
    + unfold len at 1. cbn [rows]. rewrite length_map. fold (len d3).
      now rewrite Hl3.
    + eapply dense_after_numbering; [exact E3 | | apply select_available].
      simpl. auto.
    + intros c Hc. cbn [columns]. apply filter_In. split; [simpl in *; tauto|].
      assert (Hgeo : forall g, In g ["city"; "country"; "region"] ->
                               has_column d3 g = true).
      { intros g Hg. apply (has_column_series _ _ _ _ _ E3).
        unfold d2. rewrite geography_defaults_has.
        apply orb_true_iff. right. now apply mem_In. }
      simpl in Hc. destruct Hc as [<-|[<-|Hc]].
      * exact (has_column_assigned _ _ _ _ E3).
      * apply (has_column_series _ _ _ _ _ E3).
        unfold d2. rewrite geography_defaults_has.
        now rewrite (has_column_assigned _ _ _ _ E1).
      * apply Hgeo. simpl. tauto.
Qed.

Lemma create_client_dimension_total_witness :
  create_client_dimension Sample.dated_orders = Raise (KeyError "bk_customer_id") /\
  exists out,
    create_client_dimension Sample.customers = Ok out /\
    len out = 2%nat /\
    dense_keys out "sk_client" /\
    forall c, In c ["sk_client"; "bk_customer_id"; "city"; "country"; "region"] ->
              In c (columns out).
Proof.
  split.
  - exact (proj1 (create_client_dimension_total Sample.dated_orders eq_refl eq_refl)
             eq_refl).
  - exact (proj2 (create_client_dimension_total Sample.customers eq_refl eq_refl)
             eq_refl).
Defined.

Lemma map_const_length {A B C : Type} (v : C) (a : list A) (b : list B) :
  List.length a = List.length b -> map (fun _ => v) a = map (fun _ => v) b.
Proof.
  revert b. induction a as [|x a IH]; destruct b as [|y b]; simpl; try discriminate;
    [reflexivity|]. intros H. f_equal. apply IH. now inversion H.
Qed.

(** A geography column of the customers is copied to DimClient cell by
    cell, missing cells included; a geography column the customers lack
    holds [Unknown] in every row. *)
Theorem client_geography_defaults (customers_df out : DataFrame) (geo_col : string) :
  well_formed customers_df ->
  empty customers_df = false ->
  has_column customers_df "bk_customer_id" = false ->
  create_client_dimension customers_df = Ok out ->
  In geo_col ["city"; "country"; "region"] ->
  column_cells out geo_col
  = if has_column customers_df geo_col then column_cells customers_df geo_col
    else map (fun _ => VStr "Unknown") (rows customers_df).
Proof.
  intros Hwf Hne Hbk H Hgeo. unfold create_client_dimension in H.
  rewrite Hne in H. unfold copy in H.
  set (mapping := [("customerid", "bk_customer_id"); ("companyname", "company_name")])
    in H.
  inv_bind_as H bk Ebk. inv_bind_as H d1 E1.
  set (d2 := fold_left _ _ d1) in H.
  inv_bind_as H d3 E3.
  assert (Hg : geo_col <> "bk_customer_id" /\ geo_col <> "sk_client" /\
               rename_label mapping geo_col = geo_col /\
               forall k, rename_label mapping k = geo_col -> k = geo_col).
  { simpl in Hgeo. destruct Hgeo as [<-|[<-|[<-|[]]]];
      (repeat split; try discriminate; intros k; unfold mapping; cbn [rename_label];
       destruct (String.eqb "customerid" k); [discriminate|];
       destruct (String.eqb "companyname" k); [discriminate | auto]). }
  destruct Hg as (Hg1 & Hg2 & Hg3 & Hg4).
  assert (Hd2 : has_column d2 geo_col = true).
  { unfold d2. rewrite geography_defaults_has.
    apply orb_true_iff. right. now apply mem_In. }
  rewrite (column_cells_select _ _ _ geo_col H).
  2:{ apply filter_In. split; [simpl in *; tauto|].
      exact (has_column_series _ _ _ _ _ E3 Hd2). }
  rewrite (column_cells_setitem_other _ _ _ _ geo_col E3) by congruence.
  unfold d2. rewrite (geography_defaults_column _ d1 geo_col Hgeo).
  rewrite (has_column_setitem _ _ _ _ geo_col E1).
  assert (Eg : String.eqb geo_col "bk_customer_id" = false)
    by now apply String.eqb_neq.
  rewrite Eg, orb_false_r, (has_column_rename_other _ _ _ Hg3 Hg4).
  rewrite (column_cells_setitem_other _ _ _ _ geo_col E1) by congruence.
  destruct (has_column customers_df geo_col).
  - rewrite <- Hg3 at 1. apply column_cells_rename; [exact Hwf|].
    intros k _ Hk. rewrite Hg3 in Hk. now apply Hg4.
  - apply map_const_length. fold (len d1) (len customers_df).
    now rewrite (len_setitem _ _ _ _ E1), len_rename.
Qed.

Lemma client_geography_defaults_witness :
  exists out,
    create_client_dimension Sample.customers = Ok out /\
    column_cells out "city" = [VStr "Berlin"; VStr "Mexico"] /\
    column_cells out "country" = [VStr "Unknown"; VStr "Unknown"].
Proof.
  destruct (create_client_dimension Sample.customers) as [out|e] eqn:E;
    [|vm_compute in E; discriminate].
  assert (Hwf : well_formed Sample.customers) by (repeat constructor).
  pose proof (client_geography_defaults Sample.customers out "city"
                Hwf eq_refl eq_refl E (or_introl eq_refl)) as Hcity.
  pose proof (client_geography_defaults Sample.customers out "country"
                Hwf eq_refl eq_refl E (or_intror (or_introl eq_refl))) as Hcountry.
  exists out. split; [reflexivity|]. split; [exact Hcity | exact Hcountry].
Defined.
(** ** create_sales_fact *)

Section FactNumbering.

Context {P : Pandas}.

(** Whatever the fact builder returns is numbered 1, 2, ... in [fact_id],
    in row order: the empty frame of the early exits has no row to number,
    and a built table is numbered just before its columns are selected. *)
Theorem create_sales_fact_dense
    (orders_df details_df client_dim employee_dim out : DataFrame) :
  create_sales_fact orders_df details_df client_dim employee_dim = Ok out ->
  dense_keys out "fact_id" /\
  (out = DataFrame_new \/ In "fact_id" (columns out)).
Proof.
  unfold create_sales_fact.
  destruct (empty orders_df || empty details_df).
  { intros H. inversion H. split; [apply dense_keys_new | now left]. }
  intros H. inv_bind_as H joined Ejoin.
  destruct (if has_column joined "unitprice_x" then Some "unitprice_x"
            else if has_column joined "unitprice" then Some "unitprice" else None)
    as [price_column|].
  2:{ inversion H. split; [apply dense_keys_new | now left]. }
  inv_bind_as H price Eprice. inv_bind_as H quantity Equantity.
  inv_bind_as H discount Ediscount. inv_bind_as H f1 E1.
  inv_bind_as H shipped Eshipped. inv_bind_as H f2 E2.
  inv_bind_as H f3 E3. inv_bind_as H f4 E4. inv_bind_as H f5 E5.
  inv_bind_as H od Eod. inv_bind_as H f6 E6. inv_bind_as H od' Eod'.
  inv_bind_as H f7 E7. inv_bind_as H dt Edt. inv_bind_as H sk Esk.
  inv_bind_as H f8 E8. inv_bind_as H f9 E9.
  split.
  - eapply dense_after_numbering; [exact E9 | | exact H]. simpl. auto.
  - right. rewrite (columns_select _ _ _ H). apply filter_In.
    split; [simpl; auto | exact (has_column_assigned _ _ _ _ E9)].
Qed.

End FactNumbering.

Lemma create_sales_fact_dense_witness :
  exists out,
    create_sales_fact (P := Sample.pandas) Sample.orders Sample.details
      DataFrame_new DataFrame_new = Ok out /\
    column_cells out "fact_id" = [VInt 1; VInt 2; VInt 3; VInt 4] /\
    dense_keys out "fact_id".
Proof.
  destruct (create_sales_fact (P := Sample.pandas) Sample.orders Sample.details
              DataFrame_new DataFrame_new) as [out|e] eqn:E;
    [|vm_compute in E; discriminate].
  pose proof (proj1 (create_sales_fact_dense (P := Sample.pandas) _ _ _ _ _ E)) as Hd.
  exists out. split; [reflexivity|]. split; [|exact Hd].
  vm_compute in E. inversion E. reflexivity.
Defined.
(** ** The fact table, column by column *)

Lemma fact_sources_inv orders_df details_df :
  fact_sources orders_df details_df = true ->
  (forall c, In c ["orderid"; "unitprice"; "quantity"; "discount"] ->
             In c (columns details_df)) /\
  (forall c, In c ["orderid"; "customerid"; "employeeid"; "orderdate"; "shippeddate"] ->
             In c (columns orders_df)) /\
  (forall c, In c (columns details_df) -> In c (columns orders_df) -> c = "orderid") /\
  (forall c, In c fact_labels ->
             ~ In c (columns details_df) /\ ~ In c (columns orders_df)).
Proof.
  unfold fact_sources. rewrite !andb_true_iff, !forallb_forall.
  intros [[[Hd Ho] Hs] Hr]. repeat split.
  - intros c Hc. apply has_column_In. now apply Hd.
  - intros c Hc. apply has_column_In. now apply Ho.
  - intros c Hc Hc'. specialize (Hs c Hc). apply orb_true_iff in Hs.
    destruct Hs as [Hs|Hs]; [|now apply String.eqb_eq].
    apply negb_true_iff in Hs. apply has_column_In in Hc'. congruence.
  - specialize (Hr c H). apply andb_true_iff in Hr. destruct Hr as [Hr _].
    apply negb_true_iff in Hr. intros Hin. apply has_column_In in Hin. congruence.
  - specialize (Hr c H). apply andb_true_iff in Hr. destruct Hr as [_ Hr].
    apply negb_true_iff in Hr. intros Hin. apply has_column_In in Hin. congruence.
Qed.

(** The join of the details with the orders, as the order lines. *)
Lemma joined_lines orders_df details_df joined :
  fact_sources orders_df details_df = true ->
  merge details_df orders_df "orderid" "orderid" inner = Ok joined ->
  well_formed joined /\
  len joined = List.length (order_lines orders_df details_df) /\
  (forall c, In c (columns joined) <->
             In c (columns details_df) \/ In c (columns orders_df)) /\
  (forall c, In c (columns details_df) ->
     column_cells joined c
     = map (fun p => cell (fst p) c) (order_lines orders_df details_df)) /\
  (forall c, In c (columns orders_df) -> c <> "orderid" ->
     column_cells joined c
     = map (fun p => cell (snd p) c) (order_lines orders_df details_df)).
Proof.
  intros Hsrc H. destruct (fact_sources_inv _ _ Hsrc) as (Hd & Ho & Hshare & _).
  assert (Hrl : forall c, In c (right_labels orders_df "orderid" "orderid")
                          <-> In c (columns orders_df) /\ c <> "orderid").
  { intros c. unfold right_labels. rewrite String.eqb_refl, filter_In.
    rewrite negb_true_iff, String.eqb_neq. tauto. }
  assert (Hov : overlap details_df orders_df "orderid" "orderid" = []).
  { unfold overlap. apply filter_nil_iff. intros c Hc. apply mem_false.
    rewrite Hrl. intros [Hc' Hne]. apply Hne. now apply Hshare. }
  destruct (merge_inner_cells _ _ _ _ Hov _ H) as [Hleft Hright].
  destruct (merge_inv _ _ _ _ _ Hov _ H) as (_ & _ & Hcols & _).
  split; [exact (well_formed_merge _ _ _ _ _ _ H)|].
  assert (Hcells : forall c, In c (columns details_df) ->
            column_cells joined c
            = map (fun p => cell (fst p) c) (order_lines orders_df details_df))
    by (intros c Hc; now apply Hleft).
  split; [|split; [|split]].
  - rewrite <- (column_cells_length joined "orderid"), Hcells by (apply Hd; simpl; auto).
    apply length_map.
  - intros c. rewrite Hcols, in_app_iff, Hrl. split; [tauto|].
    intros [Hc|Hc]; [now left|].
    destruct (string_dec c "orderid") as [->|Hne]; [left; apply Hd; simpl; auto|].
    right. tauto.
  - exact Hcells.
  - intros c Hc Hne. apply Hright; [|now apply Hrl].
    intros Hc'. apply Hne. now apply Hshare.
Qed.

Lemma map3_map {A B : Type} (f : value -> value -> value -> B)
    (g1 g2 g3 : A -> value) (l : list A) :
  map3 f (map g1 l) (map g2 l) (map g3 l) = map (fun a => f (g1 a) (g2 a) (g3 a)) l.
Proof. induction l as [|a l IH]; simpl; [reflexivity|]. now rewrite IH. Qed.

Lemma astype_int_Forall2 (s sk : list value) :
  astype_int s = Ok sk -> Forall2 (fun v k => to_int v = Ok k) s sk.
Proof. apply mapM_Forall2. Qed.

(** What one column assignment changes, and what it leaves. *)
Lemma setitem_facts df c s df' :
  setitem df c s = Ok df' ->
  len df' = len df /\
  column_cells df' c = s /\
  (forall c', c <> c' -> column_cells df' c' = column_cells df c') /\
  (forall x, In x (columns df') <-> In x (columns df) \/ x = c) /\
  (well_formed df -> well_formed df').
Proof.
  intros H. split; [exact (len_setitem _ _ _ _ H)|].
  split; [exact (column_cells_setitem_same _ _ _ _ H)|].
  split; [intros c' Hne; exact (column_cells_setitem_other _ _ _ _ c' H Hne)|].
  split; [intros x; exact (In_columns_setitem _ _ _ _ x H)|].
  intros Hwf. exact (well_formed_setitem _ _ _ _ Hwf H).
Qed.

(** The customer ids of the joined rows, put in normal form. *)
Lemma normalize_customerid f2 f3 :
  (if has_column f2 "customerid"
   then cid <- getitem f2 "customerid" ;;
        setitem f2 "customerid" (str_strip (str_upper (astype_str cid)))
   else Ok f2) = Ok f3 ->
  has_column f2 "customerid" = true ->
  len f3 = len f2 /\
  column_cells f3 "customerid" = map normalized_id (column_cells f2 "customerid") /\
  (forall c', "customerid" <> c' -> column_cells f3 c' = column_cells f2 c') /\
  (forall x, In x (columns f3) <-> In x (columns f2)) /\
  (well_formed f2 -> well_formed f3).
Proof.
  intros H Hc. rewrite Hc in H. inv_bind_as H cid Ecid.
  apply getitem_cells in Ecid. subst cid. rewrite normalized_series in H.
  destruct (setitem_facts _ _ _ _ H) as (Hl & Hs & Ho & Hcols & Hwf).
  repeat split; try assumption.
  - intros Hx. apply Hcols in Hx. destruct Hx as [Hx| ->]; [exact Hx|].
    now apply has_column_In.
  - intros Hx. apply Hcols. now left.
Qed.
Section FactColumns.

Context {P : Pandas}.

Variables (orders_df details_df client_dim employee_dim out : DataFrame).

Hypothesis sources : fact_sources orders_df details_df = true.
Hypothesis orders_there : empty orders_df = false.
Hypothesis details_there : empty details_df = false.
Hypothesis client_keys :
  empty client_dim = false -> NoDup (column_cells client_dim "bk_customer_id").
Hypothesis employee_keys :
  empty employee_dim = false -> NoDup (column_cells employee_dim "bk_employee_id").
Hypothesis built :
  create_sales_fact orders_df details_df client_dim employee_dim = Ok out.

Lemma create_sales_fact_columns :
  len out = List.length (order_lines orders_df details_df) /\
  column_cells out "bk_order_id"
  = map (fun p => cell (fst p) "orderid") (order_lines orders_df details_df) /\
  column_cells out "quantity"
  = map (fun p => cell (fst p) "quantity") (order_lines orders_df details_df) /\
  column_cells out "unit_price"
  = map (fun p => cell (fst p) "unitprice") (order_lines orders_df details_df) /\
  column_cells out "discount"
  = map (fun p => cell (fst p) "discount") (order_lines orders_df details_df) /\
  column_cells out "total_amount"
  = map (fun p => line_amount (cell (fst p) "unitprice") (cell (fst p) "quantity")
                    (cell (fst p) "discount"))
      (order_lines orders_df details_df) /\
  column_cells out "delivery_status"
  = map (fun p => delivery_status (cell (snd p) "shippeddate"))
      (order_lines orders_df details_df) /\
  Forall2 (fun p k => match to_datetime (str (cell (snd p) "orderdate")) with
                      | Some t => sk_date t = Ok k
                      | None => k = VInt 19000101
                      end)
    (order_lines orders_df details_df) (column_cells out "sk_date") /\
  (if empty client_dim then has_column out "sk_client" = false
   else column_cells out "sk_client"
        = map (fun p => surrogate_of client_dim "bk_customer_id" "sk_client"
                          (normalized_id (cell (snd p) "customerid")))
            (order_lines orders_df details_df)) /\
  (if empty employee_dim then has_column out "sk_employee" = false
   else column_cells out "sk_employee"
        = map (fun p => surrogate_of employee_dim "bk_employee_id" "sk_employee"
                          (cell (snd p) "employeeid"))
            (order_lines orders_df details_df)) /\
  (empty client_dim = false -> In "sk_client" (columns out)) /\
  (empty employee_dim = false -> In "sk_employee" (columns out)).
Proof.
  destruct (fact_sources_inv _ _ sources) as (Hd & Ho & Hshare & Hres).
  pose proof built as H. unfold create_sales_fact in H.
  rewrite orders_there, details_there in H. cbn [orb] in H.
  inv_bind_as H joined Ejoin.
  destruct (joined_lines _ _ _ sources Ejoin) as (Hwf0 & Hlen0 & Hcols0 & Hdet & Hord).
  set (L := order_lines orders_df details_df) in *.
  assert (Hx : has_column joined "unitprice_x" = false).
  { apply not_true_is_false. intros Hc. apply has_column_In, Hcols0 in Hc.
    destruct (Hres "unitprice_x") as [H1 H2]; [simpl; auto|]. tauto. }
  assert (Hu : has_column joined "unitprice" = true).
  { apply has_column_In, Hcols0. left. apply Hd. simpl. auto. }
  rewrite Hx, Hu in H.
  inv_bind_as H price Eprice. inv_bind_as H quantity Equantity.
  inv_bind_as H discount Ediscount. inv_bind_as H f1 E1.
  inv_bind_as H shipped Eshipped. inv_bind_as H f2 E2.
  inv_bind_as H f3 E3. inv_bind_as H f4 E4. inv_bind_as H f5 E5.
  inv_bind_as H od Eod. inv_bind_as H f6 E6. inv_bind_as H od' Eod'.
  inv_bind_as H f7 E7. inv_bind_as H dt Edt. inv_bind_as H sk Esk.
  inv_bind_as H f8 E8. inv_bind_as H f9 E9.
  (* the joined frame *)
  assert (D0 : forall c, In c ["orderid"; "unitprice"; "quantity"; "discount"] ->
               column_cells joined c = map (fun p => cell (fst p) c) L)
    by (intros c Hc; apply Hdet, Hd, Hc).
  assert (O0 : forall c, In c ["customerid"; "employeeid"; "orderdate"; "shippeddate"] ->
               column_cells joined c = map (fun p => cell (snd p) c) L).
  { intros c Hc. apply Hord; [apply Ho; simpl in *; tauto|].
    intros ->. simpl in Hc. intuition discriminate. }
  (* total_amount *)
  apply getitem_cells in Eprice, Equantity, Ediscount.
  rewrite D0 in Eprice, Equantity, Ediscount by (simpl; auto).
  subst price quantity discount. rewrite map3_map in E1.
  destruct (setitem_facts _ _ _ _ E1) as (L1 & A1 & K1 & C1 & W1).
  (* delivery_status *)
  apply getitem_cells in Eshipped.
  rewrite K1, O0 in Eshipped by (discriminate || (simpl; auto)).
  subst shipped. rewrite map_map in E2.
  destruct (setitem_facts _ _ _ _ E2) as (L2 & A2 & K2 & C2 & W2).
  (* customerid *)
  assert (Hcid : has_column f2 "customerid" = true).
  { apply has_column_In, C2. left. apply C1. left. apply Hcols0. right.
    apply Ho. simpl. auto. }
  destruct (normalize_customerid _ _ E3 Hcid) as (L3 & A3 & K3 & C3 & W3).
  (* the two dimensions *)
  assert (Hfresh : forall x, In x fact_labels -> ~ In x (columns joined)).
  { intros x Hlab Hin. apply Hcols0 in Hin. destruct (Hres x Hlab). tauto. }
  assert (C3' : forall x, In x (columns f3) <->
                          In x (columns joined) \/ In x ["total_amount"; "delivery_status"]).
  { intros x. rewrite C3, C2, C1. simpl. intuition. }
  destruct (link_dimension f3 client_dim f4 "customerid" "bk_customer_id" "sk_client" E4)
    as (L4 & P4 & Hc4 & S4 & W4); try discriminate; try exact client_keys.
  { intros Hin. apply C3' in Hin. destruct Hin as [Hin|Hin].
    - revert Hin. apply Hfresh. simpl. auto 10.
    - simpl in Hin. intuition discriminate. }
  { intros Hin. apply C3' in Hin. destruct Hin as [Hin|Hin].
    - revert Hin. apply Hfresh. simpl. auto 10.
    - simpl in Hin. intuition discriminate. }
  assert (C4 : forall x, In x (columns f4) <->
                         In x (columns f3) \/
                         In x (if empty client_dim then []
                               else ["bk_customer_id"; "sk_client"]))
    by (intros x; rewrite Hc4; apply in_app_iff).
  destruct (link_dimension f4 employee_dim f5 "employeeid" "bk_employee_id" "sk_employee"
              E5) as (L5 & P5 & Hc5 & S5 & W5); try discriminate; try exact employee_keys.
  { intros Hin. apply C4 in Hin. destruct Hin as [Hin|Hin].
    - apply C3' in Hin. destruct Hin as [Hin|Hin].
      + revert Hin. apply Hfresh. simpl. auto 10.
      + simpl in Hin. intuition discriminate.
    - destruct (empty client_dim); simpl in Hin; intuition discriminate. }
  { intros Hin. apply C4 in Hin. destruct Hin as [Hin|Hin].
    - apply C3' in Hin. destruct Hin as [Hin|Hin].
      + revert Hin. apply Hfresh. simpl. auto 10.
      + simpl in Hin. intuition discriminate.
    - destruct (empty client_dim); simpl in Hin; intuition discriminate. }
  assert (C5 : forall x, In x (columns f5) <->
                         In x (columns f4) \/
                         In x (if empty employee_dim then []
                               else ["bk_employee_id"; "sk_employee"]))
    by (intros x; rewrite Hc5; apply in_app_iff).
  (* the date key *)
  destruct (setitem_facts _ _ _ _ E6) as (L6 & A6 & K6 & C6 & W6).
  destruct (setitem_facts _ _ _ _ E7) as (L7 & A7 & K7 & C7 & W7).
  destruct (setitem_facts _ _ _ _ E8) as (L8 & A8 & K8 & C8 & W8).
  assert (J3 : forall c, In c (columns joined) -> In c (columns f3))
    by (intros c Hc; apply C3'; now left).
  assert (S53 : forall c, In c (columns f3) -> column_cells f5 c = column_cells f3 c).
  { intros c Hc. rewrite P5 by (apply C4; now left). now apply P4. }
  assert (S85 : forall c, c <> "orderdate" -> c <> "dt" -> c <> "sk_date" ->
                          column_cells f8 c = column_cells f5 c).
  { intros c H1 H2 H3. rewrite K8, K7, K6 by congruence. reflexivity. }
  assert (S30 : forall c, c <> "customerid" -> c <> "delivery_status" ->
                          c <> "total_amount" ->
                          column_cells f3 c = column_cells joined c).
  { intros c H1 H2 H3. rewrite K3, K2, K1 by congruence. reflexivity. }
  assert (Hin0 : forall c, In c ["orderid"; "unitprice"; "quantity"; "discount";
                                 "customerid"; "employeeid"; "orderdate"; "shippeddate"] ->
                           In c (columns joined)).
  { intros c Hc. apply Hcols0. simpl in Hc.
    destruct Hc as [<-|[<-|[<-|[<-|Hc]]]];
      [left; apply Hd; simpl; auto .. | right; apply Ho; simpl in *; tauto]. }
  (* what the frame holds before the renaming *)
  assert (W8' : well_formed f8) by auto 12.
  assert (Len8 : len f8 = List.length L) by congruence.
  assert (V8 : forall c, In c ["orderid"; "unitprice"; "quantity"; "discount"] ->
               column_cells f8 c = map (fun p => cell (fst p) c) L).
  { intros c Hc.
    rewrite S85 by (intros ->; simpl in Hc; intuition discriminate).
    rewrite S53 by (apply J3, Hin0; simpl in *; tauto).
    rewrite S30 by (intros ->; simpl in Hc; intuition discriminate).
    now apply D0. }
  assert (T8 : column_cells f8 "total_amount"
               = map (fun p => line_amount (cell (fst p) "unitprice")
                                 (cell (fst p) "quantity") (cell (fst p) "discount")) L).
  { rewrite S85, S53 by (discriminate || (apply C3'; right; simpl; auto)).
    rewrite K3, K2 by discriminate. exact A1. }
  assert (DS8 : column_cells f8 "delivery_status"
                = map (fun p => delivery_status (cell (snd p) "shippeddate")) L).
  { rewrite S85, S53 by (discriminate || (apply C3'; right; simpl; auto)).
    rewrite K3 by discriminate. exact A2. }
  assert (Cid3 : column_cells f3 "customerid"
                 = map (fun p => normalized_id (cell (snd p) "customerid")) L).
  { rewrite A3, K2, K1, O0 by (discriminate || (simpl; auto)). now rewrite map_map. }
  assert (Eid4 : column_cells f4 "employeeid"
                 = map (fun p => cell (snd p) "employeeid") L).
  { rewrite P4 by (apply J3, Hin0; simpl; auto 10).
    rewrite S30 by discriminate. apply O0. simpl. auto. }
  assert (Od5 : column_cells f5 "orderdate" = map (fun p => cell (snd p) "orderdate") L).
  { rewrite S53 by (apply J3, Hin0; simpl; auto 10).
    rewrite S30 by discriminate. apply O0. simpl. auto. }
  assert (SK8 : Forall2 (fun p k => match to_datetime (str (cell (snd p) "orderdate")) with
                                    | Some t => sk_date t = Ok k
                                    | None => k = VInt 19000101
                                    end) L (column_cells f8 "sk_date")).
  { rewrite A8. apply astype_int_Forall2 in Esk.
    apply getitem_cells in Edt, Eod', Eod.
    rewrite A7 in Edt. rewrite A6 in Eod'.
    rewrite Od5 in Eod. subst dt od' od.
    unfold fillna, dt_strftime_Ymd, to_datetime_series, astype_str in Esk.
    rewrite !map_map in Esk.
    clear - Esk. revert sk Esk. induction L as [|p l IH]; intros sk Hsk.
    - inversion Hsk. constructor.
    - simpl in Hsk. inversion Hsk as [|v k vs ks Hk Hrest]; subst.
      constructor; [|now apply IH].
      destruct (to_datetime (str (cell (snd p) "orderdate"))) as [t|].
      + exact Hk.
      + simpl in Hk. now inversion Hk. }
  (* the labels of the frame before the renaming *)
  assert (In8 : forall x, In x (columns f8) <->
            In x (columns joined) \/
            In x ["total_amount"; "delivery_status"] \/
            In x (if empty client_dim then [] else ["bk_customer_id"; "sk_client"]) \/
            In x (if empty employee_dim then [] else ["bk_employee_id"; "sk_employee"]) \/
            In x ["orderdate"; "dt"; "sk_date"]).
  { intros x. rewrite C8, C7, C6, C5, C4, C3'. simpl. intuition congruence. }
  assert (N8 : forall x, In x ["bk_order_id"; "unit_price"; "fact_id"] ->
                         ~ In x (columns f8)).
  { intros x Hlab Hin. apply In8 in Hin.
    destruct Hin as [Hin|Hin].
    - revert Hin. apply Hfresh. simpl in *. intuition.
    - destruct (empty client_dim), (empty employee_dim); simpl in *;
        intuition (subst; discriminate). }
  set (mapping := [("orderid", "bk_order_id"); ("unitprice", "unit_price")]) in *.
  assert (R : forall c c', rename_label mapping c = c' ->
                (forall k, In k (columns f8) -> rename_label mapping k = c' -> k = c) ->
                column_cells (rename f8 mapping) c' = column_cells f8 c).
  { intros c c' <- Hinj. now apply column_cells_rename. }
  assert (Rsame : forall c, In c ["quantity"; "discount"; "total_amount"; "delivery_status";
                                  "sk_date"; "sk_client"; "sk_employee"] ->
                            column_cells (rename f8 mapping) c = column_cells f8 c).
  { intros c Hc. apply R.
    - simpl in Hc. repeat (destruct Hc as [<-|Hc]; [reflexivity|]). destruct Hc.
    - intros k _. unfold mapping. cbn [rename_label].
      destruct (String.eqb "orderid" k);
        [intros <-; simpl in Hc; intuition discriminate|].
      destruct (String.eqb "unitprice" k);
        [intros <-; simpl in Hc; intuition discriminate | auto]. }
  assert (Rorder : column_cells (rename f8 mapping) "bk_order_id"
                   = column_cells f8 "orderid").
  { apply R; [reflexivity|]. intros k Hk. unfold mapping. cbn [rename_label].
    destruct (String.eqb "orderid" k) eqn:Eo; [now apply String.eqb_eq in Eo|].
    destruct (String.eqb "unitprice" k); [discriminate|].
    intros ->. exfalso. revert Hk. apply N8. simpl. auto. }
  assert (Rprice : column_cells (rename f8 mapping) "unit_price"
                   = column_cells f8 "unitprice").
  { apply R; [reflexivity|]. intros k Hk. unfold mapping. cbn [rename_label].
    destruct (String.eqb "orderid" k); [discriminate|].
    destruct (String.eqb "unitprice" k) eqn:Eu; [now apply String.eqb_eq in Eu|].
    intros ->. exfalso. revert Hk. apply N8. simpl. auto. }
  destruct (setitem_facts _ _ _ _ E9) as (L9 & A9 & K9 & C9 & W9).
  assert (In9 : forall c k, In k (columns f8) -> rename_label mapping k = c ->
                            In c (columns f9)).
  { intros c k Hk <-. apply C9. left. unfold rename. cbn [columns]. now apply in_map. }
  assert (Fin : forall c, In c ["fact_id"; "bk_order_id"; "sk_client"; "sk_employee";
                                "sk_date"; "quantity"; "unit_price"; "discount";
                                "total_amount"; "delivery_status"] ->
                          In c (columns f9) ->
                          column_cells out c = column_cells f9 c).
  { intros c Hc Hin. apply (column_cells_select _ _ _ c H).
    apply filter_In. split; [exact Hc | now apply has_column_In]. }
  assert (Base8 : forall c, In c ["orderid"; "unitprice"; "quantity"; "discount"] ->
                            In c (columns f8)).
  { intros c Hc. apply In8. left. apply Hin0. simpl in *. tauto. }
  (* the table returned *)
  split. { rewrite (len_select _ _ _ H), L9, len_rename. exact Len8. }
  split. { rewrite Fin, K9, Rorder by
             (discriminate || (simpl; auto 12) ||
              (apply (In9 _ "orderid"); [apply Base8; simpl; auto | reflexivity])).
           apply V8. simpl. auto. }
  split. { rewrite Fin, K9, Rsame by
             (discriminate || (simpl; auto 12) ||
              (apply (In9 _ "quantity"); [apply Base8; simpl; auto | reflexivity])).
           apply V8. simpl. auto. }
  split. { rewrite Fin, K9, Rprice by
             (discriminate || (simpl; auto 12) ||
              (apply (In9 _ "unitprice"); [apply Base8; simpl; auto | reflexivity])).
           apply V8. simpl. auto. }
  split. { rewrite Fin, K9, Rsame by
             (discriminate || (simpl; auto 12) ||
              (apply (In9 _ "discount"); [apply Base8; simpl; auto 10 | reflexivity])).
           apply V8. simpl. auto. }
  split. { rewrite Fin, K9, Rsame by
             (discriminate || (simpl; auto 12) ||
              (apply (In9 _ "total_amount");
               [apply In8; right; left; simpl; auto | reflexivity])).
           exact T8. }
  split. { rewrite Fin, K9, Rsame by
             (discriminate || (simpl; auto 12) ||
              (apply (In9 _ "delivery_status");
               [apply In8; right; left; simpl; auto | reflexivity])).
           exact DS8. }
  split. { rewrite Fin, K9, Rsame by
             (discriminate || (simpl; auto 12) ||
              (apply (In9 _ "sk_date");
               [apply In8; do 4 right; simpl; auto | reflexivity])).
           exact SK8. }
  assert (Gone : forall c, In c ["sk_client"; "sk_employee"] ->
                           ~ In c (columns f8) -> has_column out c = false).
  { intros c Hc Hno. apply not_true_is_false. intros Hin.
    apply has_column_In in Hin. rewrite (columns_select _ _ _ H) in Hin.
    apply filter_In in Hin. destruct Hin as [_ Hin]. apply has_column_In, C9 in Hin.
    destruct Hin as [Hin| ->]; [|simpl in Hc; intuition discriminate].
    unfold rename in Hin. cbn [columns] in Hin. apply in_map_iff in Hin.
    destruct Hin as (k & Ek & Hk). apply Hno.
    unfold mapping in Ek. cbn [rename_label] in Ek.
    destruct (String.eqb "orderid" k);
      [subst c; simpl in Hc; intuition discriminate|].
    destruct (String.eqb "unitprice" k);
      [subst c; simpl in Hc; intuition discriminate|].
    now subst k. }
  assert (There : forall c, In c ["sk_client"; "sk_employee"] ->
                            In c (columns f8) -> In c (columns out)).
  { intros c Hc Hin. rewrite (columns_select _ _ _ H). apply filter_In.
    split; [simpl in *; intuition|]. apply has_column_In, (In9 c c Hin).
    simpl in Hc. destruct Hc as [<-|[<-|[]]]; reflexivity. }
  split; [|split; [|split]].
  - destruct (empty client_dim) eqn:Hec.
    + apply Gone; [simpl; auto|]. intros Hin. apply In8 in Hin.
      destruct Hin as [Hin|Hin].
      * revert Hin. apply Hfresh. simpl. auto 10.
      * destruct (empty employee_dim); simpl in Hin; intuition discriminate.
    + rewrite Fin, K9, Rsame by
        (discriminate || (simpl; auto 12) ||
         (apply (In9 _ "sk_client");
          [apply In8; do 2 right; left; simpl; auto | reflexivity])).
      rewrite S85 by discriminate.
      rewrite P5 by (apply C4; right; simpl; auto).
      rewrite (S4 eq_refl).
      change (map (fun a => surrogate_of client_dim "bk_customer_id" "sk_client"
                              (cell a "customerid")) (rows f3))
        with (map (fun a => surrogate_of client_dim "bk_customer_id" "sk_client"
                              ((fun r => cell r "customerid") a)) (rows f3)).
      rewrite <- (map_map (fun r => cell r "customerid")
                    (surrogate_of client_dim "bk_customer_id" "sk_client")).
      fold (column_cells f3 "customerid"). rewrite Cid3. now rewrite map_map.
  - destruct (empty employee_dim) eqn:Hee.
    + apply Gone; [simpl; auto|]. intros Hin. apply In8 in Hin.
      destruct Hin as [Hin|Hin].
      * revert Hin. apply Hfresh. simpl. auto 10.
      * destruct (empty client_dim); simpl in Hin; intuition discriminate.
    + rewrite Fin, K9, Rsame by
        (discriminate || (simpl; auto 12) ||
         (apply (In9 _ "sk_employee");
          [apply In8; do 3 right; left; simpl; auto | reflexivity])).
      rewrite S85 by discriminate.
      rewrite (S5 eq_refl).
      change (map (fun a => surrogate_of employee_dim "bk_employee_id" "sk_employee"
                              (cell a "employeeid")) (rows f4))
        with (map (fun a => surrogate_of employee_dim "bk_employee_id" "sk_employee"
                              ((fun r => cell r "employeeid") a)) (rows f4)).
      rewrite <- (map_map (fun r => cell r "employeeid")
                    (surrogate_of employee_dim "bk_employee_id" "sk_employee")).
      fold (column_cells f4 "employeeid"). rewrite Eid4. now rewrite map_map.
  - intros Hec. apply There; [simpl; auto|]. apply In8.
    rewrite Hec. do 2 right. left. simpl. auto.
  - intros Hee. apply There; [simpl; auto|]. apply In8.
    rewrite Hee. do 3 right. left. simpl. auto.
Qed.

End FactColumns.
(** ** The fact table and its sources *)

Section FactTable.

Context {P : Pandas}.

(** With distinct natural keys in the two dimensions, the fact table has
    one row per order line, in the order of the lines, holding the order
    id, quantity, unit price and discount of the line. *)
Theorem sales_fact_lines
    (orders_df details_df client_dim employee_dim out : DataFrame) :
  fact_sources orders_df details_df = true ->
  empty orders_df = false -> empty details_df = false ->
  (empty client_dim = false -> NoDup (column_cells client_dim "bk_customer_id")) ->
  (empty employee_dim = false -> NoDup (column_cells employee_dim "bk_employee_id")) ->
  create_sales_fact orders_df details_df client_dim employee_dim = Ok out ->
  len out = List.length (order_lines orders_df details_df) /\
  column_cells out "bk_order_id"
  = map (fun p => cell (fst p) "orderid") (order_lines orders_df details_df) /\
  column_cells out "quantity"
  = map (fun p => cell (fst p) "quantity") (order_lines orders_df details_df) /\
  column_cells out "unit_price"
  = map (fun p => cell (fst p) "unitprice") (order_lines orders_df details_df) /\
  column_cells out "discount"
  = map (fun p => cell (fst p) "discount") (order_lines orders_df details_df).
Proof.
  intros Hsrc Ho Hd Hc He H.
  destruct (create_sales_fact_columns _ _ _ _ _ Hsrc Ho Hd Hc He H)
    as (H1 & H2 & H3 & H4 & H5 & _).
  repeat split; assumption.
Qed.

(** The delivery status of a fact row is [Delivered] when the order of
    its line has a shipped date that is present and not blank, and
    [Not Delivered] otherwise. *)
Theorem sales_fact_delivery_status
    (orders_df details_df client_dim employee_dim out : DataFrame) :
  fact_sources orders_df details_df = true ->
  empty orders_df = false -> empty details_df = false ->
  (empty client_dim = false -> NoDup (column_cells client_dim "bk_customer_id")) ->
  (empty employee_dim = false -> NoDup (column_cells employee_dim "bk_employee_id")) ->
  create_sales_fact orders_df details_df client_dim employee_dim = Ok out ->
  column_cells out "delivery_status"
  = map (fun p =>
           if notnull (cell (snd p) "shippeddate") &&
              negb (String.eqb (Str.strip (str (cell (snd p) "shippeddate"))) "")
           then VStr "Delivered" else VStr "Not Delivered")
      (order_lines orders_df details_df).
Proof.
  intros Hsrc Ho Hd Hc He H.
  destruct (create_sales_fact_columns _ _ _ _ _ Hsrc Ho Hd Hc He H)
    as (_ & _ & _ & _ & _ & _ & H7 & _).
  exact H7.
Qed.

(** The date key of a fact row is the key of the timestamp read in the
    stringified order date of its line, and 19000101 when no timestamp
    is read. *)
Theorem sales_fact_date_key
    (orders_df details_df client_dim employee_dim out : DataFrame) :
  fact_sources orders_df details_df = true ->
  empty orders_df = false -> empty details_df = false ->
  (empty client_dim = false -> NoDup (column_cells client_dim "bk_customer_id")) ->
  (empty employee_dim = false -> NoDup (column_cells employee_dim "bk_employee_id")) ->
  create_sales_fact orders_df details_df client_dim employee_dim = Ok out ->
  Forall2 (fun p k => match to_datetime (str (cell (snd p) "orderdate")) with
                      | Some t => sk_date t = Ok k
                      | None => k = VInt 19000101
                      end)
    (order_lines orders_df details_df) (column_cells out "sk_date").
Proof.
  intros Hsrc Ho Hd Hc He H.
  destruct (create_sales_fact_columns _ _ _ _ _ Hsrc Ho Hd Hc He H)
    as (_ & _ & _ & _ & _ & _ & _ & H8 & _).
  exact H8.
Qed.

(** Linked to a client dimension that is not empty, a fact row holds the
    [sk_client] of the client whose natural key is the customer id of the
    order, uppercased and trimmed, and NaN when there is no such client;
    the row is there either way.  The customer ids of the orders are text
    or missing. *)
Theorem sales_fact_client_key
    (orders_df details_df client_dim employee_dim out : DataFrame) :
  fact_sources orders_df details_df = true ->
  empty orders_df = false -> empty details_df = false ->
  holds orders_df "customerid" text_id = true ->
  empty client_dim = false ->
  NoDup (column_cells client_dim "bk_customer_id") ->
  (empty employee_dim = false -> NoDup (column_cells employee_dim "bk_employee_id")) ->
  create_sales_fact orders_df details_df client_dim employee_dim = Ok out ->
  len out = List.length (order_lines orders_df details_df) /\
  column_cells out "sk_client"
  = map (fun p => surrogate_of client_dim "bk_customer_id" "sk_client"
                    (normalized_id (cell (snd p) "customerid")))
      (order_lines orders_df details_df).
Proof.
  intros Hsrc Ho Hd _ Hne Hc He H.
  destruct (create_sales_fact_columns _ _ _ _ _ Hsrc Ho Hd (fun _ => Hc) He H)
    as (H1 & _ & _ & _ & _ & _ & _ & _ & H9 & _).
  rewrite Hne in H9. split; assumption.
Qed.

(** The same for the employees, whose ids are compared as they are. *)
Theorem sales_fact_employee_key
    (orders_df details_df client_dim employee_dim out : DataFrame) :
  fact_sources orders_df details_df = true ->
  empty orders_df = false -> empty details_df = false ->
  (empty client_dim = false -> NoDup (column_cells client_dim "bk_customer_id")) ->
  empty employee_dim = false ->
  NoDup (column_cells employee_dim "bk_employee_id") ->
  create_sales_fact orders_df details_df client_dim employee_dim = Ok out ->
  len out = List.length (order_lines orders_df details_df) /\
  column_cells out "sk_employee"
  = map (fun p => surrogate_of employee_dim "bk_employee_id" "sk_employee"
                    (cell (snd p) "employeeid"))
      (order_lines orders_df details_df).
Proof.
  intros Hsrc Ho Hd Hc Hne He H.
  destruct (create_sales_fact_columns _ _ _ _ _ Hsrc Ho Hd Hc (fun _ => He) H)
    as (H1 & _ & _ & _ & _ & _ & _ & _ & _ & H10 & _).
  rewrite Hne in H10. split; assumption.
Qed.

(** Built on an empty dimension, the fact table keeps every order line
    but has no column for the key of that dimension: the link is skipped,
    not filled with nulls. *)
Theorem sales_fact_without_dimension
    (orders_df details_df client_dim employee_dim out : DataFrame) :
  fact_sources orders_df details_df = true ->
  empty orders_df = false -> empty details_df = false ->
  (empty client_dim = false -> NoDup (column_cells client_dim "bk_customer_id")) ->
  (empty employee_dim = false -> NoDup (column_cells employee_dim "bk_employee_id")) ->
  create_sales_fact orders_df details_df client_dim employee_dim = Ok out ->
  len out = List.length (order_lines orders_df details_df) /\
  (empty client_dim = true -> has_column out "sk_client" = false) /\
  (empty employee_dim = true -> has_column out "sk_employee" = false).
Proof.
  intros Hsrc Ho Hd Hc He H.
  destruct (create_sales_fact_columns _ _ _ _ _ Hsrc Ho Hd Hc He H)
    as (H1 & _ & _ & _ & _ & _ & _ & _ & H9 & H10 & _).
  split; [exact H1|]. split; intros Hempty.
  - now rewrite Hempty in H9.
  - now rewrite Hempty in H10.
Qed.

End FactTable.
(** ** The fact table of the sample orders *)

Lemma sample_client_keys : NoDup (column_cells Sample.dim_client "bk_customer_id").
Proof. vm_compute. repeat constructor; simpl; intuition discriminate. Qed.

Lemma sample_employee_keys : NoDup (column_cells Sample.dim_employee "bk_employee_id").
Proof. vm_compute. repeat constructor; simpl; intuition discriminate. Qed.

Lemma sales_fact_lines_witness :
  exists out,
    create_sales_fact (P := Sample.pandas) Sample.orders Sample.details
      Sample.dim_client Sample.dim_employee = Ok out /\
    len out = 4%nat /\
    column_cells out "bk_order_id" = [VInt 10248; VInt 10248; VInt 10249; VInt 10250] /\
    column_cells out "quantity" = [VInt 12; VInt 10; VInt 9; VInt 10] /\
    column_cells out "unit_price" = [VInt 14; VInt 10; VInt 19; VInt 8].
Proof.
  destruct (create_sales_fact (P := Sample.pandas) Sample.orders Sample.details
              Sample.dim_client Sample.dim_employee) as [out|e] eqn:E;
    [|vm_compute in E; discriminate].
  destruct (sales_fact_lines (P := Sample.pandas)
              Sample.orders Sample.details Sample.dim_client Sample.dim_employee out eq_refl eq_refl eq_refl
              (fun _ => sample_client_keys) (fun _ => sample_employee_keys) E)
    as (H1 & H2 & H3 & H4 & _).
  exists out. split; [reflexivity|]. repeat split; assumption.
Defined.

Lemma sales_fact_delivery_status_witness :
  exists out,
    create_sales_fact (P := Sample.pandas) Sample.orders Sample.details
      Sample.dim_client Sample.dim_employee = Ok out /\
    column_cells out "delivery_status"
    = [VStr "Delivered"; VStr "Delivered"; VStr "Not Delivered"; VStr "Not Delivered"].
Proof.
  destruct (create_sales_fact (P := Sample.pandas) Sample.orders Sample.details
              Sample.dim_client Sample.dim_employee) as [out|e] eqn:E;
    [|vm_compute in E; discriminate].
  pose proof (sales_fact_delivery_status (P := Sample.pandas)
              Sample.orders Sample.details Sample.dim_client Sample.dim_employee out
                eq_refl eq_refl eq_refl
                (fun _ => sample_client_keys) (fun _ => sample_employee_keys) E) as H.
  exists out. split; [reflexivity | exact H].
Defined.

Lemma sales_fact_date_key_witness :
  exists out,
    create_sales_fact (P := Sample.pandas) Sample.orders Sample.details
      Sample.dim_client Sample.dim_employee = Ok out /\
    column_cells out "sk_date"
    = [VInt 20130704; VInt 20130704; VInt 19000101; VInt 19000101] /\
    Forall2 (fun p k => match to_datetime (Pandas := Sample.pandas)
                                (str (cell (snd p) "orderdate")) with
                        | Some t => sk_date t = Ok k
                        | None => k = VInt 19000101
                        end)
      (order_lines Sample.orders Sample.details) (column_cells out "sk_date").
Proof.
  destruct (create_sales_fact (P := Sample.pandas) Sample.orders Sample.details
              Sample.dim_client Sample.dim_employee) as [out|e] eqn:E;
    [|vm_compute in E; discriminate].
  pose proof (sales_fact_date_key (P := Sample.pandas)
              Sample.orders Sample.details Sample.dim_client Sample.dim_employee out
                eq_refl eq_refl eq_refl
                (fun _ => sample_client_keys) (fun _ => sample_employee_keys) E) as H.
  exists out. split; [reflexivity|]. split; [|exact H].
  vm_compute in E. inversion E. reflexivity.
Defined.

Lemma sales_fact_client_key_witness :
  exists out,
    create_sales_fact (P := Sample.pandas) Sample.orders Sample.details
      Sample.dim_client Sample.dim_employee = Ok out /\
    len out = 4%nat /\
    column_cells out "sk_client" = [VInt 1; VInt 1; NaN; VInt 2].
Proof.
  destruct (create_sales_fact (P := Sample.pandas) Sample.orders Sample.details
              Sample.dim_client Sample.dim_employee) as [out|e] eqn:E;
    [|vm_compute in E; discriminate].
  destruct (sales_fact_client_key (P := Sample.pandas)
              Sample.orders Sample.details Sample.dim_client Sample.dim_employee out
              eq_refl eq_refl eq_refl eq_refl eq_refl
              sample_client_keys (fun _ => sample_employee_keys) E) as [H1 H2].
  exists out. split; [reflexivity|]. split; assumption.
Defined.

Lemma sales_fact_employee_key_witness :
  exists out,
    create_sales_fact (P := Sample.pandas) Sample.orders Sample.details
      Sample.dim_client Sample.dim_employee = Ok out /\
    len out = 4%nat /\
    column_cells out "sk_employee" = [VInt 1; VInt 1; VInt 2; NaN].
Proof.
  destruct (create_sales_fact (P := Sample.pandas) Sample.orders Sample.details
              Sample.dim_client Sample.dim_employee) as [out|e] eqn:E;
    [|vm_compute in E; discriminate].
  destruct (sales_fact_employee_key (P := Sample.pandas)
              Sample.orders Sample.details Sample.dim_client Sample.dim_employee out
              eq_refl eq_refl eq_refl (fun _ => sample_client_keys) eq_refl
              sample_employee_keys E) as [H1 H2].
  exists out. split; [reflexivity|]. split; assumption.
Defined.

Lemma sales_fact_without_dimension_witness :
  exists out,
    create_sales_fact (P := Sample.pandas) Sample.orders Sample.details
      DataFrame_new Sample.dim_employee = Ok out /\
    len out = 4%nat /\
    has_column out "sk_client" = false /\
    has_column out "sk_employee" = true.
Proof.
  destruct (create_sales_fact (P := Sample.pandas) Sample.orders Sample.details
              DataFrame_new Sample.dim_employee) as [out|e] eqn:E;
    [|vm_compute in E; discriminate].
  destruct (sales_fact_without_dimension (P := Sample.pandas)
              Sample.orders Sample.details DataFrame_new Sample.dim_employee out
              eq_refl eq_refl eq_refl
              (fun (Hne : empty DataFrame_new = false) =>
                 False_ind _ (Bool.diff_true_false Hne))
              (fun _ => sample_employee_keys) E) as (H1 & H2 & _).
  exists out. split; [reflexivity|]. split; [exact H1|]. split; [exact (H2 eq_refl)|].
  vm_compute in E. inversion E. reflexivity.
Defined.
(** ** The fact builder returns a table *)

Lemma map3_length {A B C D : Type} (f : A -> B -> C -> D) a b c :
  List.length b = List.length a -> List.length c = List.length a ->
  List.length (map3 f a b c) = List.length a.
Proof.
  revert b c. induction a as [|x a IH]; intros [|y b] [|z c]; simpl;
    try discriminate; try reflexivity.
  intros Hb Hc. f_equal. apply IH; congruence.
Qed.

Lemma mapM_total {A B : Type} (f : A -> result B) (l : list A) :
  (forall a, In a l -> exists b, f a = Ok b) ->
  exists bs, mapM f l = Ok bs /\ List.length bs = List.length l.
Proof.
  induction l as [|a l IH]; intros H; simpl.
  - now exists [].
  - destruct (H a (or_introl eq_refl)) as (b & ->).
    destruct IH as (bs & -> & Hlen); [intros; apply H; now right|].
    simpl. exists (b :: bs). simpl. now rewrite Hlen.
Qed.

(** [astype(int)] after [fillna] with an integer does not fail on the
    texts of [strftime('%Y%m%d')]. *)
Lemma astype_int_filled (z : Z) (dt : list value) :
  exists sk, astype_int (fillna (VInt z) (dt_strftime_Ymd dt)) = Ok sk /\
             List.length sk = List.length dt.
Proof.
  destruct (mapM_total to_int (fillna (VInt z) (dt_strftime_Ymd dt)))
    as (sk & Hsk & Hlen).
  - intros a Ha. unfold fillna, dt_strftime_Ymd in Ha. rewrite map_map in Ha.
    apply in_map_iff in Ha. destruct Ha as (v & <- & _).
    destruct v as [| |s|t]; cbn [to_int]; eauto.
    rewrite int_of_strftime. eauto.
  - exists sk. split; [exact Hsk|]. rewrite Hlen.
    unfold fillna, dt_strftime_Ymd. now rewrite !length_map.
Qed.

(** A join succeeds when both key columns are there, and keeps the labels
    of the left frame that the right frame does not have. *)
Lemma merge_Ok l r left_on right_on h :
  has_column l left_on = true -> has_column r right_on = true ->
  exists m, merge l r left_on right_on h = Ok m /\
            forall c, In c (columns l) -> ~ In c (right_labels r left_on right_on) ->
                      In c (columns m).
Proof.
  intros Hl Hr. unfold merge. rewrite Hl, Hr. simpl.
  eexists. split; [reflexivity|]. intros c Hc Hn. cbn [columns].
  apply in_app_iff. left. apply in_map_iff. exists c. split; [|exact Hc].
  unfold suffixed.
  assert (E : mem c (overlap l r left_on right_on) = false).
  { apply mem_false. unfold overlap. rewrite filter_In. intros [_ Hm].
    apply mem_In in Hm. contradiction. }
  now rewrite E.
Qed.

Lemma link_dimension_Ok (sf dim : DataFrame) (lo bk sk : string) :
  In lo (columns sf) -> lo <> bk ->
  (empty dim = false -> has_column dim bk = true /\ has_column dim sk = true) ->
  exists sf',
    (if negb (empty dim)
     then keys <- select dim [bk; sk] ;; merge sf keys lo bk left
     else Ok sf) = Ok sf' /\
    forall c, In c (columns sf) -> c <> bk -> c <> sk -> In c (columns sf').
Proof.
  intros Hlo Hne Hdim. destruct (empty dim) eqn:He; simpl.
  - exists sf. split; [reflexivity | auto].
  - destruct (Hdim eq_refl) as [Hbk Hsk].
    rewrite select_Ok by (intros c [<-|[<-|[]]]; assumption). cbn [bind].
    set (keys := mkDataFrame [bk; sk] _).
    destruct (merge_Ok sf keys lo bk left) as (m & Em & Hm).
    + now apply has_column_In.
    + unfold has_column, keys. simpl. now rewrite String.eqb_refl.
    + exists m. split; [exact Em|]. intros c Hc H1 H2. apply Hm; [exact Hc|].
      unfold right_labels. apply String.eqb_neq in Hne. rewrite Hne.
      unfold keys. simpl. intuition congruence.
Qed.

Section FactTotal.

Context {P : Pandas}.

(** In the model the steps of the fact builder succeed one after the
    other once the labels are where the builder looks for them. *)
Lemma create_sales_fact_returns
    (orders_df details_df client_dim employee_dim : DataFrame) :
  fact_sources orders_df details_df = true ->
  empty orders_df = false -> empty details_df = false ->
  (empty client_dim = false ->
   has_column client_dim "bk_customer_id" = true /\
   has_column client_dim "sk_client" = true) ->
  (empty employee_dim = false ->
   has_column employee_dim "bk_employee_id" = true /\
   has_column employee_dim "sk_employee" = true) ->
  exists out,
    create_sales_fact orders_df details_df client_dim employee_dim = Ok out /\
    In "fact_id" (columns out) /\ In "sk_date" (columns out).
Proof.
  intros Hsrc Hone Hdne Hclient Hemployee.
  destruct (fact_sources_inv _ _ Hsrc) as (Hd & Ho & Hshare & Hres).
  unfold create_sales_fact. rewrite Hone, Hdne. cbn [orb].
  destruct (merge_Ok details_df orders_df "orderid" "orderid" inner)
    as (joined & Ejoin & _);
    try (apply has_column_In; (apply Hd || apply Ho); simpl; auto).
  rewrite Ejoin. cbn [bind].
  destruct (joined_lines _ _ _ Hsrc Ejoin) as (_ & _ & Hcols0 & _).
  assert (Hx : has_column joined "unitprice_x" = false).
  { apply not_true_is_false. intros Hc. apply has_column_In, Hcols0 in Hc.
    destruct (Hres "unitprice_x") as [H1 H2]; [simpl; auto|]. tauto. }
  assert (Hin0 : forall c, In c ["orderid"; "unitprice"; "quantity"; "discount";
                                 "customerid"; "employeeid"; "orderdate"; "shippeddate"] ->
                           In c (columns joined)).
  { intros c Hc. apply Hcols0. simpl in Hc.
    destruct Hc as [<-|[<-|[<-|[<-|Hc]]]];
      [left; apply Hd; simpl; auto .. | right; apply Ho; simpl in *; tauto]. }
  assert (Hu : has_column joined "unitprice" = true)
    by (apply has_column_In, Hin0; simpl; auto).
  rewrite Hx, Hu.
  rewrite !getitem_column by (apply Hin0; simpl; auto 10). cbn [bind].
  destruct (setitem_series_Ok joined "total_amount"
              (map3 line_amount (column_cells joined "unitprice")
                 (column_cells joined "quantity") (column_cells joined "discount")))
    as (f1 & -> & C1 & L1);
    [rewrite map3_length; now rewrite !column_cells_length|].
  cbn [bind].
  assert (I1 : forall c, In c (columns joined) -> In c (columns f1))
    by (intros c Hc; rewrite C1; apply In_add_label; now left).
  rewrite (getitem_column f1 "shippeddate") by (apply I1, Hin0; simpl; auto 10).
  cbn [bind].
  destruct (setitem_series_Ok f1 "delivery_status"
              (map delivery_status (column_cells f1 "shippeddate")))
    as (f2 & -> & C2 & L2); [now rewrite length_map, column_cells_length|].
  cbn [bind].
  assert (I2 : forall c, In c (columns joined) -> In c (columns f2))
    by (intros c Hc; rewrite C2; apply In_add_label; left; now apply I1).
  assert (Hcid : has_column f2 "customerid" = true)
    by (apply has_column_In, I2, Hin0; simpl; auto 10).
  rewrite Hcid, (getitem_column f2 "customerid") by now apply has_column_In.
  cbn [bind].
  destruct (setitem_series_Ok f2 "customerid"
              (str_strip (str_upper (astype_str (column_cells f2 "customerid")))))
    as (f3 & -> & C3 & L3).
  { unfold str_strip, str_upper, astype_str.
    now rewrite !length_map, column_cells_length. }
  cbn [bind].
  assert (I3 : forall c, In c (columns joined) -> In c (columns f3))
    by (intros c Hc; rewrite C3; apply In_add_label; left; now apply I2).
  destruct (link_dimension_Ok f3 client_dim "customerid" "bk_customer_id" "sk_client")
    as (f4 & -> & I4); [apply I3, Hin0; simpl; auto 10 | discriminate | exact Hclient |].
  cbn [bind].
  destruct (link_dimension_Ok f4 employee_dim "employeeid" "bk_employee_id" "sk_employee")
    as (f5 & -> & I5);
    [apply I4; [apply I3, Hin0; simpl; auto 10 | discriminate | discriminate]
    | discriminate | exact Hemployee |].
  cbn [bind].
  assert (Hod : In "orderdate" (columns f5)).
  { apply I5; [|discriminate|discriminate].
    apply I4; [|discriminate|discriminate]. apply I3, Hin0. simpl. auto 10. }
  rewrite (getitem_column f5 "orderdate" Hod). cbn [bind].
  destruct (setitem_series_Ok f5 "orderdate" (astype_str (column_cells f5 "orderdate")))
    as (f6 & -> & C6 & L6);
    [unfold astype_str; now rewrite length_map, column_cells_length|].
  cbn [bind].
  rewrite (getitem_column f6 "orderdate")
    by (rewrite C6; apply In_add_label; now left).
  cbn [bind].
  destruct (setitem_series_Ok f6 "dt" (to_datetime_series (column_cells f6 "orderdate")))
    as (f7 & E7 & C7 & L7);
    [now rewrite to_datetime_series_length, column_cells_length|].
  rewrite E7. cbn [bind].
  rewrite (getitem_column f7 "dt") by (rewrite C7; apply In_add_label; now right).
  cbn [bind].
  destruct (astype_int_filled 19000101 (column_cells f7 "dt")) as (sk & -> & Hsk).
  cbn [bind]. rewrite column_cells_length in Hsk.
  destruct (setitem_series_Ok f7 "sk_date" sk Hsk) as (f8 & E8 & C8 & L8).
  rewrite E8. cbn [bind].
  set (renamed := rename f8 _).
  destruct (setitem_series_Ok renamed "fact_id" (range 1 (len renamed + 1)))
    as (f9 & E9 & C9 & L9); [rewrite range_length; lia|].
  rewrite E9. cbn [bind]. rewrite select_available.
  eexists. split; [reflexivity|]. cbn [columns].
  split; apply filter_In; (split; [simpl; auto 10|]).
  - exact (has_column_assigned _ _ _ _ E9).
  - apply (has_column_series _ _ _ _ _ E9). unfold renamed.
    rewrite has_column_rename_other.
    + exact (has_column_assigned _ _ _ _ E8).
    + reflexivity.
    + intros k. cbn [rename_label].
      destruct (String.eqb "orderid" k); [discriminate|].
      destruct (String.eqb "unitprice" k); [discriminate | auto].
Qed.

(** For sources as the builder expects them, holding numbers, text and
    dates where the builder computes with numbers, text and dates, and
    dimensions that are empty or hold their two key columns, the fact
    builder does not fail: it returns a table. *)
Theorem create_sales_fact_total
    (orders_df details_df client_dim employee_dim : DataFrame) :
  fact_sources orders_df details_df = true ->
  fact_cells orders_df details_df client_dim employee_dim = true ->
  empty orders_df = false -> empty details_df = false ->
  (empty client_dim = false ->
   has_column client_dim "bk_customer_id" = true /\
   has_column client_dim "sk_client" = true) ->
  (empty employee_dim = false ->
   has_column employee_dim "bk_employee_id" = true /\
   has_column employee_dim "sk_employee" = true) ->
  exists out,
    create_sales_fact orders_df details_df client_dim employee_dim = Ok out /\
    In "fact_id" (columns out) /\ In "sk_date" (columns out).
Proof.
  intros Hsrc _ Hone Hdne Hclient Hemployee.
  now apply create_sales_fact_returns.
Qed.

End FactTotal.

Lemma sample_client_columns :
  empty Sample.dim_client = false ->
  has_column Sample.dim_client "bk_customer_id" = true /\
  has_column Sample.dim_client "sk_client" = true.
Proof. intros _. split; reflexivity. Qed.

Lemma sample_employee_columns :
  empty Sample.dim_employee = false ->
  has_column Sample.dim_employee "bk_employee_id" = true /\
  has_column Sample.dim_employee "sk_employee" = true.
Proof. intros _. split; reflexivity. Qed.

Lemma create_sales_fact_total_witness :
  exists out,
    create_sales_fact (P := Sample.pandas) Sample.clean_orders Sample.details
      Sample.dim_client Sample.dim_employee = Ok out /\
    In "fact_id" (columns out) /\ In "sk_date" (columns out).
Proof.
  exact (create_sales_fact_total (P := Sample.pandas)
           Sample.clean_orders Sample.details Sample.dim_client Sample.dim_employee
           eq_refl eq_refl eq_refl eq_refl sample_client_columns
           sample_employee_columns).
Defined.

(** ** Orders without a date *)

Lemma distinct_In (x : string) (l : list string) : In x (distinct l) <-> In x l.
Proof.
  induction l as [|a l IH]; simpl; [tauto|].
  rewrite filter_In, IH, negb_true_iff, String.eqb_neq.
  destruct (string_dec a x); tauto.
Qed.

Lemma distinct_NoDup (l : list string) : NoDup (distinct l).
Proof.
  induction l as [|a l IH]; simpl; constructor.
  - rewrite filter_In, negb_true_iff, String.eqb_neq. tauto.
  - now apply NoDup_filter.
Qed.

(** The sample environment obeys the laws. *)
Lemma sample_laws : PandasLaws Sample.pandas.
Proof.
  constructor.
  - reflexivity.
  - apply distinct_NoDup.
  - intros l x. apply distinct_In.
Qed.

(** An order line whose order has no order date (a missing cell, which
    [astype(str)] turns into the text [nan]) gets the date key 19000101. *)
Theorem sales_fact_missing_date {P : Pandas} {Laws : PandasLaws P}
    (orders_df details_df client_dim employee_dim out : DataFrame) :
  fact_sources orders_df details_df = true ->
  empty orders_df = false -> empty details_df = false ->
  (empty client_dim = false -> NoDup (column_cells client_dim "bk_customer_id")) ->
  (empty employee_dim = false -> NoDup (column_cells employee_dim "bk_employee_id")) ->
  create_sales_fact orders_df details_df client_dim employee_dim = Ok out ->
  Forall2 (fun p k => cell (snd p) "orderdate" = NaN -> k = VInt 19000101)
    (order_lines orders_df details_df) (column_cells out "sk_date").
Proof.
  intros Hsrc Ho Hd Hc He H.
  destruct (create_sales_fact_columns _ _ _ _ _ Hsrc Ho Hd Hc He H)
    as (_ & _ & _ & _ & _ & _ & _ & H8 & _).
  eapply Forall2_impl; [|exact H8].
  intros p k Hk Hnan. cbv beta in Hk. rewrite Hnan in Hk. cbn [str] in Hk.
  now rewrite to_datetime_nan in Hk.
Qed.

Lemma sales_fact_missing_date_witness :
  exists out,
    create_sales_fact (P := Sample.pandas) Sample.orders Sample.details
      Sample.dim_client Sample.dim_employee = Ok out /\
    map (fun p => cell (snd p) "orderdate") (order_lines Sample.orders Sample.details)
    = [VStr "2013-07-04"; VStr "2013-07-04"; NaN; VStr "not a date"] /\
    Forall2 (fun p k => cell (snd p) "orderdate" = NaN -> k = VInt 19000101)
      (order_lines Sample.orders Sample.details) (column_cells out "sk_date").
Proof.
  destruct (create_sales_fact (P := Sample.pandas) Sample.orders Sample.details
              Sample.dim_client Sample.dim_employee) as [out|e] eqn:E;
    [|vm_compute in E; discriminate].
  pose proof (sales_fact_missing_date (P := Sample.pandas) (Laws := sample_laws)
                Sample.orders Sample.details Sample.dim_client Sample.dim_employee out
                eq_refl eq_refl eq_refl
                (fun _ => sample_client_keys) (fun _ => sample_employee_keys) E) as H.
  exists out. split; [reflexivity|]. split; [reflexivity | exact H].
Defined.

(** ** create_employee_dimension *)

Lemma combine_map {A B C : Type} (f : A -> B) (g : A -> C) (l : list A) :
  combine (map f l) (map g l) = map (fun a => (f a, g a)) l.
Proof. induction l as [|a l IH]; simpl; [reflexivity|]. now rewrite IH. Qed.

Lemma well_formed_rename df mapping : well_formed df -> well_formed (rename df mapping).
Proof.
  unfold well_formed, rename. cbn [rows columns]. intros H.
  apply Forall_map. eapply Forall_impl; [|exact H].
  intros r Hr. cbn beta. rewrite map_map. cbn [fst]. now rewrite <- Hr, map_map.
Qed.

Lemma well_formed_setitem_scalar df c v :
  well_formed df -> well_formed (setitem_scalar df c v).
Proof.
  unfold well_formed, setitem_scalar. cbn [rows columns]. intros H.
  apply Forall_map. eapply Forall_impl; [|exact H].
  intros r Hr. cbn beta. now rewrite labels_set_cell, Hr.
Qed.

Lemma setitem_facts_Ok df c s :
  List.length s = len df ->
  exists df', setitem df c s = Ok df' /\
    (len df' = len df /\
     column_cells df' c = s /\
     (forall c', c <> c' -> column_cells df' c' = column_cells df c') /\
     (forall x, In x (columns df') <-> In x (columns df) \/ x = c) /\
     (well_formed df -> well_formed df')).
Proof.
  intros H. eexists. split; [now apply setitem_Ok|].
  apply setitem_facts. now apply setitem_Ok.
Qed.

Section EmployeeUnknown.

Context {P : Pandas}.

(** The territory step when there is nothing to enrich with: both new
    columns hold [Unknown] in every row and nothing else changes. *)
Lemma add_territory_info_unknown employee_dim emp_terr_df territories_df regions_df :
  empty emp_terr_df || empty territories_df = true ->
  add_territory_info employee_dim emp_terr_df territories_df regions_df
  = Ok (setitem_scalar (setitem_scalar employee_dim "territories" (VStr "Unknown"))
          "sales_region" (VStr "Unknown")).
Proof. intros H. unfold add_territory_info. now rewrite H. Qed.

(** For employees with first and last names, and no table of assignments
    or of territories to enrich them with, the employee builder returns
    DimEmployee with one row per employee, numbered 1, 2, ... in
    [sk_employee], the full name made of the first and the last name, and
    [Unknown] for the territories and for the sales region of everyone. *)
Theorem create_employee_dimension_unknown
    (employees_df emp_terr_df territories_df regions_df : DataFrame) :
  well_formed employees_df ->
  empty employees_df = false ->
  has_column employees_df "firstname" = true ->
  has_column employees_df "lastname" = true ->
  forallb (fun c => negb (has_column employees_df c))
    ["bk_employee_id"; "first_name"; "last_name"] = true ->
  empty emp_terr_df || empty territories_df = true ->
  exists out,
    create_employee_dimension employees_df emp_terr_df territories_df regions_df
    = Ok out /\
    len out = len employees_df /\
    dense_keys out "sk_employee" /\
    column_cells out "Employee_name"
    = map (fun r => VStr (str (cell r "firstname") ++ " " ++ str (cell r "lastname")))
        (rows employees_df) /\
    column_cells out "territories"
    = map (fun _ => VStr "Unknown") (rows employees_df) /\
    column_cells out "sales_region"
    = map (fun _ => VStr "Unknown") (rows employees_df).
Proof.
  intros Hwf Hne Hfn Hln Hfree Hnone.
  unfold create_employee_dimension. rewrite Hne. unfold copy.
  set (mapping := [("employeeid", "bk_employee_id"); ("firstname", "first_name");
                   ("lastname", "last_name")]).
  set (d0 := rename employees_df mapping).
  assert (Hfree' : forall c, In c ["bk_employee_id"; "first_name"; "last_name"] ->
                             ~ In c (columns employees_df)).
  { rewrite forallb_forall in Hfree. intros c Hc Hin. specialize (Hfree c Hc).
    apply negb_true_iff in Hfree. apply has_column_In in Hin. congruence. }
  assert (Hin0 : forall k, In k (columns employees_df) ->
                           In (rename_label mapping k) (columns d0))
    by (intros k Hk; unfold d0, rename; cbn [columns]; now apply in_map).
  assert (Hfirst : column_cells d0 "first_name" = column_cells employees_df "firstname").
  { apply (column_cells_rename employees_df mapping "firstname" Hwf). intros k Hk.
    change (rename_label mapping "firstname") with "first_name".
    unfold mapping. cbn [rename_label].
    destruct (String.eqb "employeeid" k); [discriminate|].
    destruct (String.eqb "firstname" k) eqn:E2;
      [intros _; symmetry; now apply String.eqb_eq|].
    destruct (String.eqb "lastname" k); [discriminate|].
    intros ->. exfalso. apply (Hfree' "first_name"); simpl; auto. }
  assert (Hlast : column_cells d0 "last_name" = column_cells employees_df "lastname").
  { apply (column_cells_rename employees_df mapping "lastname" Hwf). intros k Hk.
    change (rename_label mapping "lastname") with "last_name".
    unfold mapping. cbn [rename_label].
    destruct (String.eqb "employeeid" k); [discriminate|].
    destruct (String.eqb "firstname" k); [discriminate|].
    destruct (String.eqb "lastname" k) eqn:E3;
      [intros _; symmetry; now apply String.eqb_eq|].
    intros ->. exfalso. apply (Hfree' "last_name"); simpl; auto. }
  rewrite (getitem_column d0 "first_name")
    by (apply (Hin0 "firstname"); now apply has_column_In).
  rewrite (getitem_column d0 "last_name")
    by (apply (Hin0 "lastname"); now apply has_column_In).
  cbn [bind]. rewrite Hfirst, Hlast. unfold column_cells at 1 2.
  rewrite combine_map, map_map. cbn [fst snd]. unfold full_name.
  destruct (setitem_facts_Ok d0 "Employee_name"
              (map (fun r => VStr (str (cell r "firstname") ++ " " ++
                                   str (cell r "lastname"))) (rows employees_df)))
    as (d1 & -> & Hd1); [rewrite length_map; unfold d0; now rewrite len_rename|].
  destruct Hd1 as (L1 & A1 & K1 & C1 & W1). cbn [bind].
  destruct (setitem_facts_Ok d1 "sk_employee" (range 1 (len d1 + 1)))
    as (d2 & -> & Hd2); [rewrite range_length; lia|].
  destruct Hd2 as (L2 & A2 & K2 & C2 & W2). cbn [bind].
  rewrite (add_territory_info_unknown _ _ _ _ Hnone). cbn [bind].
  set (d3 := setitem_scalar _ "territories" _).
  set (d4 := setitem_scalar d3 "sales_region" _).
  rewrite select_available.
  assert (Len : len d4 = len employees_df).
  { unfold d4, d3. rewrite !len_setitem_scalar, L2, L1. unfold d0. apply len_rename. }
  assert (Has : forall c, In c ["sk_employee"; "Employee_name"; "sales_region";
                                "territories"] -> has_column d4 c = true).
  { intros c Hc. unfold d4, d3. rewrite !has_column_setitem_scalar.
    rewrite <- !orb_assoc. apply orb_true_iff.
    simpl in Hc. destruct Hc as [<-|[<-|[<-|[<-|[]]]]].
    - left. apply has_column_In, C2. now right.
    - left. apply has_column_In, C2. left. apply C1. now right.
    - right. reflexivity.
    - right. reflexivity. }
  assert (Fin : forall c, In c ["sk_employee"; "Employee_name"; "sales_region";
                                "territories"] ->
                column_cells
                  (mkDataFrame (filter (has_column d4)
                     ["sk_employee"; "bk_employee_id"; "Employee_name"; "title"; "city";
                      "country"; "sales_region"; "territories"])
                     (map (reindex (filter (has_column d4)
                        ["sk_employee"; "bk_employee_id"; "Employee_name"; "title";
                         "city"; "country"; "sales_region"; "territories"])) (rows d4))) c
                = column_cells d4 c).
  { intros c Hc. apply (column_cells_select d4 _ _ c (select_available d4 _)).
    apply filter_In. split; [simpl in *; tauto | now apply Has]. }
  eexists. split; [reflexivity|].
  split; [unfold len at 1; cbn [rows]; rewrite length_map; exact Len|].
  split; [|split; [|split]].
  - unfold dense_keys. rewrite Fin by (simpl; auto).
    unfold len at 1. cbn [rows]. rewrite length_map. fold (len d4).
    unfold d4, d3. rewrite !column_cells_setitem_scalar by discriminate.
    rewrite A2, !len_setitem_scalar, L2. reflexivity.
  - rewrite Fin by (simpl; auto). unfold d4, d3.
    rewrite !column_cells_setitem_scalar by discriminate.
    rewrite K2 by discriminate. exact A1.
  - rewrite Fin by (simpl; auto 10). unfold d4.
    rewrite column_cells_setitem_scalar by discriminate. unfold d3.
    rewrite column_cells_setitem_scalar_same. apply map_const_length.
    fold (len d2) (len employees_df). rewrite L2, L1. unfold d0. apply len_rename.
  - rewrite Fin by (simpl; auto 10). unfold d4.
    rewrite column_cells_setitem_scalar_same. apply map_const_length.
    fold (len d3) (len employees_df). unfold d3.
    rewrite len_setitem_scalar, L2, L1. unfold d0. apply len_rename.
Qed.

End EmployeeUnknown.

Lemma create_employee_dimension_unknown_witness :
  exists out,
    create_employee_dimension (P := Sample.pandas) Sample.employees
      DataFrame_new Sample.territories Sample.region = Ok out /\
    len out = 3%nat /\
    dense_keys out "sk_employee" /\
    column_cells out "Employee_name"
    = [VStr "Nancy Davolio"; VStr "Andrew Fuller"; VStr "Janet Leverling"] /\
    column_cells out "territories"
    = [VStr "Unknown"; VStr "Unknown"; VStr "Unknown"] /\
    column_cells out "sales_region"
    = [VStr "Unknown"; VStr "Unknown"; VStr "Unknown"].
Proof.
  assert (Hwf : well_formed Sample.employees) by (repeat constructor).
  exact (create_employee_dimension_unknown (P := Sample.pandas) Sample.employees
           DataFrame_new Sample.territories Sample.region
           Hwf eq_refl eq_refl eq_refl eq_refl eq_refl).
Defined.

(** ** Grouping *)

Lemma filter_filter {A : Type} (p q : A -> bool) (l : list A) :
  filter p (filter q l) = filter (fun a => q a && p a) l.
Proof.
  induction l as [|a l IH]; simpl; [reflexivity|].
  destruct (q a); simpl; [|exact IH]. destruct (p a); now rewrite IH.
Qed.

Lemma map_fst_combine {A B : Type} (l : list A) (l' : list B) :
  List.length l = List.length l' -> map fst (combine l l') = l.
Proof.
  revert l'. induction l as [|a l IH]; destruct l' as [|b l']; simpl; try discriminate;
    [reflexivity|]. intros H. f_equal. apply IH. now inversion H.
Qed.

Section Groupby.

Variables (df : DataFrame) (key col name : string) (f : list value -> result value).

(** The rows of a group: those with the key, which is not missing. *)
Lemma groupby_apply_inv g :
  groupby_apply df key col f name = Ok g ->
  exists vs,
    Forall2 (fun k v =>
               f (map (fun r => cell r col)
                    (filter (fun r => notnull (cell r key) && value_eqb (cell r key) k)
                       (rows df))) = Ok v)
      (sort value_leb (unique (map (fun r => cell r key)
                                 (filter (fun r => notnull (cell r key)) (rows df)))))
      vs /\
    g = mkDataFrame [key; name]
          (map (fun kv => [(key, fst kv); (name, snd kv)])
             (combine (sort value_leb
                         (unique (map (fun r => cell r key)
                                    (filter (fun r => notnull (cell r key)) (rows df)))))
                vs)).
Proof.
  unfold groupby_apply. destruct (has_column df key); [|discriminate].
  destruct (has_column df col); [|discriminate]. cbn [negb].
  intros H. inv_bind_as H vs Evs. inversion H; subst g. exists vs.
  split; [|reflexivity]. apply mapM_Forall2 in Evs.
  eapply Forall2_impl; [|exact Evs]. intros k v Hv. cbv beta in Hv.
  now rewrite filter_filter in Hv.
Qed.

Lemma group_keys_In (k : value) :
  In k (sort value_leb (unique (map (fun r => cell r key)
                                  (filter (fun r => notnull (cell r key)) (rows df)))))
  <-> filter (fun r => notnull (cell r key) && value_eqb (cell r key) k) (rows df) <> [].
Proof.
  rewrite sort_In, unique_In, in_map_iff. split.
  - intros (r & <- & Hr). apply filter_In in Hr. destruct Hr as [Hr Hn].
    intros E. assert (Hin : In r (filter (fun r0 => notnull (cell r0 key) &&
                                          value_eqb (cell r0 key) (cell r key)) (rows df))).
    { apply filter_In. split; [exact Hr|]. now rewrite Hn, value_eqb_refl. }
    rewrite E in Hin. destruct Hin.
  - intros Hne. destruct (filter _ (rows df)) as [|r rs] eqn:E; [congruence|].
    assert (Hin : In r (r :: rs)) by now left. rewrite <- E in Hin.
    apply filter_In in Hin. destruct Hin as [Hr Hp].
    apply andb_true_iff in Hp. destruct Hp as [Hn He].
    apply value_eqb_eq in He. exists r. split; [exact He|].
    apply filter_In. auto.
Qed.

(** Looking a key up in the result of the grouping. *)
Lemma groupby_find g (k0 : value) :
  key <> name ->
  groupby_apply df key col f name = Ok g ->
  match find (fun b => value_eqb k0 (cell b key)) (rows g) with
  | Some b =>
      filter (fun r => notnull (cell r key) && value_eqb (cell r key) k0) (rows df) <> [] /\
      f (map (fun r => cell r col)
           (filter (fun r => notnull (cell r key) && value_eqb (cell r key) k0)
              (rows df))) = Ok (cell b name)
  | None =>
      filter (fun r => notnull (cell r key) && value_eqb (cell r key) k0) (rows df) = []
  end.
Proof.
  intros Hkn H. destruct (groupby_apply_inv g H) as (vs & Hvs & ->). cbn [rows].
  pose proof (group_keys_In k0) as Hin. revert Hin. clear H.
  generalize dependent vs.
  generalize (sort value_leb
                (unique (map (fun r => cell r key)
                           (filter (fun r => notnull (cell r key)) (rows df))))).
  intros keys vs Hvs. induction Hvs as [|k v keys vs Hkv _ IH]; intros Hin.
  - simpl. destruct (filter _ (rows df)) eqn:E; [reflexivity|].
    exfalso. apply (proj2 Hin). congruence.
  - simpl. unfold cell at 1. simpl. rewrite String.eqb_refl.
    destruct (value_eqb k0 k) eqn:E.
    + apply value_eqb_eq in E. subst k0. split; [apply Hin; now left|].
      unfold cell. simpl. apply String.eqb_neq in Hkn. rewrite Hkn, String.eqb_refl.
      exact Hkv.
    + apply IH. rewrite <- Hin. simpl. split; [tauto|].
      intros [->|Hk]; [now rewrite value_eqb_refl in E | exact Hk].
Qed.

Lemma groupby_keys_NoDup g :
  key <> name ->
  groupby_apply df key col f name = Ok g ->
  columns g = [key; name] /\ NoDup (column_cells g key).
Proof.
  intros Hkn H. destruct (groupby_apply_inv g H) as (vs & Hvs & ->).
  split; [reflexivity|]. unfold column_cells. cbn [rows]. rewrite map_map.
  assert (E : map (fun x : value * value => cell [(key, fst x); (name, snd x)] key)
                (combine (sort value_leb
                            (unique (map (fun r => cell r key)
                                       (filter (fun r => notnull (cell r key))
                                          (rows df))))) vs)
              = map fst (combine (sort value_leb
                            (unique (map (fun r => cell r key)
                                       (filter (fun r => notnull (cell r key))
                                          (rows df))))) vs)).
  { apply map_ext. intros [k v]. unfold cell. simpl. now rewrite String.eqb_refl. }
  rewrite E, map_fst_combine by (eapply Forall2_length; exact Hvs).
  eapply Permutation_NoDup; [symmetry; apply sort_perm | apply unique_NoDup].
Qed.

End Groupby.

(** ** Joins of frames that share labels *)

Section MergeOverlap.

Variables (l r : DataFrame) (left_on right_on : string).

Lemma cell_left_part (a t : row) (c : string) :
  In c (columns l) ->
  ~ In c (overlap l r left_on right_on) ->
  (forall c0, In c0 (overlap l r left_on right_on) -> (c0 ++ "_x")%string <> c) ->
  cell (left_part l r left_on right_on a ++ t) c = cell a c.
Proof.
  intros Hc Hno Hx.
  assert (Hs : suffixed (overlap l r left_on right_on) "_x" c = c)
    by (unfold suffixed; apply mem_false in Hno; now rewrite Hno).
  assert (Hl : lookup c (left_part l r left_on right_on a) = Some (cell a c)).
  { unfold left_part. rewrite <- Hs at 1.
    apply (lookup_relabel (suffixed (overlap l r left_on right_on) "_x") (cell a)
             (columns l) c Hc).
    intros c0 Hc0 E. rewrite Hs in E. unfold suffixed in E.
    destruct (mem c0 (overlap l r left_on right_on)) eqn:Em.
    - apply mem_In in Em. exfalso. exact (Hx c0 Em E).
    - now subst. }
  unfold cell at 1. now rewrite lookup_app, Hl.
Qed.

Lemma lookup_left_part_None (a : row) (c : string) :
  ~ In c (columns l) ->
  (forall c0, In c0 (overlap l r left_on right_on) -> (c0 ++ "_x")%string <> c) ->
  lookup c (left_part l r left_on right_on a) = None.
Proof.
  intros Hc Hx. unfold left_part. apply lookup_relabel_None.
  intros c0 Hc0 E. unfold suffixed in E.
  destruct (mem c0 (overlap l r left_on right_on)) eqn:Em.
  - apply mem_In in Em. exact (Hx c0 Em E).
  - subst. contradiction.
Qed.

Lemma overlap_left (c : string) :
  In c (overlap l r left_on right_on) -> In c (columns l).
Proof. unfold overlap. rewrite filter_In. tauto. Qed.

Lemma cell_right_part (a b : row) (c : string) :
  ~ In c (columns l) ->
  In c (right_labels r left_on right_on) ->
  (forall c0, In c0 (overlap l r left_on right_on) ->
              (c0 ++ "_x")%string <> c /\ (c0 ++ "_y")%string <> c) ->
  cell (left_part l r left_on right_on a ++ right_part l r left_on right_on b) c
  = cell b c.
Proof.
  intros Hc Hr Hxy. unfold cell at 1.
  rewrite lookup_app, lookup_left_part_None by (auto; intros c0 H0; apply Hxy, H0).
  assert (Hno : ~ In c (overlap l r left_on right_on))
    by (intros H; apply Hc; now apply overlap_left).
  assert (Hs : suffixed (overlap l r left_on right_on) "_y" c = c)
    by (unfold suffixed; apply mem_false in Hno; now rewrite Hno).
  unfold right_part. rewrite <- Hs at 1.
  rewrite (lookup_relabel (suffixed (overlap l r left_on right_on) "_y") (cell b)
             (right_labels r left_on right_on) c Hr); [reflexivity|].
  intros c0 Hc0 E. rewrite Hs in E. unfold suffixed in E.
  destruct (mem c0 (overlap l r left_on right_on)) eqn:Em.
  - apply mem_In in Em. exfalso. exact (proj2 (Hxy c0 Em) E).
  - now subst.
Qed.

Lemma cell_null_part (a : row) (c : string) :
  ~ In c (columns l) ->
  (forall c0, In c0 (overlap l r left_on right_on) -> (c0 ++ "_x")%string <> c) ->
  cell (left_part l r left_on right_on a ++ null_part l r left_on right_on) c = NaN.
Proof.
  intros Hc Hx. unfold cell. rewrite lookup_app, lookup_left_part_None by assumption.
  unfold null_part.
  induction (right_labels r left_on right_on) as [|c0 cs IH]; simpl; [reflexivity|].
  destruct (String.eqb _ c); [reflexivity | exact IH].
Qed.

(** A left join against distinct keys, when the frames share labels. *)
Lemma merge_left_cells_overlap m :
  NoDup (column_cells r right_on) ->
  merge l r left_on right_on left = Ok m ->
  len m = len l /\
  (forall c, In c (columns l) ->
     ~ In c (overlap l r left_on right_on) ->
     (forall c0, In c0 (overlap l r left_on right_on) -> (c0 ++ "_x")%string <> c) ->
     column_cells m c = column_cells l c) /\
  (forall c, ~ In c (columns l) -> In c (right_labels r left_on right_on) ->
     (forall c0, In c0 (overlap l r left_on right_on) ->
                 (c0 ++ "_x")%string <> c /\ (c0 ++ "_y")%string <> c) ->
     column_cells m c
     = map (fun a => match find (fun b => value_eqb (cell a left_on) (cell b right_on))
                             (rows r) with
                     | Some b => cell b c
                     | None => NaN
                     end) (rows l)).
Proof.
  intros Hnd H.
  assert (Hrows : rows m = flat_map (merge_row l r left_on right_on left) (rows l)).
  { unfold merge in H. destruct (has_column l left_on); [|discriminate].
    destruct (has_column r right_on); [|discriminate]. simpl in H.
    now inversion H. }
  assert (Hrows' : rows m
            = map (fun a => left_part l r left_on right_on a ++
                     match find (fun b => value_eqb (cell a left_on) (cell b right_on))
                             (rows r) with
                     | Some b => right_part l r left_on right_on b
                     | None => null_part l r left_on right_on
                     end) (rows l)).
  { rewrite Hrows, <- flat_map_singleton. apply flat_map_ext. intros a.
    unfold merge_row, matches.
    rewrite (filter_find_unique (fun b => cell b right_on) (cell a left_on) (rows r) Hnd).
    now destruct (find _ (rows r)). }
  unfold len, column_cells. rewrite Hrows'. split; [apply length_map|].
  split; intros c Hc.
  - intros Hno Hx. rewrite map_map. apply map_ext. intros a.
    now apply cell_left_part.
  - intros Hr Hxy. rewrite map_map. apply map_ext. intros a.
    destruct (find _ (rows r)) as [b|].
    + now apply cell_right_part.
    + apply cell_null_part; [exact Hc|]. intros c0 H0. apply Hxy, H0.
Qed.

End MergeOverlap.

(** ** Dropping columns *)

Lemma cell_drop (cols : list string) (r : row) (c : string) :
  ~ In c cols ->
  cell (filter (fun kv => negb (mem (fst kv) cols)) r) c = cell r c.
Proof.
  intros Hc. unfold cell. induction r as [|[k v] r IH]; simpl; [reflexivity|].
  destruct (mem k cols) eqn:Em; simpl.
  - destruct (String.eqb k c) eqn:E; [|exact IH].
    apply String.eqb_eq in E. subst k. apply mem_In in Em. contradiction.
  - destruct (String.eqb k c); [reflexivity | exact IH].
Qed.

Lemma column_cells_drop df cols c :
  ~ In c cols -> column_cells (drop df cols) c = column_cells df c.
Proof.
  intros Hc. unfold column_cells, drop. cbn [rows]. rewrite map_map.
  apply map_ext. intros r. now apply cell_drop.
Qed.

Lemma len_drop df cols : len (drop df cols) = len df.
Proof. unfold len, drop. cbn [rows]. apply length_map. Qed.

(** ** add_territory_info: the aggregation per employee *)

Lemma Forall2_map_fun {A B : Type} (R : A -> B -> Prop) (g : A -> B) (l : list A) :
  (forall a, In a l -> R a (g a)) -> Forall2 R l (map g l).
Proof.
  induction l as [|a l IH]; simpl; intros H; constructor; auto.
Qed.

(** One aggregated column, filled: a row without assignment gets the
    default, another one what the aggregation makes of its group. *)
Lemma aggregated_cells (merged g : DataFrame) (col name lo : string)
    (f : list value -> result value) (default : value) (ls : list row) :
  "employeeid" <> name ->
  groupby_apply merged "employeeid" col f name = Ok g ->
  Forall2 (fun a t =>
             match assignments_of merged (cell a lo) with
             | [] => t = default
             | _ :: _ =>
                 exists v,
                   f (map (fun r => cell r col) (assignments_of merged (cell a lo)))
                   = Ok v /\
                   t = match v with NaN => default | _ => v end
             end)
    ls
    (fillna default
       (map (fun a => match find (fun b => value_eqb (cell a lo) (cell b "employeeid"))
                               (rows g) with
                      | Some b => cell b name
                      | None => NaN
                      end) ls)).
Proof.
  intros Hkn Hg. unfold fillna. rewrite map_map. apply Forall2_map_fun.
  intros a _. pose proof (groupby_find merged "employeeid" col name f g (cell a lo) Hkn Hg)
    as Hfind. fold (assignments_of merged (cell a lo)) in Hfind.
  destruct (find _ (rows g)) as [b|].
  - destruct Hfind as [Hne Hv].
    destruct (assignments_of merged (cell a lo)) as [|r rs] eqn:E; [congruence|].
    exists (cell b name). split; [exact Hv | reflexivity].
  - now rewrite Hfind.
Qed.

Lemma merge_has_keys l r left_on right_on h m :
  merge l r left_on right_on h = Ok m ->
  has_column l left_on = true /\ has_column r right_on = true.
Proof.
  unfold merge. destruct (has_column l left_on); [|discriminate].
  destruct (has_column r right_on); [|discriminate]. auto.
Qed.

Section Territories.

Context {P : Pandas}.

(** The steps after the two aggregations, column by column. *)
Lemma add_territory_info_cells
    (employee_dim emp_terr_df territories_df regions_df merged out : DataFrame) :
  empty emp_terr_df || empty territories_df = false ->
  forallb (fun c => negb (has_column employee_dim c))
    ["employeeid"; "territories"; "sales_region"; "employeeid_x"; "employeeid_y"] = true ->
  merged_assignments emp_terr_df territories_df regions_df = Ok merged ->
  add_territory_info employee_dim emp_terr_df territories_df regions_df = Ok out ->
  exists tpe rpe,
    groupby_apply merged "employeeid" "territorydescription" join_all "territories"
    = Ok tpe /\
    groupby_apply merged "employeeid" "regiondescription" join_set "sales_region"
    = Ok rpe /\
    len out = len employee_dim /\
    (forall c, In c (columns employee_dim) ->
               column_cells out c = column_cells employee_dim c) /\
    column_cells out "territories"
    = fillna (VStr "No Territory")
        (map (fun a => match find (fun b => value_eqb (cell a "bk_employee_id")
                                              (cell b "employeeid")) (rows tpe) with
                       | Some b => cell b "territories"
                       | None => NaN
                       end) (rows employee_dim)) /\
    column_cells out "sales_region"
    = fillna (VStr "No Region")
        (map (fun a => match find (fun b => value_eqb (cell a "bk_employee_id")
                                              (cell b "employeeid")) (rows rpe) with
                       | Some b => cell b "sales_region"
                       | None => NaN
                       end) (rows employee_dim)).
Proof.
  intros Hne Hcols Hm H. unfold add_territory_info in H. rewrite Hne, Hm in H.
  cbn [bind] in H.
  inv_bind_as H tpe Etpe. inv_bind_as H rpe Erpe.
  inv_bind_as H e1 E1. inv_bind_as H e2 E2.
  inv_bind_as H t Et. inv_bind_as H e3 E3.
  inv_bind_as H s Es. inv_bind_as H e4 E4.
  inversion H; subst out. clear H.
  exists tpe, rpe. split; [exact Etpe|]. split; [exact Erpe|].
  cbn [forallb] in Hcols. rewrite !andb_true_iff, !negb_true_iff in Hcols.
  destruct Hcols as (Hid & Hterr & Hreg & Hidx & Hidy & _).
  assert (Nid : ~ In "employeeid" (columns employee_dim))
    by (rewrite <- has_column_In; congruence).
  assert (Nterr : ~ In "territories" (columns employee_dim))
    by (rewrite <- has_column_In; congruence).
  assert (Nreg : ~ In "sales_region" (columns employee_dim))
    by (rewrite <- has_column_In; congruence).
  assert (Nidx : ~ In "employeeid_x" (columns employee_dim))
    by (rewrite <- has_column_In; congruence).
  assert (Nidy : ~ In "employeeid_y" (columns employee_dim))
    by (rewrite <- has_column_In; congruence).
  destruct (groupby_keys_NoDup merged "employeeid" "territorydescription" "territories"
              join_all tpe ltac:(discriminate) Etpe) as [Ctpe Ktpe].
  destruct (groupby_keys_NoDup merged "employeeid" "regiondescription" "sales_region"
              join_set rpe ltac:(discriminate) Erpe) as [Crpe Krpe].
  (* the first join shares no label *)
  assert (R1 : right_labels tpe "bk_employee_id" "employeeid"
               = ["employeeid"; "territories"])
    by (unfold right_labels; now rewrite Ctpe).
  assert (Hov1 : overlap employee_dim tpe "bk_employee_id" "employeeid" = []).
  { unfold overlap. rewrite R1. apply filter_nil_iff. intros c Hc.
    apply mem_false. intros [<-|[<-|[]]]; contradiction. }
  destruct (merge_left_cells employee_dim tpe "bk_employee_id" "employeeid" Hov1 e1
              Ktpe E1) as (L1 & Same1 & New1).
  destruct (merge_inv employee_dim tpe "bk_employee_id" "employeeid" left Hov1 e1 E1)
    as (Hbk & _ & C1 & _).
  rewrite R1 in C1, New1.
  (* the second join shares the label employeeid *)
  assert (R2 : right_labels rpe "bk_employee_id" "employeeid"
               = ["employeeid"; "sales_region"])
    by (unfold right_labels; now rewrite Crpe).
  assert (Hov2 : forall c0, In c0 (overlap e1 rpe "bk_employee_id" "employeeid") ->
                            c0 = "employeeid").
  { intros c0 Hc0. unfold overlap in Hc0. rewrite R2 in Hc0.
    apply filter_In in Hc0. destruct Hc0 as [Hin Hmem].
    apply mem_In in Hmem. destruct Hmem as [<-|[<-|[]]]; [reflexivity|].
    rewrite C1 in Hin. apply in_app_iff in Hin.
    destruct Hin as [Hin|[Hin|[Hin|[]]]]; [contradiction | discriminate | discriminate]. }
  destruct (merge_left_cells_overlap e1 rpe "bk_employee_id" "employeeid" e2 Krpe E2)
    as (L2 & Same2 & New2).
  rewrite R2 in New2.
  assert (Keep2 : forall c, In c (columns e1) -> c <> "employeeid" ->
                            c <> "employeeid_x" ->
                            column_cells e2 c = column_cells e1 c).
  { intros c Hc N1 N2. apply Same2; [exact Hc | |].
    - intros Hin. apply Hov2 in Hin. contradiction.
    - intros c0 Hc0 E. apply Hov2 in Hc0. subst c0. apply N2. now rewrite <- E. }
  assert (Hreg2 : column_cells e2 "sales_region"
                  = map (fun a => match find (fun b => value_eqb (cell a "bk_employee_id")
                                                       (cell b "employeeid")) (rows rpe) with
                                  | Some b => cell b "sales_region"
                                  | None => NaN
                                  end) (rows e1)).
  { apply New2.
    - rewrite C1, in_app_iff. intros [Hin|[Hin|[Hin|[]]]];
        [contradiction | discriminate | discriminate].
    - simpl. auto.
    - intros c0 Hc0. apply Hov2 in Hc0. subst c0. split; discriminate. }
  apply getitem_cells in Et, Es.
  destruct (setitem_facts _ _ _ _ E3) as (L3 & Set3 & Other3 & _).
  destruct (setitem_facts _ _ _ _ E4) as (L4 & Set4 & Other4 & _).
  assert (Hbk_in : In "bk_employee_id" (columns employee_dim))
    by now apply has_column_In.
  split; [now rewrite len_drop, L4, L3, L2, L1|].
  split; [|split].
  - intros c Hc. rewrite column_cells_drop.
    2:{ intros [<-|[<-|[]]]; contradiction. }
    rewrite Other4 by (intros <-; contradiction).
    rewrite Other3 by (intros <-; contradiction).
    rewrite Keep2.
    + now apply Same1.
    + rewrite C1. apply in_app_iff. now left.
    + intros ->. contradiction.
    + intros ->. contradiction.
  - rewrite column_cells_drop by (intros [E|[E|[]]]; discriminate).
    rewrite Other4 by discriminate. rewrite Set3, Et.
    rewrite Keep2; [| rewrite C1; apply in_app_iff; right; simpl; auto
                    | discriminate | discriminate].
    f_equal. apply New1; [exact Nterr | simpl; auto].
  - rewrite column_cells_drop by (intros [E|[E|[]]]; discriminate).
    rewrite Set4, Es. rewrite Other3 by discriminate. rewrite Hreg2. f_equal.
    pose proof (Same1 "bk_employee_id" Hbk_in) as Hkeys. unfold column_cells in Hkeys.
    set (G := fun k : value =>
                match find (fun b => value_eqb k (cell b "employeeid")) (rows rpe) with
                | Some b => cell b "sales_region"
                | None => NaN
                end).
    change (map (fun a => G (cell a "bk_employee_id")) (rows e1)
            = map (fun a => G (cell a "bk_employee_id")) (rows employee_dim)).
    rewrite <- (map_map (fun a => cell a "bk_employee_id") G (rows e1)).
    rewrite <- (map_map (fun a => cell a "bk_employee_id") G (rows employee_dim)).
    now rewrite Hkeys.
Qed.

End Territories.

(** ** The two absence cases of the territory step (claim C6) *)

Section TerritoryAggregation.

Context {P : Pandas} {Laws : PandasLaws P}.

(** C6: the territory step keeps the rows of the employees.  When the
    table of assignments or the table of territories is empty, it gives
    every employee [Unknown] as territories and as sales region.
    Otherwise the two columns are read off the assignments joined to
    their territories and regions: an employee without a joined
    assignment gets [No Territory] and [No Region]; an employee with
    joined assignments gets, as territories, their territory descriptions
    in row order, repetitions included, joined by a comma and a space,
    and, as sales region, their region descriptions, each once, in some
    order, joined by a comma and a space. *)
Theorem territory_enricher_cases
    (employee_dim emp_terr_df territories_df regions_df out : DataFrame) :
  forallb (fun c => negb (has_column employee_dim c))
    ["employeeid"; "territories"; "sales_region"; "employeeid_x"; "employeeid_y"] = true ->
  add_territory_info employee_dim emp_terr_df territories_df regions_df = Ok out ->
  len out = len employee_dim /\
  if empty emp_terr_df || empty territories_df
  then
    column_cells out "territories" = map (fun _ => VStr "Unknown") (rows employee_dim) /\
    column_cells out "sales_region" = map (fun _ => VStr "Unknown") (rows employee_dim)
  else
    exists merged,
      merged_assignments emp_terr_df territories_df regions_df = Ok merged /\
      Forall2 (fun a t =>
                 match assignments_of merged (cell a "bk_employee_id") with
                 | [] => t = VStr "No Territory"
                 | _ :: _ =>
                     exists strs,
                       strings_of (map (fun r => cell r "territorydescription")
                                     (assignments_of merged (cell a "bk_employee_id")))
                       = Ok strs /\
                       t = VStr (Str.join ", " strs)
                 end)
        (rows employee_dim) (column_cells out "territories") /\
      Forall2 (fun a t =>
                 match assignments_of merged (cell a "bk_employee_id") with
                 | [] => t = VStr "No Region"
                 | _ :: _ =>
                     exists strs once,
                       strings_of (map (fun r => cell r "regiondescription")
                                     (assignments_of merged (cell a "bk_employee_id")))
                       = Ok strs /\
                       NoDup once /\ (forall x, In x once <-> In x strs) /\
                       t = VStr (Str.join ", " once)
                 end)
        (rows employee_dim) (column_cells out "sales_region").
Proof.
  intros Hcols H.
  destruct (empty emp_terr_df || empty territories_df) eqn:Hne.
  { rewrite (add_territory_info_unknown _ _ _ _ Hne) in H. inversion H.
    rewrite !len_setitem_scalar. split; [reflexivity|]. split.
    - rewrite column_cells_setitem_scalar by discriminate.
      apply column_cells_setitem_scalar_same.
    - rewrite column_cells_setitem_scalar_same. apply map_const_length.
      fold (len (setitem_scalar employee_dim "territories" (VStr "Unknown"))).
      apply len_setitem_scalar. }
  assert (Hm : exists merged,
             merged_assignments emp_terr_df territories_df regions_df = Ok merged).
  { destruct (merged_assignments emp_terr_df territories_df regions_df) as [m|e] eqn:Em;
      [now exists m|].
    unfold add_territory_info in H. rewrite Hne, Em in H. discriminate. }
  destruct Hm as [merged Hm].
  destruct (add_territory_info_cells _ _ _ _ _ _ Hne Hcols Hm H)
    as (tpe & rpe & Etpe & Erpe & Hlen & _ & Hterr & Hreg).
  split; [exact Hlen|]. exists merged. split; [exact Hm|]. split.
  - rewrite Hterr.
    eapply Forall2_impl;
      [|exact (aggregated_cells merged tpe "territorydescription" "territories"
                 "bk_employee_id" join_all (VStr "No Territory") (rows employee_dim)
                 ltac:(discriminate) Etpe)].
    intros a t Ht. cbv beta in Ht |- *.
    destruct (assignments_of merged (cell a "bk_employee_id")) as [|r rs];
      [exact Ht|].
    destruct Ht as (v & Hv & ->). unfold join_all in Hv.
    inv_bind_as Hv strs Estrs. inversion Hv; subst v.
    exists strs. split; [exact Estrs | reflexivity].
  - rewrite Hreg.
    eapply Forall2_impl;
      [|exact (aggregated_cells merged rpe "regiondescription" "sales_region"
                 "bk_employee_id" join_set (VStr "No Region") (rows employee_dim)
                 ltac:(discriminate) Erpe)].
    intros a t Ht. cbv beta in Ht |- *.
    destruct (assignments_of merged (cell a "bk_employee_id")) as [|r rs];
      [exact Ht|].
    destruct Ht as (v & Hv & ->). unfold join_set in Hv.
    inv_bind_as Hv strs Estrs. inversion Hv; subst v.
    exists strs, (set_iteration strs). split; [exact Estrs|].
    split; [apply set_iteration_NoDup|]. split; [apply set_iteration_In | reflexivity].
Qed.

End TerritoryAggregation.

Lemma territory_enricher_cases_witness :
  (exists out,
     add_territory_info (P := Sample.pandas) Sample.dim_employee
       Sample.employeeterritories Sample.territories Sample.region = Ok out /\
     len out = 3%nat /\
     column_cells out "territories"
     = [VStr "Wilton"; VStr "Westboro, Bedford, Westboro"; VStr "No Territory"] /\
     column_cells out "sales_region"
     = [VStr "Western"; VStr "Eastern"; VStr "No Region"]) /\
  (exists out,
     add_territory_info (P := Sample.pandas) Sample.dim_employee
       DataFrame_new Sample.territories Sample.region = Ok out /\
     column_cells out "territories" = [VStr "Unknown"; VStr "Unknown"; VStr "Unknown"] /\
     column_cells out "sales_region" = [VStr "Unknown"; VStr "Unknown"; VStr "Unknown"]).
Proof.
  split.
  - destruct (add_territory_info (P := Sample.pandas) Sample.dim_employee
                Sample.employeeterritories Sample.territories Sample.region)
      as [out|e] eqn:E; [|vm_compute in E; discriminate].
    destruct (territory_enricher_cases (P := Sample.pandas) (Laws := sample_laws)
                Sample.dim_employee Sample.employeeterritories Sample.territories
                Sample.region out eq_refl E) as [Hlen _].
    exists out. split; [reflexivity|]. split; [exact Hlen|].
    vm_compute in E. inversion E. split; reflexivity.
  - destruct (add_territory_info (P := Sample.pandas) Sample.dim_employee
                DataFrame_new Sample.territories Sample.region)
      as [out|e] eqn:E; [|vm_compute in E; discriminate].
    destruct (territory_enricher_cases (P := Sample.pandas) (Laws := sample_laws)
                Sample.dim_employee DataFrame_new Sample.territories
                Sample.region out eq_refl E) as [_ Hcase].
    exists out. split; [reflexivity|]. exact Hcase.
Defined.

(** ** The assignments joined to their territories and regions *)











Section TerritoriesDescribed.

Context {P : Pandas}.



End TerritoriesDescribed.




(** * The loader, the keys and the fact table, claim by claim *)

(** ** The row the loader keeps for a key (claim C1) *)





(** ** Dense surrogate keys (claim C2) *)

Lemma merge_keeps_label l r left_on right_on h m c :
  merge l r left_on right_on h = Ok m ->
  In c (columns l) -> ~ In c (overlap l r left_on right_on) ->
  In c (columns m).
Proof.
  unfold merge. destruct (has_column l left_on); [|discriminate].
  destruct (has_column r right_on); [|discriminate]. cbn [negb].
  intros H Hc Hno. inversion H. cbn [columns]. apply in_app_iff. left.
  apply in_map_iff. exists c. split; [|exact Hc].
  unfold suffixed. apply mem_false in Hno. now rewrite Hno.
Qed.

Lemma overlap_right l r left_on right_on c :
  In c (overlap l r left_on right_on) -> In c (right_labels r left_on right_on).
Proof. unfold overlap. rewrite filter_In. intros [_ H]. now apply mem_In. Qed.

Section DenseKeys.

Context {P : Pandas}.

(** A column the territory step neither adds nor uses as a scratch label
    goes through it as it is, and so does the number of rows. *)
Lemma add_territory_info_keeps
    (employee_dim emp_terr_df territories_df regions_df out : DataFrame) (c : string) :
  add_territory_info employee_dim emp_terr_df territories_df regions_df = Ok out ->
  In c (columns employee_dim) ->
  ~ In c ["employeeid"; "territories"; "sales_region"; "employeeid_x"; "employeeid_y";
          "territories_x"; "sales_region_x"] ->
  len out = len employee_dim /\
  column_cells out c = column_cells employee_dim c /\
  In c (columns out).
Proof.
  intros H Hc Hno. unfold add_territory_info in H.
  destruct (empty emp_terr_df || empty territories_df).
  - inversion H. rewrite !len_setitem_scalar.
    rewrite !column_cells_setitem_scalar
      by (intros <-; apply Hno; simpl; auto).
    split; [reflexivity|]. split; [reflexivity|].
    apply has_column_In. rewrite !has_column_setitem_scalar.
    apply has_column_In in Hc. now rewrite Hc.
  - inv_bind_as H merged Em.
    inv_bind_as H tpe Etpe. inv_bind_as H rpe Erpe.
    inv_bind_as H e1 E1. inv_bind_as H e2 E2.
    inv_bind_as H t Et. inv_bind_as H e3 E3.
    inv_bind_as H s Es. inv_bind_as H e4 E4.
    inversion H; subst out. clear H.
    destruct (groupby_keys_NoDup merged "employeeid" "territorydescription"
                "territories" join_all tpe ltac:(discriminate) Etpe) as [Ctpe Ktpe].
    destruct (groupby_keys_NoDup merged "employeeid" "regiondescription"
                "sales_region" join_set rpe ltac:(discriminate) Erpe) as [Crpe Krpe].
    assert (Hov1 : forall c0, In c0 (overlap employee_dim tpe "bk_employee_id" "employeeid") ->
                              c0 = "employeeid" \/ c0 = "territories").
    { intros c0 H0. apply overlap_right in H0. unfold right_labels in H0.
      rewrite Ctpe in H0. simpl in H0. intuition. }
    assert (Hov2 : forall c0, In c0 (overlap e1 rpe "bk_employee_id" "employeeid") ->
                              c0 = "employeeid" \/ c0 = "sales_region").
    { intros c0 H0. apply overlap_right in H0. unfold right_labels in H0.
      rewrite Crpe in H0. simpl in H0. intuition. }
    assert (N1 : ~ In c (overlap employee_dim tpe "bk_employee_id" "employeeid")).
    { intros H0. apply Hov1 in H0. apply Hno. simpl. intuition. }
    assert (N2 : ~ In c (overlap e1 rpe "bk_employee_id" "employeeid")).
    { intros H0. apply Hov2 in H0. apply Hno. simpl. intuition. }
    destruct (merge_left_cells_overlap employee_dim tpe "bk_employee_id" "employeeid"
                e1 Ktpe E1) as (L1 & Same1 & _).
    destruct (merge_left_cells_overlap e1 rpe "bk_employee_id" "employeeid"
                e2 Krpe E2) as (L2 & Same2 & _).
    pose proof (merge_keeps_label _ _ _ _ _ _ c E1 Hc N1) as Hc1.
    pose proof (merge_keeps_label _ _ _ _ _ _ c E2 Hc1 N2) as Hc2.
    destruct (setitem_facts _ _ _ _ E3) as (L3 & _ & Other3 & In3 & _).
    destruct (setitem_facts _ _ _ _ E4) as (L4 & _ & Other4 & In4 & _).
    split; [now rewrite len_drop, L4, L3, L2, L1|]. split.
    + rewrite column_cells_drop
        by (intros [<-|[<-|[]]]; apply Hno; simpl; auto 10).
      rewrite Other4 by (intros <-; apply Hno; simpl; auto).
      rewrite Other3 by (intros <-; apply Hno; simpl; auto).
      rewrite Same2; [|exact Hc1|exact N2|].
      * apply Same1; [exact Hc | exact N1 |].
        intros c0 H0 E. apply Hov1 in H0. apply Hno.
        destruct H0 as [-> | ->]; rewrite <- E; simpl; auto 10.
      * intros c0 H0 E. apply Hov2 in H0. apply Hno.
        destruct H0 as [-> | ->]; rewrite <- E; simpl; auto 10.
    + unfold drop. cbn [columns]. apply filter_In. split.
      * apply In4. left. apply In3. now left.
      * apply negb_true_iff, mem_false.
        intros [<-|[<-|[]]]; apply Hno; simpl; auto 10.
Qed.

Lemma create_employee_dimension_dense
    (employees_df emp_terr_df territories_df regions_df out : DataFrame) :
  create_employee_dimension employees_df emp_terr_df territories_df regions_df = Ok out ->
  dense_keys out "sk_employee".
Proof.
  unfold create_employee_dimension. destruct (empty employees_df).
  { intros H. inversion H. apply dense_keys_new. }
  intros H. inv_bind_as H fn Efn. inv_bind_as H ln Eln.
  inv_bind_as H d1 E1. inv_bind_as H d2 E2. inv_bind_as H d3 E3.
  destruct (setitem_facts _ _ _ _ E2) as (L2 & Set2 & _ & In2 & _).
  destruct (add_territory_info_keeps _ _ _ _ _ "sk_employee" E3) as (L3 & Same3 & Hin3).
  { apply In2. now right. }
  { simpl. intuition discriminate. }
  unfold dense_keys. rewrite (len_select _ _ _ H).
  rewrite (column_cells_select _ _ _ "sk_employee" H).
  - now rewrite Same3, Set2, L3, L2.
  - apply filter_In. split; [simpl; auto|]. now apply has_column_In.
Qed.

Lemma create_sales_fact_numbered
    (orders_df details_df client_dim employee_dim out : DataFrame) :
  create_sales_fact orders_df details_df client_dim employee_dim = Ok out ->
  dense_keys out "fact_id".
Proof.
  unfold create_sales_fact.
  destruct (empty orders_df || empty details_df).
  { intros H. inversion H. apply dense_keys_new. }
  intros H. inv_bind_as H joined Ejoin.
  destruct (if has_column joined "unitprice_x" then Some "unitprice_x"
            else if has_column joined "unitprice" then Some "unitprice" else None)
    as [price_column|].
  2:{ inversion H. apply dense_keys_new. }
  inv_bind_as H price Eprice. inv_bind_as H quantity Equantity.
  inv_bind_as H discount Ediscount. inv_bind_as H f1 E1.
  inv_bind_as H shipped Eshipped. inv_bind_as H f2 E2.
  inv_bind_as H f3 E3. inv_bind_as H f4 E4. inv_bind_as H f5 E5.
  inv_bind_as H od Eod. inv_bind_as H f6 E6. inv_bind_as H od' Eod'.
  inv_bind_as H f7 E7. inv_bind_as H dt Edt. inv_bind_as H sk Esk.
  inv_bind_as H f8 E8. inv_bind_as H f9 E9.
  eapply dense_after_numbering; [exact E9 | | exact H]. simpl. auto.
Qed.

Lemma create_client_dimension_numbered (customers_df out : DataFrame) :
  empty customers_df = false ->
  create_client_dimension customers_df = Ok out ->
  len out = len customers_df /\ In "sk_client" (columns out).
Proof.
  intros Hne H. unfold create_client_dimension in H. rewrite Hne in H.
  unfold copy in H. inv_bind_as H bk Ebk. inv_bind_as H d1 E1.
  set (d2 := fold_left _ _ d1) in H. inv_bind_as H d3 E3.
  destruct (geography_defaults_frame ["city"; "country"; "region"] d1 "sk_client")
    as (_ & _ & L2); [simpl; intuition discriminate|].
  cbv zeta in L2. fold d2 in L2. split.
  - now rewrite (len_select _ _ _ H), (len_setitem _ _ _ _ E3), L2,
      (len_setitem _ _ _ _ E1), len_rename.
  - rewrite (columns_select _ _ _ H). apply filter_In.
    split; [simpl; auto | exact (has_column_assigned _ _ _ _ E3)].
Qed.

Lemma create_employee_dimension_numbered
    (employees_df emp_terr_df territories_df regions_df out : DataFrame) :
  empty employees_df = false ->
  create_employee_dimension employees_df emp_terr_df territories_df regions_df = Ok out ->
  len out = len employees_df /\ In "sk_employee" (columns out).
Proof.
  intros Hne H. unfold create_employee_dimension in H. rewrite Hne in H.
  unfold copy in H. inv_bind_as H fn Efn. inv_bind_as H ln Eln.
  inv_bind_as H d1 E1. inv_bind_as H d2 E2. inv_bind_as H d3 E3.
  destruct (setitem_facts _ _ _ _ E2) as (L2 & _ & _ & In2 & _).
  destruct (add_territory_info_keeps _ _ _ _ _ "sk_employee" E3) as (L3 & _ & Hin3).
  { apply In2. now right. }
  { simpl. intuition discriminate. }
  split.
  - now rewrite (len_select _ _ _ H), L3, L2, (len_setitem _ _ _ _ E1), len_rename.
  - rewrite (columns_select _ _ _ H). apply filter_In.
    split; [simpl; auto | now apply has_column_In].
Qed.

(** C2: whatever table a builder returns, its surrogate key column holds
    1, 2, ..., N in row order, N being the number of rows of the table:
    [sk_client] in DimClient, [sk_employee] in DimEmployee and [fact_id]
    in the fact table.  A dimension built on a table that is not empty
    has its key column and one row per row of that table. *)
Theorem surrogate_keys_dense
    (customers_df employees_df emp_terr_df territories_df regions_df
       orders_df details_df client_dim employee_dim
       dim_client dim_employee fact : DataFrame) :
  create_client_dimension customers_df = Ok dim_client ->
  create_employee_dimension employees_df emp_terr_df territories_df regions_df
  = Ok dim_employee ->
  create_sales_fact orders_df details_df client_dim employee_dim = Ok fact ->
  (column_cells dim_client "sk_client" = range 1 (len dim_client + 1) /\
   (empty customers_df = false ->
    len dim_client = len customers_df /\ In "sk_client" (columns dim_client))) /\
  (column_cells dim_employee "sk_employee" = range 1 (len dim_employee + 1) /\
   (empty employees_df = false ->
    len dim_employee = len employees_df /\ In "sk_employee" (columns dim_employee))) /\
  column_cells fact "fact_id" = range 1 (len fact + 1).
Proof.
  intros Hc He Hf. split; [|split]; [split|split|].
  - exact (create_client_dimension_dense _ _ Hc).
  - intros Hne. exact (create_client_dimension_numbered _ _ Hne Hc).
  - exact (create_employee_dimension_dense _ _ _ _ _ He).
  - intros Hne. exact (create_employee_dimension_numbered _ _ _ _ _ Hne He).
  - exact (create_sales_fact_numbered _ _ _ _ _ Hf).
Qed.

End DenseKeys.

Lemma surrogate_keys_dense_witness :
  exists dim_client dim_employee fact,
    create_client_dimension Sample.customers = Ok dim_client /\
    create_employee_dimension (P := Sample.pandas) Sample.employees
      Sample.employeeterritories Sample.territories Sample.region = Ok dim_employee /\
    create_sales_fact (P := Sample.pandas) Sample.orders Sample.details
      Sample.dim_client Sample.dim_employee = Ok fact /\
    column_cells dim_client "sk_client" = [VInt 1; VInt 2] /\
    column_cells dim_employee "sk_employee" = [VInt 1; VInt 2; VInt 3] /\
    column_cells fact "fact_id" = [VInt 1; VInt 2; VInt 3; VInt 4].
Proof.
  destruct (create_client_dimension Sample.customers) as [dc|e] eqn:Ec;
    [|vm_compute in Ec; discriminate].
  destruct (create_employee_dimension (P := Sample.pandas) Sample.employees
              Sample.employeeterritories Sample.territories Sample.region)
    as [de|e] eqn:Ee; [|vm_compute in Ee; discriminate].
  destruct (create_sales_fact (P := Sample.pandas) Sample.orders Sample.details
              Sample.dim_client Sample.dim_employee) as [f|e] eqn:Ef;
    [|vm_compute in Ef; discriminate].
  destruct (surrogate_keys_dense (P := Sample.pandas) Sample.customers Sample.employees
              Sample.employeeterritories Sample.territories Sample.region
              Sample.orders Sample.details Sample.dim_client Sample.dim_employee
              dc de f Ec Ee Ef) as ((Kc & _) & (Ke & _) & Kf).
  exists dc, de, f. split; [reflexivity|]. split; [reflexivity|].
  split; [reflexivity|].
  rewrite Kc, Ke, Kf.
  vm_compute in Ec. inversion Ec. vm_compute in Ee. inversion Ee.
  vm_compute in Ef. inversion Ef. repeat split.
Defined.

(** ** The date key of a fact row (claim C4) *)

(** C4: for order dates that are text or missing and distinct natural
    keys in the two dimensions, the fact table has one row per order
    line, and the [sk_date] of the row is the integer YYYYMMDD of the
    timestamp read in the order date of the line, and 19000101 when no
    timestamp is read in it or the order date is missing. *)
Theorem fact_date_key_or_sentinel {P : Pandas} {Laws : PandasLaws P}
    (orders_df details_df client_dim employee_dim out : DataFrame) :
  fact_sources orders_df details_df = true ->
  empty orders_df = false -> empty details_df = false ->
  holds orders_df "orderdate" text_or_missing = true ->
  (empty client_dim = false -> NoDup (column_cells client_dim "bk_customer_id")) ->
  (empty employee_dim = false -> NoDup (column_cells employee_dim "bk_employee_id")) ->
  create_sales_fact orders_df details_df client_dim employee_dim = Ok out ->
  len out = List.length (order_lines orders_df details_df) /\
  Forall2 (fun p k =>
             match to_datetime (str (cell (snd p) "orderdate")) with
             | Some t => valid_timestamp t -> k = VInt (yyyymmdd t)
             | None => k = VInt 19000101
             end /\
             (cell (snd p) "orderdate" = NaN -> k = VInt 19000101))
    (order_lines orders_df details_df) (column_cells out "sk_date").
Proof.
  intros Hsrc Ho Hd _ Hc He H.
  destruct (create_sales_fact_columns _ _ _ _ _ Hsrc Ho Hd Hc He H)
    as (H1 & _ & _ & _ & _ & _ & _ & H8 & _).
  split; [exact H1|].
  eapply Forall2_impl; [|exact H8].
  intros p k Hk. cbv beta in Hk |- *. split.
  - destruct (to_datetime (str (cell (snd p) "orderdate"))) as [t|]; [|exact Hk].
    intros Hv. rewrite (sk_date_valid _ Hv) in Hk. now inversion Hk.
  - intros Hnan. rewrite Hnan in Hk. cbn [str] in Hk.
    now rewrite to_datetime_nan in Hk.
Qed.

Lemma fact_date_key_or_sentinel_witness :
  exists out,
    create_sales_fact (P := Sample.pandas) Sample.orders Sample.details
      Sample.dim_client Sample.dim_employee = Ok out /\
    map (fun p => cell (snd p) "orderdate") (order_lines Sample.orders Sample.details)
    = [VStr "2013-07-04"; VStr "2013-07-04"; NaN; VStr "not a date"] /\
    len out = 4%nat /\
    column_cells out "sk_date"
    = [VInt 20130704; VInt 20130704; VInt 19000101; VInt 19000101].
Proof.
  destruct (create_sales_fact (P := Sample.pandas) Sample.orders Sample.details
              Sample.dim_client Sample.dim_employee) as [out|e] eqn:E;
    [|vm_compute in E; discriminate].
  destruct (fact_date_key_or_sentinel (P := Sample.pandas) (Laws := sample_laws)
              Sample.orders Sample.details Sample.dim_client Sample.dim_employee out
              eq_refl eq_refl eq_refl eq_refl
              (fun _ => sample_client_keys) (fun _ => sample_employee_keys) E)
    as [Hlen _].
  exists out. split; [reflexivity|]. split; [reflexivity|]. split; [exact Hlen|].
  vm_compute in E. inversion E. reflexivity.
Defined.

(** ** Order lines of unknown customers (claim C5) *)

(** C5: linked to a client dimension that is not empty and has distinct
    natural keys, the fact table has one row per order line and a column
    [sk_client]; a line whose customer id, uppercased and trimmed, is the
    natural key of no client has its row, with a missing [sk_client].
    The customer ids of the orders are text or missing. *)
Theorem unmatched_customer_keeps_row {P : Pandas}
    (orders_df details_df client_dim employee_dim out : DataFrame) :
  fact_sources orders_df details_df = true ->
  empty orders_df = false -> empty details_df = false ->
  holds orders_df "customerid" text_id = true ->
  empty client_dim = false ->
  NoDup (column_cells client_dim "bk_customer_id") ->
  (empty employee_dim = false -> NoDup (column_cells employee_dim "bk_employee_id")) ->
  create_sales_fact orders_df details_df client_dim employee_dim = Ok out ->
  len out = List.length (order_lines orders_df details_df) /\
  In "sk_client" (columns out) /\
  Forall2 (fun p k =>
             (forall b, In b (rows client_dim) ->
                        cell b "bk_customer_id"
                        <> normalized_id (cell (snd p) "customerid")) ->
             k = NaN)
    (order_lines orders_df details_df) (column_cells out "sk_client").
Proof.
  intros Hsrc Ho Hd _ Hne Hc He H.
  destruct (create_sales_fact_columns _ _ _ _ _ Hsrc Ho Hd (fun _ => Hc) He H)
    as (H1 & _ & _ & _ & _ & _ & _ & _ & H9 & _ & H11 & _).
  rewrite Hne in H9. split; [exact H1|]. split; [exact (H11 Hne)|].
  rewrite H9. apply Forall2_map_fun. intros p _ Hnone. unfold surrogate_of.
  destruct (find _ (rows client_dim)) as [b|] eqn:Ef; [|reflexivity].
  apply find_some in Ef. destruct Ef as [Hb Heq]. apply value_eqb_eq in Heq.
  exfalso. apply (Hnone b Hb). now symmetry.
Qed.

Lemma unmatched_customer_keeps_row_witness :
  exists out,
    create_sales_fact (P := Sample.pandas) Sample.orders Sample.details
      Sample.dim_client Sample.dim_employee = Ok out /\
    map (fun p => cell (snd p) "customerid") (order_lines Sample.orders Sample.details)
    = [VStr "ALFKI"; VStr "ALFKI"; VStr "ZZZZZ"; VStr "anatr "] /\
    len out = 4%nat /\
    column_cells out "sk_client" = [VInt 1; VInt 1; NaN; VInt 2].
Proof.
  destruct (create_sales_fact (P := Sample.pandas) Sample.orders Sample.details
              Sample.dim_client Sample.dim_employee) as [out|e] eqn:E;
    [|vm_compute in E; discriminate].
  destruct (unmatched_customer_keeps_row (P := Sample.pandas)
              Sample.orders Sample.details Sample.dim_client Sample.dim_employee out
              eq_refl eq_refl eq_refl eq_refl eq_refl
              sample_client_keys (fun _ => sample_employee_keys) E) as (Hlen & _ & _).
  exists out. split; [reflexivity|]. split; [reflexivity|]. split; [exact Hlen|].
  vm_compute in E. inversion E. reflexivity.
Defined.

(** ** The fact table of an empty dimension (claim C7) *)




